(** * recur_scan.features: a shallow embedding and its verification

    The development follows [src/recur_scan/features.py].  Every feature
    function of that file is transcribed as a function into an error monad
    (a Python exception is a value [Raise e]); the Python library calls the
    file makes ([datetime.strptime], [statistics.mean], [min], [sorted], float
    arithmetic, ...) are modelled first, in the modules [Float], [Builtins],
    [Statistics], [Str] and [Datetime].

    Floats are IEEE 754 binary64 values in the representation of the
    Standard Library's [SpecFloat]; a decimal literal of the source such as
    [1.02] is the binary64 value nearest to 102/100, exactly as Python reads
    it. *)

From Stdlib Require Import ZArith Lia List Bool Ascii String Sorted SpecFloat.
From stdpp Require Import base option list gmap strings.
Import ListNotations.

Local Open Scope Z_scope.

(** ** Exceptions and the error monad *)

(** An exception is identified by the name of its class. *)
Inductive exn : Type := PyExc (cls : string).

Definition ValueError : exn := PyExc "ValueError".
Definition OverflowError : exn := PyExc "OverflowError".
Definition ZeroDivisionError : exn := PyExc "ZeroDivisionError".
Definition IndexError : exn := PyExc "IndexError".
Definition StatisticsError : exn := PyExc "StatisticsError".

Inductive result (A : Type) : Type :=
| Ok (a : A)
| Raise (e : exn).
Arguments Ok {A} a.
Arguments Raise {A} e.

Definition bind {A B : Type} (m : result A) (k : A -> result B) : result B :=
  match m with
  | Ok a => k a
  | Raise e => Raise e
  end.

Notation "'let*' x ':=' m 'in' k" := (bind m (fun x => k))
  (at level 10, x name, m at level 100, k at level 200).

(** [mapM f l] is the list comprehension [[f(x) for x in l]]: the elements
    are evaluated from left to right and the first exception escapes. *)
Fixpoint mapM {A B : Type} (f : A -> result B) (l : list A) : result (list B) :=
  match l with
  | [] => Ok []
  | x :: l' =>
      let* y := f x in
      let* ys := mapM f l' in
      Ok (y :: ys)
  end.

Definition is_ok {A : Type} (r : result A) : Prop := exists a, r = Ok a.

(** [len(l)] as a Python integer. *)
Definition len {A : Type} (l : list A) : Z := Z.of_nat (length l).

(** [int(b)] for a boolean [b]. *)
Definition int_of_bool (b : bool) : Z := if b then 1 else 0.

(** ** Python floats *)
Module Float.

Definition prec : Z := 53.
Definition emax : Z := 1024.

(** A Python [float]: a binary64 value. *)
Definition float : Type := spec_float.

Definition valid (x : float) : bool := valid_binary prec emax x.

(** An integer as an (unrounded) finite value with exponent 0. *)
Definition Z2SF (z : Z) : spec_float :=
  match z with
  | Z0 => S754_zero false
  | Zpos p => S754_finite false p 0
  | Zneg p => S754_finite true p 0
  end.

(** [n / d] for Python integers with [d <> 0]: the quotient rounded once,
    to nearest even.  (Python raises [OverflowError] when the quotient
    exceeds the float range; the integers of this program are counts and
    day numbers and stay far below.) *)
Definition div_int (n d : Z) : float := SFdiv prec emax (Z2SF n) (Z2SF d).

(** The decimal literal whose value is [n / d], e.g. [lit 102 100] for
    [1.02]: Python reads a literal as the nearest binary64 value. *)
Definition lit (n d : Z) : float := div_int n d.

(** [float(z)] for a Python integer. *)
Definition of_int (z : Z) : float := binary_normalize prec emax z 0 false.

Definition zero : float := S754_zero false.

Definition add : float -> float -> float := SFadd prec emax.
Definition sub : float -> float -> float := SFsub prec emax.
Definition mul : float -> float -> float := SFmul prec emax.
Definition sqrt : float -> float := SFsqrt prec emax.
Definition opp : float -> float := SFopp.

Definition eqb : float -> float -> bool := SFeqb.
Definition ltb : float -> float -> bool := SFltb.
Definition leb : float -> float -> bool := SFleb.
Definition gtb (x y : float) : bool := SFltb y x.
Definition geb (x y : float) : bool := SFleb y x.

Definition is_zero (x : float) : bool :=
  match x with
  | S754_zero _ => true
  | _ => false
  end.

Definition is_finite (x : float) : bool :=
  match x with
  | S754_zero _ | S754_finite _ _ _ => true
  | _ => false
  end.

(** [x / y] on floats: division by a zero raises. *)
Definition truediv (x y : float) : result float :=
  if is_zero y then Raise ZeroDivisionError else Ok (SFdiv prec emax x y).

(** [a / b] on integers (true division). *)
Definition int_truediv (a b : Z) : result float :=
  if b =? 0 then Raise ZeroDivisionError else Ok (div_int a b).

(** [int(x)]: truncation towards zero; NaN and the infinities raise. *)
Definition to_int (x : float) : result Z :=
  match x with
  | S754_nan => Raise ValueError
  | S754_infinity _ => Raise OverflowError
  | S754_zero _ => Ok 0
  | S754_finite s m e =>
      let a := if 0 <=? e then Z.pos m * 2 ^ e else Z.pos m / 2 ^ (- e) in
      Ok (if s then - a else a)
  end.

(** [x ** 2] on a float: the rounded product. *)
Definition square (x : float) : float := mul x x.

(** [x ** 0.5] on a float that is not negative, modelled by the correctly
    rounded square root.  Python calls the C library's [pow], which need not
    round correctly: it returns 0.0 at 0.0, as here, and may differ from the
    value given here in the last bit elsewhere.  No statement below depends
    on the low bits of this value. *)
Definition pow_half (x : float) : float := sqrt x.

(** The exact value of a finite float as [m * 2 ^ e]. *)
Definition mantissa (x : float) : Z :=
  match x with
  | S754_finite s m _ => if s then Z.neg m else Z.pos m
  | _ => 0
  end.

Definition exponent (x : float) : Z :=
  match x with
  | S754_finite _ _ e => e
  | _ => 0
  end.

End Float.

Abbreviation float := Float.float.

(** ** Built-in functions on lists *)
Module Builtins.

(** [l[i]]: a negative index counts from the end; out of range raises. *)
Definition getitem {A : Type} (l : list A) (i : Z) : result A :=
  let j := if i <? 0 then i + len l else i in
  if (j <? 0) || (len l <=? j) then Raise IndexError
  else match nth_error l (Z.to_nat j) with
       | Some x => Ok x
       | None => Raise IndexError
       end.

(** [range(n)]. *)
Definition range (n : Z) : list Z := map Z.of_nat (seq 0 (Z.to_nat n)).

(** [min(l)]: the first element that no later element is smaller than. *)
Definition min_by {A : Type} (lt : A -> A -> bool) (l : list A) : result A :=
  match l with
  | [] => Raise ValueError
  | x :: l' => Ok (fold_left (fun cur item => if lt item cur then item else cur) l' x)
  end.

(** [max(l)]. *)
Definition max_by {A : Type} (gt : A -> A -> bool) (l : list A) : result A :=
  match l with
  | [] => Raise ValueError
  | x :: l' => Ok (fold_left (fun cur item => if gt item cur then item else cur) l' x)
  end.

Definition min_int : list Z -> result Z := min_by Z.ltb.
Definition max_int : list Z -> result Z := max_by Z.gtb.
Definition min_float : list float -> result float := min_by Float.ltb.
Definition max_float : list float -> result float := max_by Float.gtb.

(** [sum(l)] on integers. *)
Definition sum_int (l : list Z) : Z := fold_left Z.add l 0.

(** [sum(l)] on floats: the additions from left to right, starting from
    the integer 0 (Python 3.12 and later compensate the rounding errors of
    this loop; no property below depends on the low bits of a sum). *)
Definition sum_float (l : list float) : float := fold_left Float.add l Float.zero.

(** [any(p(x) for x in l)]. *)
Definition any {A : Type} (p : A -> bool) (l : list A) : bool := existsb p l.

(** [sorted(l)], which compares with [<] only: a stable insertion sort
    (an element goes behind the elements that are smaller than it and
    before the later elements that are not). *)
Fixpoint insert_sorted {A : Type} (lt : A -> A -> bool) (x : A) (l : list A) : list A :=
  match l with
  | [] => [x]
  | y :: l' => if lt y x then y :: insert_sorted lt x l' else x :: y :: l'
  end.

Definition sorted {A : Type} (lt : A -> A -> bool) (l : list A) : list A :=
  fold_right (insert_sorted lt) [] l.

(** [Counter(l)[k]]: the number of occurrences of [k]. *)
Definition Counter (l : list Z) (k : Z) : Z := len (List.filter (Z.eqb k) l).

End Builtins.

(** ** Values stored in a feature dictionary *)
Inductive value : Type :=
| VInt (z : Z)
| VFloat (x : float)
| VStr (s : string).

(** A float equals an integer when its exact value is that integer. *)
Definition float_eq_int (x : float) (z : Z) : bool :=
  match x with
  | S754_zero _ => z =? 0
  | S754_finite _ _ e =>
      if 0 <=? e then z =? Float.mantissa x * 2 ^ e
      else (Float.mantissa x mod 2 ^ (- e) =? 0) && (z =? Float.mantissa x / 2 ^ (- e))
  | _ => false
  end.

(** Python's [==] between two such values: an integer and a float are
    compared by their exact numeric value. *)
Definition py_eq (a b : value) : bool :=
  match a, b with
  | VInt x, VInt y => x =? y
  | VFloat x, VFloat y => Float.eqb x y
  | VInt x, VFloat y => float_eq_int y x
  | VFloat x, VInt y => float_eq_int x y
  | VStr s, VStr t => String.eqb s t
  | _, _ => false
  end.

(** ** The [statistics] module (Python 3.11 and later) *)
Module Statistics.
Import Builtins.

(** [mean] of integers: the exact quotient, an [int] when it is integral
    and the nearest float otherwise. *)
Definition mean_int (l : list Z) : result value :=
  let n := len l in
  if n <? 1 then Raise StatisticsError
  else
    let total := sum_int l in
    if total mod n =? 0 then Ok (VInt (total / n))
    else Ok (VFloat (Float.div_int total n)).

(** The exact sum of finite floats as [m * 2 ^ e]. *)
Definition exact_add (acc : Z * Z) (x : float) : Z * Z :=
  let '(m, e) := acc in
  let e' := Z.min e (Float.exponent x) in
  (m * 2 ^ (e - e') + Float.mantissa x * 2 ^ (Float.exponent x - e'), e').

Definition exact_sum (l : list float) : Z * Z := fold_left exact_add l (0, 0).

(** [mean] of floats: the exact sum divided by the count and rounded once;
    when a NaN or an infinity occurs, the float sum of those values
    divided by the count. *)
Definition mean_float (l : list float) : result float :=
  let n := len l in
  if n <? 1 then Raise StatisticsError
  else
    match List.filter (fun x => negb (Float.is_finite x)) l with
    | [] =>
        let '(m, e) := exact_sum l in
        if 0 <=? e then Float.int_truediv (m * 2 ^ e) n
        else Float.int_truediv m (n * 2 ^ (- e))
    | specials => Float.truediv (sum_float specials) (Float.of_int n)
    end.

(** [int.bit_length]. *)
Definition bit_length (n : Z) : Z := if n =? 0 then 0 else Z.log2 (Z.abs n) + 1.

(** [math.isqrt]. *)
Definition isqrt (n : Z) : result Z :=
  if n <? 0 then Raise ValueError else Ok (Z.sqrt n).

(** [_integer_sqrt_of_frac_rto(n, m)]: the square root of [n / m], rounded
    to the nearest integer using round-to-odd. *)
Definition _integer_sqrt_of_frac_rto (n m : Z) : result Z :=
  if m =? 0 then Raise ZeroDivisionError
  else
    let* a := isqrt (n / m) in
    Ok (Z.lor a (int_of_bool (negb (a * a * m =? n)))).

Definition _sqrt_bit_width : Z := 2 * 53 + 3.

(** [_float_sqrt_of_frac(n, m)]: the square root of [n / m] as a float,
    correctly rounded. *)
Definition _float_sqrt_of_frac (n m : Z) : result float :=
  let q := (bit_length n - bit_length m - _sqrt_bit_width) / 2 in
  if 0 <=? q then
    let* r := _integer_sqrt_of_frac_rto n (Z.shiftl m (2 * q)) in
    Float.int_truediv (Z.shiftl r q) 1
  else
    let* r := _integer_sqrt_of_frac_rto (Z.shiftl n (- 2 * q)) m in
    Float.int_truediv r (Z.shiftl 1 (- q)).

(** [stdev] of integers: the square root of the exact sample variance
    [(n * sum(x*x) - sum(x)**2) / (n * (n - 1))], a fraction in lowest
    terms. *)
Definition stdev_int (l : list Z) : result float :=
  let n := len l in
  if n <? 2 then Raise StatisticsError
  else
    let sx := sum_int l in
    let sxx := sum_int (map (fun x => x * x) l) in
    let num := n * sxx - sx * sx in
    let den := n * (n - 1) in
    let g := Z.gcd num den in
    _float_sqrt_of_frac (num / g) (den / g).

End Statistics.

(** ** Strings

    A string is a sequence of 8-bit characters.  A Python string of ASCII
    characters is represented by itself, and on such text the functions of
    this module and the digits of [Datetime.strptime] are those of Python.
    Python's own tables are those of Unicode: [str.lower] also maps letters
    outside ASCII (U+212A KELVIN SIGN becomes k), and [strptime] also reads
    the decimal digits of other scripts (such as the full-width digits).
    Text with such characters is outside the model: a statement that would
    not hold of such text is made for ASCII text ([ascii_text] below). *)
Module Str.

Definition lower_char (c : ascii) : ascii :=
  let n := nat_of_ascii c in
  if ((65 <=? n) && (n <=? 90))%nat then ascii_of_nat (n + 32) else c.

(** [s.lower()]: the letters A..Z become a..z, every other character is
    kept.  This is [str.lower] on ASCII text. *)
Fixpoint lower (s : string) : string :=
  match s with
  | EmptyString => EmptyString
  | String c s' => String (lower_char c) (lower s')
  end.

(** [w in s]: [w] occurs in [s] as a substring. *)
Fixpoint contains (w s : string) : bool :=
  String.prefix w s ||
  match s with
  | EmptyString => false
  | String _ s' => contains w s'
  end.

(** [s in l] for a set (or list) of strings [l]. *)
Definition mem (s : string) (l : list string) : bool := existsb (String.eqb s) l.

End Str.

(** ** The [datetime] module

    The program only builds datetimes with [strptime(s, "%Y-%m-%d")] and by
    subtracting a [timedelta] of whole days, so every datetime is a calendar
    day at midnight.  Such a value is represented by its proleptic Gregorian
    ordinal (day 1 is 0001-01-01), which is what Python's comparison,
    subtraction and [timedelta] arithmetic of datetimes go through; year,
    month and day are recovered with [_ord2ymd]. *)
Module Datetime.

Record datetime : Type := of_ordinal { toordinal : Z }.

Definition MINYEAR : Z := 1.
Definition MAXYEAR : Z := 9999.
Definition _MAXORDINAL : Z := 3652059.

Definition _is_leap (year : Z) : bool :=
  (year mod 4 =? 0) && (negb (year mod 100 =? 0) || (year mod 400 =? 0)).

Definition _days_before_year (year : Z) : Z :=
  let y := year - 1 in
  y * 365 + y / 4 - y / 100 + y / 400.

Definition _DAYS_IN_MONTH : list Z := [-1; 31; 28; 31; 30; 31; 30; 31; 31; 30; 31; 30; 31].
Definition _DAYS_BEFORE_MONTH : list Z :=
  [-1; 0; 31; 59; 90; 120; 151; 181; 212; 243; 273; 304; 334].

Definition _days_in_month (year month : Z) : Z :=
  if (month =? 2) && _is_leap year then 29
  else nth (Z.to_nat month) _DAYS_IN_MONTH 0.

Definition _days_before_month (year month : Z) : Z :=
  nth (Z.to_nat month) _DAYS_BEFORE_MONTH 0
  + int_of_bool ((2 <? month) && _is_leap year).

Definition _ymd2ord (year month day : Z) : Z :=
  _days_before_year year + _days_before_month year month + day.

Definition _DI400Y : Z := 146097.
Definition _DI100Y : Z := 36524.
Definition _DI4Y : Z := 1461.

(** [_ord2ymd(n)]: the (year, month, day) of ordinal [n]. *)
Definition _ord2ymd (n : Z) : Z * Z * Z :=
  let n := n - 1 in
  let n400 := n / _DI400Y in
  let n := n mod _DI400Y in
  let year := n400 * 400 + 1 in
  let n100 := n / _DI100Y in
  let n := n mod _DI100Y in
  let n4 := n / _DI4Y in
  let n := n mod _DI4Y in
  let n1 := n / 365 in
  let n := n mod 365 in
  let year := year + n100 * 100 + n4 * 4 + n1 in
  if (n1 =? 4) || (n100 =? 4) then (year - 1, 12, 31)
  else
    let leapyear := (n1 =? 3) && (negb (n4 =? 24) || (n100 =? 3)) in
    let month := Z.shiftr (n + 50) 5 in
    let preceding :=
      nth (Z.to_nat month) _DAYS_BEFORE_MONTH 0 + int_of_bool ((2 <? month) && leapyear) in
    if n <? preceding then
      let month := month - 1 in
      let preceding :=
        preceding - (nth (Z.to_nat month) _DAYS_IN_MONTH 0
                     + int_of_bool ((month =? 2) && leapyear)) in
      (year, month, n - preceding + 1)
    else (year, month, n - preceding + 1).

Definition year (d : datetime) : Z := fst (fst (_ord2ymd (toordinal d))).
Definition month (d : datetime) : Z := snd (fst (_ord2ymd (toordinal d))).
Definition day (d : datetime) : Z := snd (_ord2ymd (toordinal d)).

(** [d.weekday()]: Monday is 0, Sunday is 6. *)
Definition weekday (d : datetime) : Z := (toordinal d + 6) mod 7.

Definition _isoweek1monday (year : Z) : Z :=
  let THURSDAY := 3 in
  let firstday := _ymd2ord year 1 1 in
  let firstweekday := (firstday + 6) mod 7 in
  let week1monday := firstday - firstweekday in
  if THURSDAY <? firstweekday then week1monday + 7 else week1monday.

(** [d.isocalendar()[1]]: the ISO week number. *)
Definition isocalendar_week (d : datetime) : Z :=
  let year := year d in
  let week1monday := _isoweek1monday year in
  let today := toordinal d in
  let week := (today - week1monday) / 7 in
  if week <? 0 then
    let week1monday := _isoweek1monday (year - 1) in
    (today - week1monday) / 7 + 1
  else if 52 <=? week then
    if _isoweek1monday (year + 1) <=? today then 1 else week + 1
  else week + 1.

(** [(a - b).days]. *)
Definition sub_days (a b : datetime) : Z := toordinal a - toordinal b.

(** [d - timedelta(days=n)]: a result outside the supported dates raises. *)
Definition sub_timedelta (d : datetime) (n : Z) : result datetime :=
  let o := toordinal d - n in
  if (0 <? o) && (o <=? _MAXORDINAL) then Ok (of_ordinal o)
  else Raise OverflowError.

Definition ltb (a b : datetime) : bool := toordinal a <? toordinal b.
Definition geb (a b : datetime) : bool := toordinal b <=? toordinal a.
Definition eqb (a b : datetime) : bool := toordinal a =? toordinal b.

(** *** [strptime(s, "%Y-%m-%d")]

    The format is matched as the regular expression
    [(\d\d\d\d)-(1[0-2]|0[1-9]|[1-9])-(3[01]|[12]\d|0[1-9]|[1-9]| [1-9])]
    at the start of the string (the alternatives are tried in order); text
    left over after the match, a year 0 and a day that the month does not
    have are errors.  A digit is one of 0..9, which is Python's [\d] on
    ASCII text. *)

Definition is_digit (c : ascii) : bool :=
  ((48 <=? nat_of_ascii c) && (nat_of_ascii c <=? 57))%nat.

Definition digit (c : ascii) : Z := Z.of_nat (nat_of_ascii c) - 48.

Definition in_range (lo hi : Z) (c : ascii) : bool :=
  is_digit c && (lo <=? digit c) && (digit c <=? hi).

(** [\d\d\d\d] *)
Definition match_year (s : string) : option (Z * string) :=
  match s with
  | String a (String b (String c (String d rest))) =>
      if is_digit a && is_digit b && is_digit c && is_digit d
      then Some (1000 * digit a + 100 * digit b + 10 * digit c + digit d, rest)
      else None
  | _ => None
  end.

Definition match_dash (s : string) : option string :=
  match s with
  | String c rest => if Ascii.eqb c "-" then Some rest else None
  | EmptyString => None
  end.

(** The matches of a two-character alternative [[a][b]] and of a
    one-character alternative. *)
Definition alt2 (pa pb : ascii -> bool) (val : ascii -> ascii -> Z) (s : string)
  : list (Z * string) :=
  match s with
  | String a (String b rest) => if pa a && pb b then [(val a b, rest)] else []
  | _ => []
  end.

Definition alt1 (pa : ascii -> bool) (s : string) : list (Z * string) :=
  match s with
  | String a rest => if pa a then [(digit a, rest)] else []
  | EmptyString => []
  end.

Definition two_digits (a b : ascii) : Z := 10 * digit a + digit b.

(** [1[0-2]|0[1-9]|[1-9]] *)
Definition month_alternatives (s : string) : list (Z * string) :=
  alt2 (in_range 1 1) (in_range 0 2) two_digits s
  ++ alt2 (in_range 0 0) (in_range 1 9) two_digits s
  ++ alt1 (in_range 1 9) s.

(** [3[01]|[12]\d|0[1-9]|[1-9]| [1-9]] *)
Definition day_alternatives (s : string) : list (Z * string) :=
  alt2 (in_range 3 3) (in_range 0 1) two_digits s
  ++ alt2 (in_range 1 2) is_digit two_digits s
  ++ alt2 (in_range 0 0) (in_range 1 9) two_digits s
  ++ alt1 (in_range 1 9) s
  ++ alt2 (fun c => Ascii.eqb c " ") (in_range 1 9) (fun _ b => digit b) s.

(** The first way to match the rest of the pattern after the year. *)
Fixpoint first_match {A B : Type} (k : A -> option B) (alts : list A) : option B :=
  match alts with
  | [] => None
  | a :: alts' =>
      match k a with
      | Some b => Some b
      | None => first_match k alts'
      end
  end.

Definition match_format (s : string) : option (Z * Z * Z * string) :=
  '(y, s1) ← match_year s;
  s2 ← match_dash s1;
  first_match
    (fun '(m, s3) =>
       s4 ← match_dash s3;
       '(d, s5) ← head (day_alternatives s4);
       Some (y, m, d, s5))
    (month_alternatives s2).

Definition strptime (s : string) : result datetime :=
  match match_format s with
  | None => Raise ValueError
  | Some (y, m, d, rest) =>
      if negb (String.eqb rest "") then Raise ValueError
      else if (MINYEAR <=? y) && (y <=? MAXYEAR)
              && (1 <=? d) && (d <=? _days_in_month y m)
      then Ok (of_ordinal (_ymd2ord y m d))
      else Raise ValueError
  end.

End Datetime.

Abbreviation datetime := Datetime.datetime.

(** ** Transactions and feature dictionaries *)

(** Modelled from the spec: the [Transaction] record of
    [recur_scan/transactions.py], which [features.py] imports and which is
    not among the sources.  Section 3 of the specification gives its fields;
    the amount is a float and the date is the text that [strptime] reads. *)
Record Transaction : Type := {
  id : Z;
  user_id : string;
  name : string;
  amount : float;
  date : string
}.

(** A feature dictionary maps a key to its value. *)
Abbreviation dict := (gmap string value).

(** The dictionary display [{k1: v1, ..., kn: vn}]: the items are stored
    from left to right, a later item replacing an earlier one with the same
    key. *)
Definition dict_of (items : list (string * value)) : dict :=
  fold_left (fun d kv => <[kv.1 := kv.2]> d) items ∅.

(** [{**d1, **d2}]: the items of [d2] replace those of [d1]. *)
Definition merge (d1 d2 : dict) : dict := d2 ∪ d1.

(** [table.get(k, default)] for a constant table keyed by strings, and for
    one keyed by floats (keys are compared with [==]). *)
Fixpoint get_str {V : Type} (table : list (string * V)) (k : string) (default : V) : V :=
  match table with
  | [] => default
  | (k', v) :: table' => if String.eqb k k' then v else get_str table' k default
  end.

Fixpoint get_float {V : Type} (table : list (float * V)) (k : float) (default : V) : V :=
  match table with
  | [] => default
  | (k', v) :: table' => if Float.eqb k k' then v else get_float table' k default
  end.

(** [x in {a, b, ...}] for a set of float literals. *)
Definition float_in (x : float) (s : list float) : bool := existsb (Float.eqb x) s.

(** [[t for t in all_transactions if t.name == transaction.name]] *)
Definition same_name (transaction : Transaction) (all_transactions : list Transaction)
  : list Transaction :=
  List.filter (fun t => String.eqb (name t) (name transaction)) all_transactions.

(** [datetime.datetime.strptime(t.date, "%Y-%m-%d")] *)
Definition parse_date (t : Transaction) : result datetime := Datetime.strptime (date t).

(** [sorted([strptime(t.date) for t in transactions])] *)
Definition sorted_dates (transactions : list Transaction) : result (list datetime) :=
  let* parsed := mapM parse_date transactions in
  Ok (Builtins.sorted Datetime.ltb parsed).

(** ** The feature functions *)

Definition get_n_transactions_same_amount
    (transaction : Transaction) (all_transactions : list Transaction) : Z :=
  len (List.filter (fun t => Float.eqb (amount t) (amount transaction)) all_transactions).

Definition get_percent_transactions_same_amount
    (transaction : Transaction) (all_transactions : list Transaction) : result float :=
  match all_transactions with
  | [] => Ok Float.zero
  | _ =>
      let n_same_amount :=
        len (List.filter (fun t => Float.eqb (amount t) (amount transaction)) all_transactions) in
      Float.int_truediv n_same_amount (len all_transactions)
  end.

(** [[(dates[i + 1] - dates[i]).days for i in range(len(dates) - 1)]] *)
Definition date_diffs_of (dates : list datetime) : result (list Z) :=
  mapM (fun i =>
          let* later := Builtins.getitem dates (i + 1) in
          let* earlier := Builtins.getitem dates i in
          Ok (Datetime.sub_days later earlier))
       (Builtins.range (len dates - 1)).

Definition between (lo hi d : Z) : bool := (lo <=? d) && (d <=? hi).

Definition time_based_defaults : dict :=
  dict_of [
    ("is_biweekly", VInt 0);
    ("is_semimonthly", VInt 0);
    ("is_monthly", VInt 0);
    ("is_bimonthly", VInt 0);
    ("is_quarterly", VInt 0);
    ("is_annual", VInt 0);
    ("avg_days_between_transactions", VFloat Float.zero);
    ("min_days_between_transactions", VInt 0);
    ("max_days_between_transactions", VInt 0);
    ("std_days_between_transactions", VFloat Float.zero)
  ].

Definition get_time_based_recurrence_patterns
    (transaction : Transaction) (all_transactions : list Transaction) : result dict :=
  let merchant_transactions := same_name transaction all_transactions in
  if len merchant_transactions <? 2 then Ok time_based_defaults
  else
    let* dates := sorted_dates merchant_transactions in
    let* date_diffs := date_diffs_of dates in
    let* avg_days := Statistics.mean_int date_diffs in
    let* min_days := Builtins.min_int date_diffs in
    let* max_days := Builtins.max_int date_diffs in
    let* std_days :=
      if 1 <? len date_diffs then Statistics.stdev_int date_diffs else Ok Float.zero in
    let recurrence_counter := Builtins.Counter date_diffs in
    Ok (dict_of [
      ("is_biweekly", VInt (int_of_bool (0 <? recurrence_counter 14)));
      ("is_semimonthly",
        VInt (int_of_bool
                (Builtins.any (fun d => existsb (Z.eqb d) [15; 16; 14; 17]) date_diffs)));
      ("is_monthly", VInt (int_of_bool (Builtins.any (between 27 31) date_diffs)));
      ("is_bimonthly", VInt (int_of_bool (Builtins.any (between 55 65) date_diffs)));
      ("is_quarterly", VInt (int_of_bool (Builtins.any (between 85 95) date_diffs)));
      ("is_annual", VInt (int_of_bool (Builtins.any (between 360 370) date_diffs)));
      ("avg_days_between_transactions", avg_days);
      ("min_days_between_transactions", VInt min_days);
      ("max_days_between_transactions", VInt max_days);
      ("std_days_between_transactions", VFloat std_days)
    ]).

Definition always_recurring_vendors : list string :=
  ["netflix"; "spotify"; "microsoft"; "amazon prime"; "at&t"; "verizon"; "spectrum";
   "geico"; "hugo insurance"].

(** [lambda amt: 0.98 <= amt - int(amt) <= 0.99] *)
Definition apple_rule (amt : float) : result bool :=
  let* whole := Float.to_int amt in
  let cents := Float.sub amt (Float.of_int whole) in
  Ok (Float.leb (Float.lit 98 100) cents && Float.leb cents (Float.lit 99 100)).

Definition vendor_specific_rules : list (string * (float -> result bool)) :=
  [ ("apple", apple_rule);
    ("brigit", fun amt => Ok (float_in amt [Float.lit 999 100; Float.lit 1499 100]));
    ("cleo ai", fun amt => Ok (float_in amt [Float.lit 399 100; Float.lit 699 100]));
    ("credit genie", fun amt => Ok (float_in amt [Float.lit 349 100; Float.lit 499 100])) ].

Definition validate_recurring_transaction (transaction : Transaction) : result bool :=
  let vendor_name := Str.lower (name transaction) in
  let amount := amount transaction in
  if Str.mem vendor_name always_recurring_vendors then Ok true
  else get_str vendor_specific_rules vendor_name (fun _ => Ok true) amount.

Definition major_subscriptions : list string :=
  ["netflix"; "spotify"; "disney+"; "hulu"; "amazon prime"; "paramount+"; "apple music"].
Definition telecom_or_insurance : list string :=
  ["at&t"; "verizon"; "t-mobile"; "geico"; "progressive"; "state farm"].
Definition utility_vendors : list string :=
  ["duke energy"; "con edison"; "national grid"; "pg&e"; "water company"; "gas company"].

Definition known_subscription_tiers : list (string * list (float * string)) :=
  [ ("netflix", [(Float.lit 899 100, "Basic"); (Float.lit 1549 100, "Standard");
                 (Float.lit 1999 100, "Premium")]);
    ("spotify", [(Float.lit 999 100, "Individual"); (Float.lit 1299 100, "Duo");
                 (Float.lit 1599 100, "Family")]);
    ("disney+", [(Float.lit 799 100, "Basic"); (Float.lit 1399 100, "Premium")]) ].

Definition get_vendor_subscription_features (transaction : Transaction) : dict :=
  let vendor_name := Str.lower (name transaction) in
  let amount := amount transaction in
  dict_of [
    ("is_major_subscription", VInt (int_of_bool (Str.mem vendor_name major_subscriptions)));
    ("is_telecom_or_insurance", VInt (int_of_bool (Str.mem vendor_name telecom_or_insurance)));
    ("is_utility_bill", VInt (int_of_bool (Str.mem vendor_name utility_vendors)));
    ("subscription_tier",
      VStr (get_float (get_str known_subscription_tiers vendor_name []) amount "Unknown"))
  ].

Definition refund_keywords : list string := ["refund"; "reversal"; "canceled"; "chargeback"].

(** [transaction.amount == -t.amount and any(word in t.name.lower() ...)] *)
Definition is_refund_of (transaction t : Transaction) : bool :=
  Float.eqb (amount transaction) (Float.opp (amount t))
  && Builtins.any (fun word => Str.contains word (Str.lower (name t))) refund_keywords.

Definition additional_defaults : dict :=
  dict_of [
    ("n_similar_transactions_last_3_months", VInt 0);
    ("n_similar_transactions_last_6_months", VInt 0);
    ("transaction_day_consistency", VFloat Float.zero);
    ("is_first_transaction_with_vendor", VInt 1);
    ("is_canceled_or_refunded", VInt 0)
  ].

(** The population standard deviation of the days of the month, as the
    source computes it with float arithmetic. *)
Definition day_std_dev_of (transaction_days : list Z) : result float :=
  if 1 <? len transaction_days then
    let* avg_day :=
      Float.int_truediv (Builtins.sum_int transaction_days) (len transaction_days) in
    let squares :=
      map (fun x => Float.square (Float.sub (Float.of_int x) avg_day)) transaction_days in
    let* variance :=
      Float.truediv (Builtins.sum_float squares) (Float.of_int (len transaction_days)) in
    Ok (Float.pow_half variance)
  else Ok Float.zero.

Definition get_additional_recurring_indicators
    (transaction : Transaction) (all_transactions : list Transaction) : result dict :=
  let* date_obj := parse_date transaction in
  let merchant_transactions := same_name transaction all_transactions in
  match merchant_transactions with
  | [] => Ok additional_defaults
  | _ =>
      let* dates := sorted_dates merchant_transactions in
      let* three_months_ago := Datetime.sub_timedelta date_obj 90 in
      let* six_months_ago := Datetime.sub_timedelta date_obj 180 in
      let transactions_last_3_months :=
        List.filter (fun d => Datetime.geb d three_months_ago) dates in
      let transactions_last_6_months :=
        List.filter (fun d => Datetime.geb d six_months_ago) dates in
      let transaction_days := map Datetime.day dates in
      let* day_std_dev := day_std_dev_of transaction_days in
      let* first := Builtins.getitem dates 0 in
      let is_first_transaction := if Datetime.eqb date_obj first then 1 else 0 in
      let is_canceled_or_refunded :=
        Builtins.any (is_refund_of transaction) all_transactions in
      Ok (dict_of [
        ("n_similar_transactions_last_3_months", VInt (len transactions_last_3_months));
        ("n_similar_transactions_last_6_months", VInt (len transactions_last_6_months));
        ("transaction_day_consistency", VFloat day_std_dev);
        ("is_first_transaction_with_vendor", VInt is_first_transaction);
        ("is_canceled_or_refunded", VInt (int_of_bool is_canceled_or_refunded))
      ])
  end.

Definition get_day_of_week_features
    (transaction : Transaction) (all_transactions : list Transaction) : result dict :=
  let* date_obj := parse_date transaction in
  let merchant_transactions := same_name transaction all_transactions in
  let* dates := sorted_dates merchant_transactions in
  let* last_transaction_date :=
    if 1 <? len dates then
      let* d := Builtins.getitem dates (-2) in Ok (Some d)
    else Ok None in
  let days_since_last :=
    match last_transaction_date with
    | Some d => Datetime.sub_days date_obj d
    | None => 0
    end in
  Ok (dict_of [
    ("day_of_month", VInt (Datetime.day date_obj));
    ("weekday", VInt (Datetime.weekday date_obj));
    ("week_of_year", VInt (Datetime.isocalendar_week date_obj));
    ("is_weekend", VInt (int_of_bool (5 <=? Datetime.weekday date_obj)));
    ("days_since_last_transaction", VInt days_since_last)
  ]).

Definition amount_defaults : dict :=
  dict_of [
    ("is_fixed_amount_recurring", VInt 0);
    ("amount_fluctuation_range", VFloat Float.zero);
    ("is_small_subscription", VInt 0);
    ("is_mid_sized_subscription", VInt 0);
    ("is_large_recurring_payment", VInt 0)
  ].

Definition get_amount_based_features
    (transaction : Transaction) (all_transactions : list Transaction) : result dict :=
  let vendor_transactions := same_name transaction all_transactions in
  match vendor_transactions with
  | [] => Ok amount_defaults
  | _ =>
      let amounts := map amount vendor_transactions in
      let* min_amount := Builtins.min_float amounts in
      let* max_amount := Builtins.max_float amounts in
      let amt := amount transaction in
      Ok (dict_of [
        ("is_fixed_amount_recurring",
          VInt (int_of_bool (Float.leb max_amount (Float.mul min_amount (Float.lit 102 100)))));
        ("amount_fluctuation_range", VFloat (Float.sub max_amount min_amount));
        ("is_small_subscription",
          VInt (int_of_bool (Float.leb (Float.lit 399 100) amt
                             && Float.leb amt (Float.lit 1499 100))));
        ("is_mid_sized_subscription",
          VInt (int_of_bool (Float.leb (Float.of_int 15) amt
                             && Float.leb amt (Float.lit 4999 100))));
        ("is_large_recurring_payment", VInt (int_of_bool (Float.geb amt (Float.of_int 50))))
      ])
  end.

Definition temporal_defaults : dict :=
  dict_of [
    ("time_since_first_transaction", VInt 0);
    ("transaction_frequency", VFloat Float.zero)
  ].

Definition get_temporal_features
    (transaction : Transaction) (all_transactions : list Transaction) : result dict :=
  let merchant_transactions := same_name transaction all_transactions in
  let* dates := sorted_dates merchant_transactions in
  if len dates <? 2 then Ok temporal_defaults
  else
    let* first_transaction_date := Builtins.getitem dates 0 in
    let* date_obj := parse_date transaction in
    let time_since_first := Datetime.sub_days date_obj first_transaction_date in
    let* last := Builtins.getitem dates (-1) in
    let* first := Builtins.getitem dates 0 in
    let total_days := Datetime.sub_days last first in
    let* transaction_frequency :=
      if total_days =? 0 then Ok Float.zero
      else
        let* months := Float.int_truediv total_days 30 in
        Float.truediv (Float.of_int (len dates)) months in
    Ok (dict_of [
      ("time_since_first_transaction", VInt time_since_first);
      ("transaction_frequency", VFloat transaction_frequency)
    ]).

Definition vendor_categories : list (string * list string) :=
  [ ("streaming", ["netflix"; "spotify"; "disney+"; "hulu"; "amazon prime"]);
    ("telecom", ["at&t"; "verizon"; "t-mobile"]);
    ("utilities", ["duke energy"; "con edison"; "national grid"]) ].

(** The loop over [vendor_categories.items()] that stops at the first
    category listing the vendor. *)
Fixpoint find_category (vendor : string) (categories : list (string * list string))
  : string :=
  match categories with
  | [] => "other"
  | (category, vendors) :: rest =>
      if Str.mem vendor vendors then category else find_category vendor rest
  end.

Definition get_vendor_specific_features
    (transaction : Transaction) (all_transactions : list Transaction) : dict :=
  let vendor_transactions := same_name transaction all_transactions in
  let vendor_popularity := len vendor_transactions in
  let vendor_category := find_category (Str.lower (name transaction)) vendor_categories in
  dict_of [
    ("vendor_popularity", VInt vendor_popularity);
    ("vendor_category", VStr vendor_category)
  ].

Definition user_defaults : dict :=
  dict_of [
    ("user_avg_transaction_amount", VFloat Float.zero);
    ("user_total_spending", VFloat Float.zero);
    ("user_subscription_count", VInt 0)
  ].

Definition known_subscriptions : list string :=
  ["netflix"; "spotify"; "disney+"; "hulu"; "amazon prime"; "at&t"; "verizon"; "t-mobile"].

Definition get_user_behavior_features
    (transaction : Transaction) (all_transactions : list Transaction) : result dict :=
  let user_transactions :=
    List.filter (fun t => String.eqb (user_id t) (user_id transaction)) all_transactions in
  match user_transactions with
  | [] => Ok user_defaults
  | _ =>
      let amounts := map amount user_transactions in
      let* user_avg_transaction_amount := Statistics.mean_float amounts in
      let user_total_spending := Builtins.sum_float amounts in
      let user_subscription_count :=
        len (List.filter (fun t => Str.mem (name t) known_subscriptions) user_transactions) in
      Ok (dict_of [
        ("user_avg_transaction_amount", VFloat user_avg_transaction_amount);
        ("user_total_spending", VFloat user_total_spending);
        ("user_subscription_count", VInt user_subscription_count)
      ])
  end.

Definition refund_defaults : dict :=
  dict_of [
    ("refund_rate", VFloat Float.zero);
    ("refund_time_lag", VFloat Float.zero)
  ].

Definition get_refund_features
    (transaction : Transaction) (all_transactions : list Transaction) : result dict :=
  let refund_transactions :=
    List.filter (fun t => Float.eqb (amount t) (Float.opp (amount transaction)))
                all_transactions in
  match refund_transactions with
  | [] => Ok refund_defaults
  | _ =>
      let* refund_rate :=
        Float.int_truediv (len refund_transactions) (len all_transactions) in
      let* refund_time_lags :=
        mapM (fun t =>
                let* refund_date := parse_date t in
                let* charge_date := parse_date transaction in
                Ok (Datetime.sub_days refund_date charge_date))
             refund_transactions in
      let* avg_refund_time_lag :=
        match refund_time_lags with
        | [] => Ok (VFloat Float.zero)
        | _ => Statistics.mean_int refund_time_lags
        end in
      Ok (dict_of [
        ("refund_rate", VFloat refund_rate);
        ("refund_time_lag", avg_refund_time_lag)
      ])
  end.

Definition get_features
    (transaction : Transaction) (all_transactions : list Transaction) : result dict :=
  let n_same := get_n_transactions_same_amount transaction all_transactions in
  let* percent_same := get_percent_transactions_same_amount transaction all_transactions in
  let same_amount :=
    dict_of [
      ("n_transactions_same_amount", VInt n_same);
      ("percent_transactions_same_amount", VFloat percent_same)
    ] in
  let* time_based := get_time_based_recurrence_patterns transaction all_transactions in
  let subscription := get_vendor_subscription_features transaction in
  let* amount_based := get_amount_based_features transaction all_transactions in
  let* additional := get_additional_recurring_indicators transaction all_transactions in
  let* day_of_week := get_day_of_week_features transaction all_transactions in
  let* temporal := get_temporal_features transaction all_transactions in
  let vendor := get_vendor_specific_features transaction all_transactions in
  let* user_behavior := get_user_behavior_features transaction all_transactions in
  let* refund := get_refund_features transaction all_transactions in
  let* valid := validate_recurring_transaction transaction in
  Ok (<["is_valid_recurring_transaction" := VInt (int_of_bool valid)]>
        (merge (merge (merge (merge (merge (merge (merge (merge (merge
           same_amount time_based) subscription) amount_based) additional) day_of_week)
           temporal) vendor) user_behavior) refund)).

(** * Vocabulary of the statements *)

(** ** Outcomes *)

(** The value a dictionary display gives a key: that of its last item with
    this key. *)
Definition item_value (items : list (string * value)) (k : string) : option value :=
  fold_left (fun acc kv => if String.eqb kv.1 k then Some kv.2 else acc) items None.

(** The value of a key in the outcome of a computation, when there is one. *)
Definition feature (r : result dict) (k : string) : option value :=
  match r with
  | Ok d => d !! k
  | Raise _ => None
  end.

(** Whether a computation returned. *)
Definition returns {A : Type} (r : result A) : bool :=
  match r with
  | Ok _ => true
  | Raise _ => false
  end.

(** The key [k] of [d] holds a 0/1 flag that is 1 exactly when [P] holds. *)
Definition flag_is (d : dict) (k : string) (P : Prop) : Prop :=
  exists b : bool, d !! k = Some (VInt (int_of_bool b)) /\ (b = true <-> P).

(** ** Text *)

(** [s.isascii()]: every character of [s] is one of the 128 ASCII
    characters.  On such text [Str.lower] is Python's [str.lower] and the
    digits that [Datetime.strptime] reads are the digits that Python's
    [strptime] reads. *)
Fixpoint ascii_text (s : string) : bool :=
  match s with
  | EmptyString => true
  | String c s' => (nat_of_ascii c <? 128)%nat && ascii_text s'
  end.

(** ** Transactions, dates and gaps *)

(** The date of [t] is one that [strptime] reads. *)
Definition parses (t : Transaction) : Prop := is_ok (parse_date t).

(** [t] is a refund of [tx]: its amount is the exact negation of the amount
    of [tx] and its name contains a refund keyword, whatever the case of the
    letters. *)
Definition refunds (t tx : Transaction) : Prop :=
  Float.eqb (amount t) (Float.opp (amount tx)) = true
  /\ exists word, In word refund_keywords
                  /\ Str.contains word (Str.lower (name t)) = true.

(** The differences between consecutive dates: the day gaps. *)
Fixpoint adjacent_diffs (dates : list datetime) : list Z :=
  match dates with
  | [] => []
  | a :: rest =>
      match rest with
      | [] => []
      | b :: _ => Datetime.sub_days b a :: adjacent_diffs rest
      end
  end.

(** The order of dates. *)
Definition date_le (a b : datetime) : Prop := Datetime.toordinal a <= Datetime.toordinal b.

(** ** Keys *)

(** The keys of section 6 of the specification, in its order. *)
Definition feature_keys : list string :=
  ["n_transactions_same_amount"; "percent_transactions_same_amount"; "is_biweekly";
   "is_semimonthly"; "is_monthly"; "is_bimonthly"; "is_quarterly"; "is_annual";
   "avg_days_between_transactions"; "min_days_between_transactions";
   "max_days_between_transactions"; "std_days_between_transactions";
   "is_major_subscription"; "is_telecom_or_insurance"; "is_utility_bill";
   "subscription_tier"; "is_fixed_amount_recurring"; "amount_fluctuation_range";
   "is_small_subscription"; "is_mid_sized_subscription"; "is_large_recurring_payment";
   "n_similar_transactions_last_3_months"; "n_similar_transactions_last_6_months";
   "transaction_day_consistency"; "is_first_transaction_with_vendor";
   "is_canceled_or_refunded"; "day_of_month"; "weekday"; "week_of_year"; "is_weekend";
   "days_since_last_transaction"; "time_since_first_transaction"; "transaction_frequency";
   "vendor_popularity"; "vendor_category"; "user_avg_transaction_amount";
   "user_total_spending"; "user_subscription_count"; "refund_rate"; "refund_time_lag";
   "is_valid_recurring_transaction"].

(** The keys of each component that can fail. *)
Definition time_based_keys : list string :=
  ["is_biweekly"; "is_semimonthly"; "is_monthly"; "is_bimonthly"; "is_quarterly";
   "is_annual"; "avg_days_between_transactions"; "min_days_between_transactions";
   "max_days_between_transactions"; "std_days_between_transactions"].

Definition amount_keys : list string :=
  ["is_fixed_amount_recurring"; "amount_fluctuation_range"; "is_small_subscription";
   "is_mid_sized_subscription"; "is_large_recurring_payment"].

Definition additional_keys : list string :=
  ["n_similar_transactions_last_3_months"; "n_similar_transactions_last_6_months";
   "transaction_day_consistency"; "is_first_transaction_with_vendor";
   "is_canceled_or_refunded"].

Definition day_of_week_keys : list string :=
  ["day_of_month"; "weekday"; "week_of_year"; "is_weekend"; "days_since_last_transaction"].

Definition temporal_keys : list string :=
  ["time_since_first_transaction"; "transaction_frequency"].

Definition user_keys : list string :=
  ["user_avg_transaction_amount"; "user_total_spending"; "user_subscription_count"].

Definition refund_keys : list string := ["refund_rate"; "refund_time_lag"].

(** The keys of the two components that cannot fail. *)
Definition subscription_keys : list string :=
  ["is_major_subscription"; "is_telecom_or_insurance"; "is_utility_bill"; "subscription_tier"].

Definition vendor_keys : list string := ["vendor_popularity"; "vendor_category"].

(** The features that are flags. *)
Definition flag_keys : list string :=
  ["is_biweekly"; "is_semimonthly"; "is_monthly"; "is_bimonthly"; "is_quarterly";
   "is_annual"; "is_major_subscription"; "is_telecom_or_insurance"; "is_utility_bill";
   "is_fixed_amount_recurring"; "is_small_subscription"; "is_mid_sized_subscription";
   "is_large_recurring_payment"; "is_first_transaction_with_vendor";
   "is_canceled_or_refunded"; "is_weekend"; "is_valid_recurring_transaction"].

(** A value that is the integer 0 or the integer 1. *)
Definition is_flag (o : option value) : Prop := o = Some (VInt 0) \/ o = Some (VInt 1).

(** ** Refund candidates *)

(** The transactions whose amount is the negation of the amount of the
    transaction: the refund candidates of [get_refund_features]. *)
Definition negated_amount (transaction : Transaction) (all_transactions : list Transaction)
  : list Transaction :=
  List.filter (fun t => Float.eqb (amount t) (Float.opp (amount transaction)))
              all_transactions.

(** ** Vendors *)

(** The vendors that [validate_recurring_transaction] gives a rule of their
    own. *)
Definition rule_vendors : list string := ["apple"; "brigit"; "cleo ai"; "credit genie"].

(** ** Rounding *)

(** The mantissa and the exponent after [n] shifts to the right. *)
Definition shifted_m (m n : Z) : Z := if 0 <? n then m / 2 ^ n else m.
Definition shifted_e (e n : Z) : Z := if 0 <? n then e + n else e.

(** The shift that brings a mantissa of [d] digits at exponent [e] into the
    format. *)
Definition excess (d e : Z) : Z := fexp Float.prec Float.emax (d + e) - e.

(** ** The calendar *)

(** The month and the day of the day numbered [k] (from 0) of a year, as
    [_ord2ymd] finds them from its tables. *)
Definition month_day (leap : bool) (k : Z) : Z * Z :=
  let month := (k + 50) / 32 in
  let preceding :=
    nth (Z.to_nat month) Datetime._DAYS_BEFORE_MONTH 0
    + int_of_bool ((2 <? month) && leap) in
  if k <? preceding then
    (month - 1,
     k - (preceding - (nth (Z.to_nat (month - 1)) Datetime._DAYS_IN_MONTH 0
                       + int_of_bool ((month - 1 =? 2) && leap))) + 1)
  else (month, k - preceding + 1).

(** The length and the first day (from 0) of a month of a common and of a
    leap year, as [_days_in_month] and [_days_before_month] give them. *)
Definition month_length (leap : bool) (m : Z) : Z :=
  if (m =? 2) && leap then 29 else nth (Z.to_nat m) Datetime._DAYS_IN_MONTH 0.

Definition month_start (leap : bool) (m : Z) : Z :=
  nth (Z.to_nat m) Datetime._DAYS_BEFORE_MONTH 0 + int_of_bool ((2 <? m) && leap).

(** Every day of every month of both kinds of year is found again by
    [month_day]. *)
Definition month_day_inverts : bool :=
  forallb (fun leap =>
    forallb (fun m =>
      forallb (fun d =>
        negb (d <=? month_length leap m)
        || (let '(m', d') := month_day leap (month_start leap m + d - 1) in
            (m' =? m) && (d' =? d)))
        (map Z.of_nat (seq 1 31)))
      (map Z.of_nat (seq 1 12)))
    [false; true].

(** The float 1.0. *)
Definition float_one : float := S754_finite false 4503599627370496 (-52).

(** ** Example inputs *)

Definition mk_tx (i : Z) (vendor : string) (amt : float) (day : string) : Transaction :=
  {| id := i; user_id := "user-1"; name := vendor; amount := amt; date := day |}.

(** A gym membership charged on 2024-01-01 and on 2024-06-01; a third
    charge dated before both. *)
Definition gym_june : Transaction := mk_tx 2 "Gym" (Float.lit 20 1) "2024-06-01".
Definition gym_history : list Transaction :=
  [mk_tx 1 "Gym" (Float.lit 20 1) "2024-01-01"; gym_june].
Definition early_gym : Transaction := mk_tx 3 "Gym" (Float.lit 20 1) "2023-12-25".

(** The same charge every two weeks. *)
Definition biweekly_tx (i : Z) (day : string) : Transaction :=
  mk_tx i "Gym" (Float.lit 20 1) day.
Definition biweekly_history : list Transaction :=
  [biweekly_tx 1 "2024-01-01"; biweekly_tx 2 "2024-01-15"; biweekly_tx 3 "2024-01-29"].

(** A charge of 20.00 and its refund. *)
Definition acme_charge : Transaction := mk_tx 1 "Acme" (Float.lit 20 1) "2024-01-02".
Definition acme_refund : Transaction :=
  mk_tx 2 "Refund - Acme" (Float.lit (-20) 1) "2024-01-20".

(** A credit of 10.00. *)
Definition credit_tx : Transaction := mk_tx 1 "Acme" (Float.lit (-10) 1) "2024-01-02".

(** Apple charges. *)
Definition apple_4_99 : Transaction := mk_tx 1 "Apple" (Float.lit 499 100) "2024-03-01".
Definition apple_5_00 : Transaction := mk_tx 2 "Apple" (Float.lit 5 1) "2024-03-01".
Definition apple_1_99 : Transaction := mk_tx 3 "Apple" (Float.lit 199 100) "2024-03-01".
Definition apple_nan : Transaction := mk_tx 1 "Apple" S754_nan "2024-03-01".

(** A Netflix subscription at 15.49. *)
Definition netflix_tx (i : Z) (day : string) : Transaction :=
  mk_tx i "Netflix" (Float.lit 1549 100) day.

(** A day that February does not have, and a day of year 1. *)
Definition bad_date_tx : Transaction := mk_tx 1 "Gym" (Float.lit 20 1) "2024-02-30".
Definition year1_gym : Transaction := mk_tx 1 "Gym" (Float.lit 20 1) "0001-01-29".

(** An Acme charge whose date is no date. *)
Definition undated_acme : Transaction := mk_tx 9 "Acme" (Float.lit 5 1) "soon".

(** The charges of a cafe. *)
Definition cafe_tx (i : Z) (day : string) : Transaction := mk_tx i "Cafe" (Float.lit 3 1) day.

(** The biweekly charges out of order, among the charges of the cafe. *)
Definition mixed_history : list Transaction :=
  [biweekly_tx 1 "2024-01-01"; cafe_tx 4 "2024-01-22"; biweekly_tx 3 "2024-01-29";
   cafe_tx 5 "2024-01-08"; biweekly_tx 2 "2024-01-15"].

(** The two gym charges, the later one first, among the charges of the
    cafe. *)
Definition gym_among_others : list Transaction :=
  [gym_june; cafe_tx 4 "2024-03-01"; mk_tx 1 "Gym" (Float.lit 20 1) "2024-01-01";
   cafe_tx 5 "2023-12-01"].

(** A cancellation of the charge of 20.00, written in capitals. *)
Definition acme_cancellation : Transaction :=
  mk_tx 3 "ACME CANCELED ORDER" (Float.lit (-20) 1) "2024-01-21".

(** * Verification *)

(** ** The error monad *)

Lemma bind_ok {A B : Type} (m : result A) (k : A -> result B) (b : B) :
  bind m k = Ok b -> exists a, m = Ok a /\ k a = Ok b.
Proof.
  destruct m as [a|e]; simpl; intros H; [eauto | discriminate].
Qed.

Lemma bind_raise {A B : Type} (m : result A) (k : A -> result B) (e : exn) :
  bind m k = Raise e -> m = Raise e \/ exists a, m = Ok a /\ k a = Raise e.
Proof.
  destruct m as [a|e']; simpl; intros H; [right; eauto | left; congruence].
Qed.

(** Splits a hypothesis [bind m k = Ok b] into its two steps. *)
Ltac bind_inv H :=
  let a := fresh "a" in
  let Ha := fresh "Ha" in
  apply bind_ok in H; destruct H as (a & Ha & H).

Lemma mapM_ok_all {A B : Type} (f : A -> result B) (l : list A) :
  Forall (fun x => is_ok (f x)) l -> is_ok (mapM f l).
Proof.
  induction 1 as [|x l [y Hy] _ [ys Hys]]; simpl.
  - by exists [].
  - rewrite Hy; simpl. rewrite Hys; simpl. by eexists.
Qed.

Lemma mapM_Forall2 {A B : Type} (f : A -> result B) (l : list A) (ys : list B) :
  Forall2 (fun x y => f x = Ok y) l ys -> mapM f l = Ok ys.
Proof.
  induction 1 as [|x y l ys Hxy _ IH]; simpl; [reflexivity|].
  by rewrite Hxy, IH.
Qed.

Lemma mapM_length {A B : Type} (f : A -> result B) (l : list A) (ys : list B) :
  mapM f l = Ok ys -> length ys = length l.
Proof.
  revert ys; induction l as [|x l IH]; simpl; intros ys H.
  - by inversion H.
  - bind_inv H. bind_inv H. inversion H; subst; simpl. f_equal. by apply IH.
Qed.

Lemma mapM_raises_only {A B : Type} (f : A -> result B) (l : list A) (e0 e : exn) :
  (forall x e', f x = Raise e' -> e' = e0) -> mapM f l = Raise e -> e = e0.
Proof.
  intros Hf. induction l as [|x l IH]; simpl; [discriminate|].
  destruct (f x) as [y|e'] eqn:Hx; simpl.
  - destruct (mapM f l) as [ys|e'']; simpl; [discriminate|].
    intros H; inversion H; subst. by apply IH.
  - intros H; inversion H; subst. by apply (Hf x).
Qed.

Lemma feature_Some (r : result dict) (k : string) (v : value) :
  feature r k = Some v -> exists d, r = Ok d /\ d !! k = Some v.
Proof. destruct r as [d|e]; simpl; [eauto | discriminate]. Qed.

Lemma returns_true {A : Type} (r : result A) : returns r = true -> is_ok r.
Proof. destruct r as [a|e]; simpl; [by eexists | discriminate]. Qed.

(** ** Dictionaries *)

Lemma dict_of_lookup_from (items : list (string * value)) (d : dict) (k : string) :
  fold_left (fun d kv => <[kv.1 := kv.2]> d) items d !! k
  = fold_left (fun acc kv => if String.eqb kv.1 k then Some kv.2 else acc) items (d !! k).
Proof.
  revert d; induction items as [|[k' v] items IH]; intros d; simpl; [done|].
  rewrite IH. f_equal.
  destruct (String.eqb_spec k' k) as [->|Hne].
  - by rewrite lookup_insert_eq.
  - by rewrite lookup_insert_ne.
Qed.

Lemma dict_of_lookup (items : list (string * value)) (k : string) :
  dict_of items !! k = item_value items k.
Proof. unfold dict_of, item_value. by rewrite dict_of_lookup_from, lookup_empty. Qed.

Lemma dict_of_dom_from (items : list (string * value)) (d : dict) :
  dom (fold_left (fun d kv => <[kv.1 := kv.2]> d) items d)
  = list_to_set (items.*1) ∪ dom d.
Proof.
  revert d; induction items as [|[k v] items IH]; intros d; simpl.
  - by rewrite (left_id_L ∅ (∪)).
  - rewrite IH, dom_insert_L, (assoc_L (∪)).
    by rewrite (comm_L (∪) (list_to_set (items.*1)) {[k]}).
Qed.

Lemma dict_of_dom (items : list (string * value)) :
  dom (dict_of items) = list_to_set (items.*1).
Proof.
  unfold dict_of. by rewrite dict_of_dom_from, dom_empty_L, (right_id_L ∅ (∪)).
Qed.

Lemma merge_dom (d1 d2 : dict) : dom (merge d1 d2) = dom d1 ∪ dom d2.
Proof. unfold merge. rewrite dom_union_L. apply (comm_L (∪)). Qed.

Lemma merge_lookup_r (d1 d2 : dict) (k : string) (v : value) :
  d2 !! k = Some v -> merge d1 d2 !! k = Some v.
Proof. intros H. unfold merge. by apply lookup_union_Some_l. Qed.

Lemma merge_lookup_l (d1 d2 : dict) (k : string) :
  k ∉ dom d2 -> merge d1 d2 !! k = d1 !! k.
Proof.
  intros H. unfold merge. apply not_elem_of_dom in H. by rewrite lookup_union_r.
Qed.

(** Reads a key of a dictionary display whose keys are literals. *)
Ltac dict_lookup := rewrite dict_of_lookup; reflexivity.

(** ** Lists *)

Lemma len_nonneg {A : Type} (l : list A) : 0 <= len l.
Proof. unfold len. lia. Qed.

Lemma len_cons {A : Type} (x : A) (l : list A) : len (x :: l) = len l + 1.
Proof. unfold len. simpl length. lia. Qed.

Lemma len_nil {A : Type} : len (@nil A) = 0.
Proof. reflexivity. Qed.

Lemma same_name_In (tx t : Transaction) (h : list Transaction) :
  In t (same_name tx h) -> In t h.
Proof. unfold same_name. rewrite filter_In. tauto. Qed.

Lemma same_name_nonempty (tx : Transaction) (h : list Transaction) :
  same_name tx h <> [] <-> exists t, In t h /\ name t = name tx.
Proof.
  unfold same_name. split.
  - destruct (List.filter _ h) as [|t ts] eqn:E; [done|]. intros _.
    assert (In t (List.filter (fun t => String.eqb (name t) (name tx)) h)) as Hin
      by (rewrite E; by left).
    apply filter_In in Hin as [Hin Hn]. apply String.eqb_eq in Hn. by exists t.
  - intros (t & Hin & Hn) E.
    assert (In t (List.filter (fun t => String.eqb (name t) (name tx)) h)) as Hin'
      by (apply filter_In; split; [done | by apply String.eqb_eq]).
    rewrite E in Hin'. destruct Hin'.
Qed.

Lemma filter_len_mono {A : Type} (p q : A -> bool) (l : list A) :
  (forall x, p x = true -> q x = true) -> len (List.filter p l) <= len (List.filter q l).
Proof.
  intros Hpq. induction l as [|x l IH]; simpl; [lia|].
  destruct (p x) eqn:Hp.
  - rewrite (Hpq x Hp), !len_cons. lia.
  - destruct (q x); rewrite ?len_cons; lia.
Qed.

Lemma filter_nonempty_len {A : Type} (p : A -> bool) (l : list A) :
  List.filter p l <> [] -> len l <> 0.
Proof. destruct l; [done|]. intros _. rewrite len_cons. pose proof (len_nonneg l). lia. Qed.

Lemma getitem_spec {A : Type} (l : list A) (i : Z) (x : A) :
  Builtins.getitem l i = Ok x ->
  nth_error l (Z.to_nat (if i <? 0 then i + len l else i)) = Some x.
Proof.
  unfold Builtins.getitem.
  destruct (_ || _); [discriminate|].
  destruct (nth_error _ _); [|discriminate]. congruence.
Qed.

Lemma getitem_ok {A : Type} (l : list A) (i : Z) :
  - len l <= i < len l -> is_ok (Builtins.getitem l i).
Proof.
  intros Hi. unfold Builtins.getitem, is_ok, len in *.
  set (j := if i <? 0 then i + Z.of_nat (length l) else i).
  assert (0 <= j < Z.of_nat (length l)) as Hj by (subst j; destruct (Z.ltb_spec i 0); lia).
  destruct (Z.ltb_spec j 0); [lia|]. destruct (Z.leb_spec (Z.of_nat (length l)) j); [lia|].
  simpl. destruct (nth_error l (Z.to_nat j)) eqn:E; [eauto|].
  apply nth_error_None in E. lia.
Qed.

Lemma getitem_middle {A : Type} (pre suf : list A) (x : A) :
  Builtins.getitem (pre ++ x :: suf) (len pre) = Ok x.
Proof.
  unfold Builtins.getitem, len.
  assert ((Z.of_nat (length pre) <? 0) = false) as Hnn by (apply Z.ltb_ge; lia).
  assert ((Z.of_nat (length (pre ++ x :: suf)) <=? Z.of_nat (length pre)) = false) as Hlt.
  { apply Z.leb_gt. rewrite length_app. simpl. lia. }
  cbv zeta. rewrite Hnn, Hnn, Hlt. cbn [orb].
  rewrite Nat2Z.id, nth_error_app2 by lia.
  by rewrite Nat.sub_diag.
Qed.

Lemma fold_pick_In {A : Type} (pick : A -> A -> bool) (l : list A) (x : A) :
  In (fold_left (fun cur item => if pick item cur then item else cur) l x) (x :: l).
Proof.
  revert x. induction l as [|y l IH]; intros x; simpl; [by left|].
  destruct (pick y x).
  - destruct (IH y) as [<-|H]; [right; by left | right; by right].
  - destruct (IH x) as [<-|H]; [by left | right; by right].
Qed.

Lemma min_by_In {A : Type} (lt : A -> A -> bool) (l : list A) (r : A) :
  Builtins.min_by lt l = Ok r -> In r l.
Proof.
  destruct l as [|x l]; [discriminate|]. intros H; inversion H; subst.
  apply fold_pick_In.
Qed.

Lemma max_by_In {A : Type} (gt : A -> A -> bool) (l : list A) (r : A) :
  Builtins.max_by gt l = Ok r -> In r l.
Proof.
  destruct l as [|x l]; [discriminate|]. intros H; inversion H; subst.
  apply fold_pick_In.
Qed.

Lemma min_by_ok {A : Type} (lt : A -> A -> bool) (l : list A) :
  l <> [] -> is_ok (Builtins.min_by lt l).
Proof. destruct l; [done|]. intros _. by eexists. Qed.

Lemma max_by_ok {A : Type} (gt : A -> A -> bool) (l : list A) :
  l <> [] -> is_ok (Builtins.max_by gt l).
Proof. destruct l; [done|]. intros _. by eexists. Qed.

(** ** Substrings *)

Lemma prefix_spec (w s : string) :
  String.prefix w s = true <-> exists after, s = w +:+ after.
Proof.
  revert s. induction w as [|a w IH]; intros s.
  - split; [intros _; by exists s | intros _; by destruct s].
  - destruct s as [|b s]; simpl; [split; [done | by intros [? ?]]|].
    destruct (ascii_dec a b) as [->|Hab].
    + rewrite IH. split; intros [after E]; exists after; [by rewrite E | by inversion E].
    + split; [done|]. intros [after E]. inversion E. congruence.
Qed.

(** [w in s] holds exactly when [s] is some text, then [w], then some
    text. *)
Lemma contains_spec (w s : string) :
  Str.contains w s = true <-> exists before after, s = before +:+ w +:+ after.
Proof.
  induction s as [|c s IH]; cbn [Str.contains].
  - rewrite orb_false_r, prefix_spec. split.
    + intros [after E]. by exists "", after.
    + intros (before & after & E). destruct before; [by exists after | discriminate].
  - rewrite orb_true_iff, prefix_spec, IH. split.
    + intros [[after E]|(before & after & E)].
      * by exists "", after.
      * exists (String c before), after. simpl. by rewrite E.
    + intros (before & after & E). destruct before as [|b before].
      * left. by exists after.
      * right. simpl in E. inversion E. by exists before, after.
Qed.

(** ** Day gaps *)

Lemma date_diffs_from (pre l : list datetime) :
  mapM (fun i =>
          let* later := Builtins.getitem (pre ++ l) (i + 1) in
          let* earlier := Builtins.getitem (pre ++ l) i in
          Ok (Datetime.sub_days later earlier))
       (map Z.of_nat (seq (length pre) (length l - 1)))
  = Ok (adjacent_diffs l).
Proof.
  revert pre. induction l as [|a l IH]; intros pre; [reflexivity|].
  destruct l as [|b l]; [reflexivity|].
  replace (length (a :: b :: l) - 1)%nat with (S (length (b :: l) - 1)) by (simpl; lia).
  cbn [seq map mapM].
  replace (Z.of_nat (length pre) + 1) with (len (pre ++ [a])) at 1
    by (unfold len; rewrite length_app; simpl; lia).
  replace (pre ++ a :: b :: l) with ((pre ++ [a]) ++ b :: l) at 1
    by (by rewrite <- app_assoc).
  rewrite getitem_middle.
  change (Z.of_nat (length pre)) with (len pre) at 1.
  rewrite getitem_middle. cbn [bind].
  specialize (IH (pre ++ [a])).
  rewrite <- app_assoc in IH. cbn [app] in IH.
  replace (length (pre ++ [a])) with (S (length pre)) in IH
    by (rewrite length_app; simpl; lia).
  rewrite IH. reflexivity.
Qed.

(** The indexed comprehension of the source never leaves the list and
    computes the consecutive differences. *)
Lemma date_diffs_of_spec (dates : list datetime) :
  date_diffs_of dates = Ok (adjacent_diffs dates).
Proof.
  unfold date_diffs_of, Builtins.range, len.
  replace (Z.to_nat (Z.of_nat (length dates) - 1)) with (length dates - 1)%nat by lia.
  exact (date_diffs_from [] dates).
Qed.

Lemma adjacent_diffs_length (dates : list datetime) :
  length (adjacent_diffs dates) = (length dates - 1)%nat.
Proof.
  induction dates as [|a l IH]; [reflexivity|].
  destruct l as [|b l]; [reflexivity|].
  change (adjacent_diffs (a :: b :: l))
    with (Datetime.sub_days b a :: adjacent_diffs (b :: l)).
  cbn [length] in *. lia.
Qed.

Lemma adjacent_diffs_nonempty (dates : list datetime) :
  2 <= len dates -> adjacent_diffs dates <> [].
Proof.
  intros Hlen Hnil. apply (f_equal length) in Hnil.
  rewrite adjacent_diffs_length in Hnil. unfold len in Hlen. simpl in Hnil. lia.
Qed.

Lemma Counter_pos (l : list Z) (k : Z) :
  (0 <? Builtins.Counter l k) = true <-> In k l.
Proof.
  unfold Builtins.Counter. rewrite Z.ltb_lt. induction l as [|x l IH]; simpl.
  - unfold len; simpl. split; [lia | tauto].
  - destruct (Z.eqb_spec k x) as [->|Hne].
    + rewrite len_cons. pose proof (len_nonneg (List.filter (Z.eqb x) l)).
      split; [by left | lia].
    + rewrite IH. split; [by right | intros [?|?]; [congruence | done]].
Qed.

Lemma any_between (lo hi : Z) (l : list Z) :
  Builtins.any (between lo hi) l = true <-> exists g, In g l /\ lo <= g <= hi.
Proof.
  unfold Builtins.any, between. rewrite existsb_exists.
  split; intros (g & Hin & Hg); exists g; (split; [done|]).
  - apply andb_true_iff in Hg as [H1 H2]. lia.
  - apply andb_true_iff. split; [apply Z.leb_le | apply Z.leb_le]; lia.
Qed.

(** ** Sorting *)

Lemma insert_sorted_length {A : Type} (lt : A -> A -> bool) (x : A) (l : list A) :
  length (Builtins.insert_sorted lt x l) = S (length l).
Proof.
  induction l as [|y l IH]; simpl; [reflexivity|].
  destruct (lt y x); simpl; [by rewrite IH | reflexivity].
Qed.

Lemma sorted_length {A : Type} (lt : A -> A -> bool) (l : list A) :
  length (Builtins.sorted lt l) = length l.
Proof.
  induction l as [|x l IH]; simpl; [reflexivity|].
  by rewrite insert_sorted_length, IH.
Qed.

Lemma insert_sorted_perm {A : Type} (lt : A -> A -> bool) (x : A) (l : list A) :
  Permutation (Builtins.insert_sorted lt x l) (x :: l).
Proof.
  induction l as [|y l IH]; simpl; [reflexivity|].
  destruct (lt y x); [|reflexivity].
  rewrite IH. apply perm_swap.
Qed.

(** [sorted] rearranges its argument. *)
Lemma sorted_perm {A : Type} (lt : A -> A -> bool) (l : list A) :
  Permutation (Builtins.sorted lt l) l.
Proof.
  induction l as [|x l IH]; simpl; [reflexivity|].
  by rewrite insert_sorted_perm, IH.
Qed.

Lemma insert_sorted_ascending (x : datetime) (l : list datetime) :
  StronglySorted date_le l ->
  StronglySorted date_le (Builtins.insert_sorted Datetime.ltb x l).
Proof.
  induction 1 as [|y l Hs IH Hy]; simpl.
  - constructor; [constructor | constructor].
  - unfold Datetime.ltb at 1. destruct (Z.ltb_spec (Datetime.toordinal y) (Datetime.toordinal x)).
    + constructor; [exact IH|].
      rewrite (insert_sorted_perm Datetime.ltb x l). constructor; [|exact Hy].
      unfold date_le. lia.
    + constructor; [by constructor|]. constructor; [done|].
      eapply Forall_impl; [exact Hy|]. unfold date_le. intros; simpl in *; lia.
Qed.

(** [sorted] on datetimes is ascending. *)
Lemma sorted_ascending (l : list datetime) :
  StronglySorted date_le (Builtins.sorted Datetime.ltb l).
Proof.
  induction l as [|x l IH]; simpl; [constructor | by apply insert_sorted_ascending].
Qed.

Lemma sorted_dates_length (ts : list Transaction) (dates : list datetime) :
  sorted_dates ts = Ok dates -> length dates = length ts.
Proof.
  unfold sorted_dates. intros H. apply bind_ok in H as (parsed & Hp & H).
  inversion H; subst. rewrite sorted_length. by apply mapM_length in Hp.
Qed.

Lemma sorted_dates_ascending (ts : list Transaction) (dates : list datetime) :
  sorted_dates ts = Ok dates -> StronglySorted date_le dates.
Proof.
  unfold sorted_dates. intros H. apply bind_ok in H as (parsed & Hp & H).
  inversion H; subst. apply sorted_ascending.
Qed.

Lemma sorted_dates_ok (ts : list Transaction) :
  Forall (fun t => is_ok (parse_date t)) ts -> is_ok (sorted_dates ts).
Proof.
  intros H. unfold sorted_dates.
  destruct (mapM_ok_all parse_date ts H) as [parsed Hp].
  rewrite Hp. by eexists.
Qed.

(** Two ascending lists of dates with the same elements are equal. *)
Lemma ascending_unique (l l' : list datetime) :
  StronglySorted date_le l -> StronglySorted date_le l' -> Permutation l l' -> l = l'.
Proof.
  intros Hs. revert l'. induction Hs as [|a l Hs IH Ha]; intros l' Hs' Hp.
  - by apply Permutation_nil in Hp.
  - destruct Hs' as [|b l' Hs' Hb]; [by apply Permutation_sym, Permutation_nil in Hp|].
    assert (a = b) as <-.
    { assert (In a (b :: l')) as Hin by (eapply Permutation_in; [exact Hp | by left]).
      assert (In b (a :: l)) as Hin'
        by (eapply Permutation_in; [apply Permutation_sym; exact Hp | by left]).
      rewrite List.Forall_forall in Ha, Hb.
      destruct Hin as [->|Hin]; [done|]. destruct Hin' as [->|Hin']; [done|].
      specialize (Ha b Hin'). specialize (Hb a Hin). unfold date_le in *.
      destruct a as [oa], b as [ob]. cbn in *. f_equal. lia. }
    f_equal. apply IH; [done|]. by apply Permutation_cons_inv in Hp.
Qed.

(** The sorted dates of some transactions are the ascending arrangement of
    their parsed dates. *)
Lemma sorted_dates_of_parsed (ts : list Transaction) (parsed dates : list datetime) :
  Forall2 (fun t d => Datetime.strptime (date t) = Ok d) ts parsed ->
  Permutation dates parsed ->
  StronglySorted date_le dates ->
  sorted_dates ts = Ok dates.
Proof.
  intros Hparsed Hperm Hasc. unfold sorted_dates.
  rewrite (mapM_Forall2 parse_date ts parsed Hparsed). cbn [bind]. f_equal.
  apply ascending_unique; [apply sorted_ascending | exact Hasc|].
  rewrite sorted_perm. by symmetry.
Qed.

(** ** Sums, means and standard deviations never fail on enough data *)

Lemma fold_add_shift (l : list Z) (a : Z) : fold_left Z.add l a = a + fold_left Z.add l 0.
Proof.
  revert a. induction l as [|x l IH]; intros a; simpl; [lia|].
  rewrite (IH (a + x)), (IH (0 + x)). lia.
Qed.

Lemma sum_int_cons (x : Z) (l : list Z) :
  Builtins.sum_int (x :: l) = x + Builtins.sum_int l.
Proof. unfold Builtins.sum_int. simpl. by rewrite fold_add_shift. Qed.

(** The sum of the squared distances to any point [c] is not negative. *)
Lemma sum_sq_dist_nonneg (l : list Z) (c : Z) :
  0 <= Builtins.sum_int (map (fun x => x * x) l) - 2 * c * Builtins.sum_int l
       + len l * (c * c).
Proof.
  induction l as [|a l IH]; [unfold Builtins.sum_int, len; simpl; lia|].
  cbn [map]. rewrite !sum_int_cons, len_cons.
  set (Q := Builtins.sum_int (map _ l)) in *. set (S := Builtins.sum_int l) in *.
  set (n := len l) in *.
  replace (a * a + Q - 2 * c * (a + S) + (n + 1) * (c * c))
    with ((Q - 2 * c * S + n * (c * c)) + (a - c) * (a - c)) by ring.
  pose proof (Z.square_nonneg (a - c)). lia.
Qed.

(** The numerator of the exact variance is not negative. *)
Lemma variance_numerator_nonneg (l : list Z) :
  0 <= len l * Builtins.sum_int (map (fun x => x * x) l)
       - Builtins.sum_int l * Builtins.sum_int l.
Proof.
  induction l as [|a l IH]; [unfold Builtins.sum_int, len; simpl; lia|].
  cbn [map]. rewrite !sum_int_cons, len_cons.
  pose proof (sum_sq_dist_nonneg l a) as Hd.
  set (Q := Builtins.sum_int (map _ l)) in *. set (S := Builtins.sum_int l) in *.
  set (n := len l) in *.
  replace ((n + 1) * (a * a + Q) - (a + S) * (a + S))
    with ((n * Q - S * S) + (Q - 2 * a * S + n * (a * a))) by ring.
  lia.
Qed.

Lemma mean_int_ok (l : list Z) : l <> [] -> is_ok (Statistics.mean_int l).
Proof.
  intros Hl. unfold Statistics.mean_int.
  destruct l as [|x l]; [done|]. rewrite len_cons.
  pose proof (len_nonneg l).
  destruct (Z.ltb_spec (len l + 1) 1); [lia|].
  destruct (_ =? 0); by eexists.
Qed.

Lemma int_truediv_ok (a b : Z) : b <> 0 -> Float.int_truediv a b = Ok (Float.div_int a b).
Proof.
  intros Hb. unfold Float.int_truediv. by destruct (Z.eqb_spec b 0).
Qed.

Lemma integer_sqrt_of_frac_rto_ok (n m : Z) :
  0 <= n -> 0 < m -> is_ok (Statistics._integer_sqrt_of_frac_rto n m).
Proof.
  intros Hn Hm. unfold Statistics._integer_sqrt_of_frac_rto, Statistics.isqrt.
  destruct (Z.eqb_spec m 0); [lia|].
  pose proof (Z.div_pos n m Hn Hm).
  destruct (Z.ltb_spec (n / m) 0); [lia|]. simpl. by eexists.
Qed.

Lemma float_sqrt_of_frac_ok (n m : Z) :
  0 <= n -> 0 < m -> is_ok (Statistics._float_sqrt_of_frac n m).
Proof.
  intros Hn Hm. unfold Statistics._float_sqrt_of_frac.
  set (q := (_ - _ - _) / 2).
  destruct (Z.leb_spec 0 q) as [Hq|Hq].
  - destruct (integer_sqrt_of_frac_rto_ok n (Z.shiftl m (2 * q))) as [r Hr];
      [done | rewrite Z.shiftl_mul_pow2 by lia; apply Z.mul_pos_pos; [done|];
              apply Z.pow_pos_nonneg; lia |].
    rewrite Hr; simpl. rewrite int_truediv_ok by lia. by eexists.
  - destruct (integer_sqrt_of_frac_rto_ok (Z.shiftl n (- 2 * q)) m) as [r Hr];
      [by apply Z.shiftl_nonneg | done |].
    rewrite Hr; simpl. rewrite int_truediv_ok; [by eexists|].
    rewrite Z.shiftl_mul_pow2 by lia.
    assert (0 < 2 ^ (- q)) by (apply Z.pow_pos_nonneg; lia). lia.
Qed.

Lemma stdev_int_ok (l : list Z) : 2 <= len l -> is_ok (Statistics.stdev_int l).
Proof.
  intros Hl. unfold Statistics.stdev_int.
  destruct (Z.ltb_spec (len l) 2); [lia|].
  set (num := len l * _ - _). set (den := len l * (len l - 1)).
  assert (0 <= num) as Hnum by apply variance_numerator_nonneg.
  assert (0 < den) as Hden by (subst den; nia).
  pose proof (Z.gcd_nonneg num den) as Hg0.
  assert (Z.gcd num den <> 0) as Hg1.
  { intros Hz. apply Z.gcd_eq_0_r in Hz. lia. }
  apply float_sqrt_of_frac_ok.
  - apply Z.div_pos; lia.
  - destruct (Z.gcd_divide_r num den) as [k Hk].
    rewrite Hk at 1. rewrite Z.div_mul by done. nia.
Qed.

(** ** Rounding to binary64 *)

Lemma digits2_pos_bounds (m : positive) :
  2 ^ (Z.pos (digits2_pos m) - 1) <= Z.pos m < 2 ^ Z.pos (digits2_pos m).
Proof.
  induction m as [m IH|m IH|]; cbn [digits2_pos]; [| |simpl; lia].
  - rewrite Pos2Z.inj_succ. pose proof (Pos2Z.inj_xI m).
    replace (Z.succ (Z.pos (digits2_pos m)) - 1) with (Z.succ (Z.pos (digits2_pos m) - 1)) by lia.
    rewrite !Z.pow_succ_r by lia. lia.
  - rewrite Pos2Z.inj_succ. pose proof (Pos2Z.inj_xO m).
    replace (Z.succ (Z.pos (digits2_pos m)) - 1) with (Z.succ (Z.pos (digits2_pos m) - 1)) by lia.
    rewrite !Z.pow_succ_r by lia. lia.
Qed.

(** A number with more digits is larger. *)
Lemma digits2_pos_mono (m m' : positive) :
  Z.pos m <= Z.pos m' -> Z.pos (digits2_pos m) <= Z.pos (digits2_pos m').
Proof.
  intros Hle.
  pose proof (digits2_pos_bounds m) as [Hlo _].
  pose proof (digits2_pos_bounds m') as [_ Hhi'].
  destruct (Z.le_gt_cases (Z.pos (digits2_pos m)) (Z.pos (digits2_pos m'))) as [|Hgt]; [done|].
  assert (2 ^ Z.pos (digits2_pos m') <= 2 ^ (Z.pos (digits2_pos m) - 1))
    by (apply Z.pow_le_mono_r; lia).
  lia.
Qed.

Lemma shr_1_m (r : shr_record) : 0 <= shr_m r -> shr_m (shr_1 r) = shr_m r / 2.
Proof.
  destruct r as [m rb sb]. cbn [shr_m]. intros Hm.
  destruct m as [|p|p]; [reflexivity| |lia].
  destruct p as [p|p|]; cbn [shr_1 shr_m].
  - pose proof (Pos2Z.inj_xI p). apply Z.div_unique with (r := 1); lia.
  - pose proof (Pos2Z.inj_xO p). apply Z.div_unique with (r := 0); lia.
  - reflexivity.
Qed.

Lemma iter_shr_m (p : positive) (r : shr_record) :
  0 <= shr_m r -> shr_m (SpecFloat.iter_pos shr_1 p r) = shr_m r / 2 ^ Z.pos p.
Proof.
  revert r. induction p as [p IH|p IH|]; intros r Hr; cbn [SpecFloat.iter_pos].
  - assert (0 <= shr_m (shr_1 r)) as H1
      by (rewrite shr_1_m by done; apply Z.div_pos; lia).
    assert (0 <= shr_m (SpecFloat.iter_pos shr_1 p (shr_1 r))) as H2
      by (rewrite IH by done; apply Z.div_pos; [done | apply Z.pow_pos_nonneg; lia]).
    rewrite IH, IH, shr_1_m by done.
    rewrite !Z.div_div by (try apply Z.pow_pos_nonneg; lia).
    f_equal. replace (Z.pos p~1) with (1 + Z.pos p + Z.pos p) by lia.
    rewrite !Z.pow_add_r by lia. lia.
  - assert (0 <= shr_m (SpecFloat.iter_pos shr_1 p r)) as H2
      by (rewrite IH by done; apply Z.div_pos; [done | apply Z.pow_pos_nonneg; lia]).
    rewrite IH, IH by done.
    rewrite !Z.div_div by (try apply Z.pow_pos_nonneg; lia).
    f_equal. replace (Z.pos p~0) with (Z.pos p + Z.pos p) by lia.
    rewrite !Z.pow_add_r by lia. lia.
  - rewrite shr_1_m by done. reflexivity.
Qed.

Lemma shr_record_of_loc_m (m : Z) (l : location) : shr_m (shr_record_of_loc m l) = m.
Proof. destruct l as [|[]]; reflexivity. Qed.

Lemma shr_spec (r : shr_record) (e n : Z) :
  0 <= shr_m r ->
  shr_m (fst (shr r e n)) = shifted_m (shr_m r) n /\ snd (shr r e n) = shifted_e e n.
Proof.
  intros Hr. unfold shr, shifted_m, shifted_e.
  destruct n as [|p|p]; cbn [fst snd]; try done.
  split; [by apply iter_shr_m | reflexivity].
Qed.

Lemma round_nearest_even_ge (m : Z) (l : location) : m <= round_nearest_even m l.
Proof.
  unfold round_nearest_even. destruct l as [|[]]; try lia. destruct (Z.even m); lia.
Qed.

Lemma excess_eq (d e : Z) : excess d e = Z.max (d - 53) (- 1074 - e).
Proof. unfold excess, fexp, emin, Float.prec, Float.emax. lia. Qed.

(** Rounding a positive mantissa that does not underflow to zero gives a
    finite value or an infinity; its exponent is at least the exponent
    after the first shift, and when it is that exponent its mantissa is at
    least the truncated mantissa. *)
Lemma binary_round_aux_spec (sx : bool) (m : positive) (e : Z) (l : location) :
  - 1074 < e + Z.pos (digits2_pos m) ->
  let n := excess (Z.pos (digits2_pos m)) e in
  exists (m3 : positive) (e3 : Z),
    binary_round_aux Float.prec Float.emax sx (Z.pos m) e l
    = (if e3 <=? Float.emax - Float.prec then S754_finite sx m3 e3 else S754_infinity sx)
    /\ shifted_e e n <= e3
    /\ (e3 = shifted_e e n -> shifted_m (Z.pos m) n <= Z.pos m3).
Proof.
  intros Hno n.
  pose proof (digits2_pos_bounds m) as [Hlo Hhi].
  set (d := Z.pos (digits2_pos m)) in *.
  assert (1 <= d) as Hd by (subst d; lia).
  assert (n = Z.max (d - 53) (- 1074 - e)) as Hn by apply excess_eq.
  set (t := shifted_m (Z.pos m) n). set (e1 := shifted_e e n).
  assert (1 <= t) as Ht.
  { subst t. unfold shifted_m. destruct (Z.ltb_spec 0 n); [|lia].
    apply Z.div_le_lower_bound; [apply Z.pow_pos_nonneg; lia|].
    rewrite Z.mul_1_r. transitivity (2 ^ (d - 1)); [|done].
    apply Z.pow_le_mono_r; lia. }
  unfold binary_round_aux, shr_fexp.
  change (Zdigits2 (Z.pos m)) with d.
  fold (excess d e). fold n.
  destruct (shr_spec (shr_record_of_loc (Z.pos m) l) e n) as [Hm1 He1];
    [rewrite shr_record_of_loc_m; lia|].
  rewrite shr_record_of_loc_m in Hm1. fold t in Hm1. fold e1 in He1.
  destruct (shr (shr_record_of_loc (Z.pos m) l) e n) as [mrs' e'] eqn:Hshr1.
  cbn [fst snd] in Hm1, He1. subst e'.
  set (m2 := round_nearest_even (shr_m mrs') (loc_of_shr_record mrs')).
  assert (t <= m2) as Hm2 by (subst m2; rewrite <- Hm1; apply round_nearest_even_ge).
  destruct m2 as [|p2|p2] eqn:Hp2; [lia| |lia].
  set (d2 := Z.pos (digits2_pos p2)).
  pose proof (digits2_pos_bounds p2) as [Hlo2 Hhi2]. fold d2 in Hlo2, Hhi2.
  assert (1 <= d2) as Hd2 by (subst d2; lia).
  change (Zdigits2 (Z.pos p2)) with d2. fold (excess d2 e1).
  set (n2 := excess d2 e1).
  assert (n2 = Z.max (d2 - 53) (- 1074 - e1)) as Hn2 by apply excess_eq.
  assert (- 1074 < e1 + d2) as Hno2.
  { subst e1. unfold shifted_e. destruct (Z.ltb_spec 0 n); [lia|].
    assert (d <= d2); [|lia].
    subst t. unfold shifted_m in Hm2. destruct (Z.ltb_spec 0 n); [lia|].
    subst d d2. by apply digits2_pos_mono. }
  destruct (shr_spec (shr_record_of_loc (Z.pos p2) loc_Exact) e1 n2) as [Hm3 He3];
    [simpl; lia|].
  destruct (shr (shr_record_of_loc (Z.pos p2) loc_Exact) e1 n2) as [mrs'' e''] eqn:Hshr2.
  cbn [fst snd] in Hm3, He3. cbn [shr_record_of_loc shr_m] in Hm3.
  assert (1 <= shr_m mrs'') as Hpos3.
  { rewrite Hm3. unfold shifted_m. destruct (Z.ltb_spec 0 n2); [|lia].
    apply Z.div_le_lower_bound; [apply Z.pow_pos_nonneg; lia|].
    rewrite Z.mul_1_r. transitivity (2 ^ (d2 - 1)); [|done].
    apply Z.pow_le_mono_r; lia. }
  destruct (shr_m mrs'') as [|m3|m3] eqn:Hm3'; [lia| |lia].
  exists m3, e''. split; [reflexivity|]. subst e''.
  unfold shifted_m in Hm3. unfold shifted_e.
  destruct (Z.ltb_spec 0 n2); split; lia.
Qed.

Lemma binary_round_aux_nonzero (sx : bool) (m : positive) (e : Z) (l : location) :
  - 1074 < e + Z.pos (digits2_pos m) ->
  Float.is_zero (binary_round_aux Float.prec Float.emax sx (Z.pos m) e l) = false.
Proof.
  intros Hno.
  destruct (binary_round_aux_spec sx m e l Hno) as (m3 & e3 & -> & _).
  by destruct (e3 <=? _).
Qed.

Lemma digits2_pos_iter_xO (m d : positive) :
  digits2_pos (Pos.iter xO m d) = (digits2_pos m + d)%positive.
Proof.
  induction d as [|d IH] using Pos.peano_ind.
  - simpl. lia.
  - rewrite Pos.iter_succ. cbn [digits2_pos]. rewrite IH. lia.
Qed.

Lemma shl_align_digits (mx : positive) (ex ex' : Z) :
  snd (shl_align mx ex ex') + Z.pos (digits2_pos (fst (shl_align mx ex ex')))
  = ex + Z.pos (digits2_pos mx).
Proof.
  unfold shl_align. destruct (ex' - ex) as [|d|d] eqn:E; cbn [fst snd]; try done.
  rewrite digits2_pos_iter_xO. lia.
Qed.

Lemma binary_round_nonzero (sx : bool) (m : positive) (e : Z) :
  - 1074 < e + Z.pos (digits2_pos m) ->
  Float.is_zero (binary_round Float.prec Float.emax sx m e) = false.
Proof.
  intros Hno. unfold binary_round.
  pose proof (shl_align_digits m e (fexp Float.prec Float.emax (Z.pos (digits2_pos m) + e)))
    as Hd.
  destruct (shl_align m e _) as [mz ez]. cbn [fst snd] in Hd.
  apply binary_round_aux_nonzero. lia.
Qed.

(** [float(n)] is zero only for [n = 0]. *)
Lemma of_int_nonzero (n : Z) : n <> 0 -> Float.is_zero (Float.of_int n) = false.
Proof.
  intros Hn. unfold Float.of_int, binary_normalize.
  destruct n as [|p|p]; [done| |]; apply binary_round_nonzero; lia.
Qed.

(** A number of days that is not zero, divided by 30, is not zero. *)
Lemma div_int_30_nonzero (a : Z) : a <> 0 -> Float.is_zero (Float.div_int a 30) = false.
Proof.
  intros Ha. unfold Float.div_int, SFdiv.
  assert (forall (s : bool) (ma : positive),
    Float.is_zero
      (let '(mz, ez, lz) :=
         SFdiv_core_binary Float.prec Float.emax (Z.pos ma) 0 30 0 in
       binary_round_aux Float.prec Float.emax s mz ez lz) = false) as Hcore.
  { intros s ma. unfold SFdiv_core_binary.
    change (Zdigits2 30) with 5. change (Zdigits2 (Z.pos ma)) with (Z.pos (digits2_pos ma)).
    pose proof (digits2_pos_bounds ma) as [Hlo Hhi].
    set (d1 := Z.pos (digits2_pos ma)) in *.
    assert (1 <= d1) as Hd1 by (subst d1; lia).
    replace (Z.min (fexp Float.prec Float.emax (d1 + 0 - (5 + 0))) (0 - 0))
      with (Z.min (d1 - 58) 0)
      by (unfold fexp, SpecFloat.emin, Float.prec, Float.emax; lia).
    set (e' := Z.min (d1 - 58) 0).
    set (m' := match 0 - 0 - e' with
               | 0 => Z.pos ma
               | Z.pos _ => Z.shiftl (Z.pos ma) (0 - 0 - e')
               | Z.neg _ => 0
               end).
    assert (m' = Z.pos ma * 2 ^ (- e')) as Hm'.
    { subst m'. destruct (0 - 0 - e') as [|s'|s'] eqn:Es; [| |lia].
      - replace (- e') with 0 by lia. lia.
      - rewrite Z.shiftl_mul_pow2 by lia. f_equal. f_equal. lia. }
    assert (2 ^ 57 <= m') as Hbig.
    { rewrite Hm'. subst e'. destruct (Z.le_gt_cases 58 d1).
      - replace (- Z.min (d1 - 58) 0) with 0 by lia. rewrite Z.mul_1_r.
        transitivity (2 ^ (d1 - 1)); [apply Z.pow_le_mono_r; lia | done].
      - replace (- Z.min (d1 - 58) 0) with (58 - d1) by lia.
        replace 57 with ((d1 - 1) + (58 - d1)) by lia.
        rewrite Z.pow_add_r by lia.
        apply Z.mul_le_mono_nonneg_r; [apply Z.pow_nonneg; lia | done]. }
    pose proof (Z.div_le_lower_bound m' 30 (2 ^ 52)) as Hq.
    unfold Z.div in Hq.
    destruct (Z.div_eucl m' 30) as [q r].
    assert (2 ^ 52 <= q) as Hq' by (apply Hq; lia).
    destruct q as [|q|q]; [lia| |lia].
    apply binary_round_aux_nonzero.
    pose proof (digits2_pos_bounds q). subst e'. lia. }
  destruct a as [|ma|ma]; [done| |]; cbn [Float.Z2SF]; apply Hcore.
Qed.

(** The literal [1.02]. *)
Lemma lit_102 : Float.lit 102 100 = S754_finite false 4593671619917906 (-52).
Proof. vm_compute. reflexivity. Qed.

(** A float that is not negative is at most its product with [1.02]: the
    product is rounded, but never below the factor. *)
Lemma leb_mul_102 (a : float) :
  Float.valid a = true ->
  Float.leb Float.zero a = true ->
  Float.leb a (Float.mul a (Float.lit 102 100)) = true.
Proof.
  intros Hvalid Hpos. rewrite lit_102.
  destruct a as [s|s| |s m e]; try (by destruct s); try done.
  destruct s; [done|]. clear Hpos.
  unfold Float.valid, valid_binary, bounded, canonical_mantissa in Hvalid.
  apply andb_true_iff in Hvalid as [Hcanon Hbound].
  apply Z.eqb_eq in Hcanon.
  unfold fexp, SpecFloat.emin, Float.prec, Float.emax in Hcanon.
  unfold Float.mul, SFmul. cbn [xorb].
  set (M := 4593671619917906%positive).
  pose proof (digits2_pos_bounds m) as [Hlo Hhi].
  pose proof (digits2_pos_bounds (m * M)) as [HloP HhiP].
  set (d := Z.pos (digits2_pos m)) in *.
  set (dP := Z.pos (digits2_pos (m * M))) in *.
  assert (1 <= d) as Hd by (subst d; lia).
  assert (2 ^ 52 <= Z.pos M) as HM by (vm_compute; discriminate).
  assert (Z.pos m * 2 ^ 52 <= Z.pos (m * M)) as HP by (rewrite Pos2Z.inj_mul; nia).
  assert (d + 52 <= dP) as HdP.
  { destruct (Z.le_gt_cases (d + 52) dP) as [|Hgt]; [done|].
    assert (2 ^ dP <= 2 ^ (d + 51)) by (apply Z.pow_le_mono_r; lia).
    replace (d + 51) with ((d - 1) + 52) in * by lia.
    rewrite Z.pow_add_r in * by lia.
    assert (2 ^ (d - 1) * 2 ^ 52 <= Z.pos m * 2 ^ 52)
      by (apply Z.mul_le_mono_nonneg_r; lia).
    lia. }
  destruct (binary_round_aux_spec false (m * M) (e + -52) loc_Exact) as (m3 & e3 & Hr & He3 & Hm3);
    [fold dP; lia|].
  fold dP in He3, Hm3.
  rewrite Hr.
  assert (52 <= excess dP (e + -52)) as Hn by (rewrite excess_eq; lia).
  set (n := excess dP (e + -52)) in *.
  unfold shifted_e in He3, Hm3. unfold shifted_m in Hm3.
  destruct (Z.ltb_spec 0 n); [|lia].
  destruct (e3 <=? Float.emax - Float.prec); [|reflexivity].
  unfold Float.leb, SFleb, SFcompare.
  destruct (Z.compare_spec e e3) as [Heq|Hlt|Hgt]; [|reflexivity|lia].
  rewrite Pos.compare_cont_spec. cbn [Pos.switch_Eq].
  assert (n = 52) as -> by lia.
  assert (Z.pos m <= Z.pos m3) as Hle.
  { etransitivity; [|apply Hm3; lia].
    apply Z.div_le_lower_bound; lia. }
  destruct (Pos.compare_spec m m3); [reflexivity | reflexivity | lia].
Qed.

(** ** Comparing floats *)

(** [a == -b] holds exactly when [b == -a]. *)
Lemma eqb_opp_sym (a b : float) :
  Float.eqb a (Float.opp b) = Float.eqb b (Float.opp a).
Proof.
  unfold Float.eqb, Float.opp, SFeqb, SFcompare, SFopp.
  destruct a as [sa|sa| |sa ma ea], b as [sb|sb| |sb mb eb];
    try destruct sa; try destruct sb; simpl; try reflexivity.
  - rewrite (Z.compare_antisym ea eb).
    destruct (Z.compare_spec ea eb); simpl; try reflexivity.
    rewrite !Pos.compare_cont_spec; simpl.
    rewrite (Pos.compare_antisym ma mb).
    destruct (Pos.compare_spec ma mb); reflexivity.
  - rewrite (Z.compare_antisym ea eb).
    destruct (Z.compare_spec ea eb); simpl; try reflexivity.
    rewrite !Pos.compare_cont_spec; simpl.
    rewrite (Pos.compare_antisym ma mb).
    destruct (Pos.compare_spec ma mb); reflexivity.
Qed.

(** A float that is [==] to a finite nonzero float is that float. *)
Lemma eqb_finite_eq (x : float) (s : bool) (m : positive) (e : Z) :
  Float.eqb x (S754_finite s m e) = true -> x = S754_finite s m e.
Proof.
  unfold Float.eqb, SFeqb, SFcompare.
  destruct x as [sx|sx| |sx mx ex]; intros H.
  - destruct s; discriminate.
  - destruct sx; discriminate.
  - discriminate.
  - destruct sx, s; try discriminate;
      destruct (Z.compare_spec ex e); try discriminate; subst;
      rewrite Pos.compare_cont_spec in H; cbn [Pos.switch_Eq] in H;
      destruct (Pos.compare_spec mx m); try discriminate; by subst.
Qed.

(** Two floats equal to a float [a] that is not negative: the one is at
    most 1.02 times the other. *)
Lemma leb_mul_102_equal (a lo hi : float) :
  Float.valid a = true ->
  Float.leb Float.zero a = true ->
  Float.eqb lo a = true ->
  Float.eqb hi a = true ->
  Float.leb hi (Float.mul lo (Float.lit 102 100)) = true.
Proof.
  intros Hvalid Hpos Hlo Hhi.
  destruct a as [s|s| |s m e].
  - rewrite lit_102.
    destruct lo as [slo|slo| |slo mlo elo]; try (destruct slo; discriminate); try discriminate.
    destruct hi as [shi|shi| |shi mhi ehi]; try (destruct shi; discriminate); try discriminate.
    reflexivity.
  - destruct s; [discriminate|]. rewrite lit_102.
    destruct lo as [slo|slo| |slo mlo elo]; try discriminate; try (by destruct slo).
    destruct hi as [shi|shi| |shi mhi ehi]; try discriminate; try (by destruct shi).
    by destruct slo, shi.
  - discriminate.
  - apply eqb_finite_eq in Hlo, Hhi. subst. by apply leb_mul_102.
Qed.

Lemma to_int_ok (x : float) : Float.is_finite x = true -> is_ok (Float.to_int x).
Proof. destruct x; simpl; try discriminate; intros _; by eexists. Qed.

Lemma mean_float_ok (l : list float) : l <> [] -> is_ok (Statistics.mean_float l).
Proof.
  intros Hl. unfold Statistics.mean_float.
  assert (1 <= len l) as Hlen by (destruct l; [done | rewrite len_cons; pose proof (len_nonneg l); lia]).
  destruct (Z.ltb_spec (len l) 1); [lia|].
  destruct (List.filter _ l) as [|x specials].
  - destruct (Statistics.exact_sum l) as [m e].
    destruct (Z.leb_spec 0 e).
    + rewrite int_truediv_ok by lia. by eexists.
    + rewrite int_truediv_ok; [by eexists|].
      assert (0 < 2 ^ (- e)) by (apply Z.pow_pos_nonneg; lia). nia.
  - unfold Float.truediv. rewrite of_int_nonzero by lia. by eexists.
Qed.

(** ** Parsing dates *)

Lemma strptime_raises (s : string) (e : exn) :
  Datetime.strptime s = Raise e -> e = ValueError.
Proof.
  unfold Datetime.strptime.
  destruct (Datetime.match_format s) as [[[[y m] d] rest]|]; [|congruence].
  destruct (negb _); [congruence|]. destruct (_ && _); congruence.
Qed.

Lemma parse_date_raises (t : Transaction) (e : exn) :
  parse_date t = Raise e -> e = ValueError.
Proof. apply strptime_raises. Qed.

Lemma sorted_dates_raises (ts : list Transaction) (e : exn) :
  sorted_dates ts = Raise e -> e = ValueError.
Proof.
  unfold sorted_dates. intros H.
  destruct (mapM parse_date ts) as [parsed|e'] eqn:Hp; simpl in H; [discriminate|].
  inversion H; subst.
  eapply mapM_raises_only; [|exact Hp]. intros x e'. apply parse_date_raises.
Qed.

Lemma days_before_month_day_bound (y m d : Z) :
  1 <= d <= Datetime._days_in_month y m ->
  1 <= Datetime._days_before_month y m + d <= 365 + int_of_bool (Datetime._is_leap y).
Proof.
  unfold Datetime._days_in_month, Datetime._days_before_month.
  assert (m <= 0 \/ 13 <= m \/ m = 1 \/ m = 2 \/ m = 3 \/ m = 4 \/ m = 5 \/ m = 6 \/ m = 7
          \/ m = 8 \/ m = 9 \/ m = 10 \/ m = 11 \/ m = 12) as Hm by lia.
  destruct Hm as [Hm|[Hm|Hm]].
  - replace (Z.to_nat m) with 0%nat by lia.
    destruct (Z.eqb_spec m 2); [lia|]. simpl. lia.
  - rewrite !nth_overflow by (simpl; lia).
    destruct (Z.eqb_spec m 2); [lia|]. simpl. lia.
  - repeat (destruct Hm as [Hm|Hm]); subst m;
      destruct (Datetime._is_leap y); simpl; lia.
Qed.

Lemma days_before_year_bounds (y : Z) :
  1 <= y <= 9999 ->
  0 <= Datetime._days_before_year y
  /\ Datetime._days_before_year y + 365 + int_of_bool (Datetime._is_leap y) <= 3652059.
Proof.
  intros Hy. unfold Datetime._days_before_year, Datetime._is_leap.
  destruct (Z.eq_dec y 9999) as [->|Hne]; [vm_compute; split; discriminate|].
  assert (int_of_bool ((y mod 4 =? 0) && (negb (y mod 100 =? 0) || (y mod 400 =? 0))) <= 1)
    by (destruct (_ && _); simpl; lia).
  assert (0 <= (y - 1) / 4) by (apply Z.div_pos; lia).
  assert (0 <= (y - 1) / 400) by (apply Z.div_pos; lia).
  assert (0 <= (y - 1) / 100 <= y - 1)
    by (split; [apply Z.div_pos | apply Z.div_le_upper_bound]; lia).
  pose proof (Z.div_le_mono (y - 1) 9997 4 ltac:(lia) ltac:(lia)) as H4.
  pose proof (Z.div_le_mono (y - 1) 9997 400 ltac:(lia) ltac:(lia)) as H400.
  change (9997 / 4) with 2499 in H4. change (9997 / 400) with 24 in H400.
  split; lia.
Qed.

(** A date that [strptime] accepts lies between 0001-01-01 and 9999-12-31. *)
Lemma strptime_range (s : string) (d : datetime) :
  Datetime.strptime s = Ok d -> 1 <= Datetime.toordinal d <= Datetime._MAXORDINAL.
Proof.
  unfold Datetime.strptime.
  destruct (Datetime.match_format s) as [[[[y m] dd] rest]|]; [|discriminate].
  destruct (negb _); [discriminate|].
  destruct (_ && _) eqn:Hc; [|discriminate].
  intros H; inversion H; subst; clear H. cbn [Datetime.toordinal].
  apply andb_true_iff in Hc as [Hc Hd2]. apply andb_true_iff in Hc as [Hc Hd1].
  apply andb_true_iff in Hc as [Hy1 Hy2].
  unfold Datetime.MINYEAR, Datetime.MAXYEAR in *.
  pose proof (days_before_month_day_bound y m dd ltac:(lia)).
  pose proof (days_before_year_bounds y ltac:(lia)).
  unfold Datetime._ymd2ord, Datetime._MAXORDINAL. lia.
Qed.

(** ** Every component returns on well-formed input *)

Lemma same_name_parses (tx : Transaction) (h : list Transaction) :
  Forall parses h -> Forall parses (same_name tx h).
Proof.
  rewrite !List.Forall_forall. intros H t Ht. apply H. by apply same_name_In in Ht.
Qed.

Lemma percent_same_amount_ok (tx : Transaction) (h : list Transaction) :
  is_ok (get_percent_transactions_same_amount tx h).
Proof.
  unfold get_percent_transactions_same_amount.
  destruct h as [|t h]; [by eexists|].
  rewrite int_truediv_ok; [by eexists|].
  rewrite len_cons. pose proof (len_nonneg h). lia.
Qed.

Lemma time_based_below_two (tx : Transaction) (h : list Transaction) :
  len (same_name tx h) < 2 ->
  get_time_based_recurrence_patterns tx h = Ok time_based_defaults.
Proof.
  intros Hlt. unfold get_time_based_recurrence_patterns.
  by destruct (Z.ltb_spec (len (same_name tx h)) 2); [|lia].
Qed.

(** What [get_time_based_recurrence_patterns] returns once the dates of at
    least two same-vendor transactions have been parsed and sorted. *)
Lemma time_based_computed (tx : Transaction) (h : list Transaction) (dates : list datetime) :
  2 <= len (same_name tx h) ->
  sorted_dates (same_name tx h) = Ok dates ->
  exists (avg : value) (lo hi : Z) (sd : float),
    Statistics.mean_int (adjacent_diffs dates) = Ok avg
    /\ Builtins.min_int (adjacent_diffs dates) = Ok lo
    /\ Builtins.max_int (adjacent_diffs dates) = Ok hi
    /\ (if 1 <? len (adjacent_diffs dates) then Statistics.stdev_int (adjacent_diffs dates)
        else Ok Float.zero) = Ok sd
    /\ get_time_based_recurrence_patterns tx h
       = Ok (dict_of [
           ("is_biweekly",
             VInt (int_of_bool (0 <? Builtins.Counter (adjacent_diffs dates) 14)));
           ("is_semimonthly",
             VInt (int_of_bool
                     (Builtins.any (fun d => existsb (Z.eqb d) [15; 16; 14; 17])
                                   (adjacent_diffs dates))));
           ("is_monthly",
             VInt (int_of_bool (Builtins.any (between 27 31) (adjacent_diffs dates))));
           ("is_bimonthly",
             VInt (int_of_bool (Builtins.any (between 55 65) (adjacent_diffs dates))));
           ("is_quarterly",
             VInt (int_of_bool (Builtins.any (between 85 95) (adjacent_diffs dates))));
           ("is_annual",
             VInt (int_of_bool (Builtins.any (between 360 370) (adjacent_diffs dates))));
           ("avg_days_between_transactions", avg);
           ("min_days_between_transactions", VInt lo);
           ("max_days_between_transactions", VInt hi);
           ("std_days_between_transactions", VFloat sd)
         ]).
Proof.
  intros Hlen Hdates.
  assert (2 <= len dates) as Hlen'
    by (unfold len in *; by rewrite (sorted_dates_length _ _ Hdates)).
  pose proof (adjacent_diffs_nonempty dates Hlen') as Hne.
  destruct (mean_int_ok _ Hne) as [avg Havg].
  destruct (min_by_ok Z.ltb _ Hne) as [lo Hlo].
  destruct (max_by_ok Z.gtb _ Hne) as [hi Hhi].
  assert (is_ok (if 1 <? len (adjacent_diffs dates)
                 then Statistics.stdev_int (adjacent_diffs dates)
                 else Ok Float.zero)) as [sd Hsd].
  { destruct (Z.ltb_spec 1 (len (adjacent_diffs dates))); [|by eexists].
    apply stdev_int_ok. lia. }
  exists avg, lo, hi, sd. repeat (split; [done|]).
  unfold get_time_based_recurrence_patterns.
  destruct (Z.ltb_spec (len (same_name tx h)) 2); [lia|].
  rewrite Hdates. cbn [bind]. rewrite date_diffs_of_spec. cbn [bind].
  rewrite Havg. cbn [bind].
  unfold Builtins.min_int, Builtins.max_int. rewrite Hlo, Hhi. cbn [bind].
  rewrite Hsd. reflexivity.
Qed.

Lemma time_based_ok (tx : Transaction) (h : list Transaction) :
  Forall parses h -> is_ok (get_time_based_recurrence_patterns tx h).
Proof.
  intros Hh.
  destruct (Z.lt_ge_cases (len (same_name tx h)) 2) as [Hlt|Hge].
  - rewrite (time_based_below_two tx h Hlt). by eexists.
  - destruct (sorted_dates_ok (same_name tx h)) as [dates Hdates];
      [by apply same_name_parses|].
    destruct (time_based_computed tx h dates Hge Hdates) as (? & ? & ? & ? & _ & _ & _ & _ & H).
    by eexists.
Qed.

(** The periodicity analyzer can only fail with the error of [strptime]. *)
Lemma time_based_raises (tx : Transaction) (h : list Transaction) (e : exn) :
  get_time_based_recurrence_patterns tx h = Raise e -> e = ValueError.
Proof.
  intros H.
  destruct (Z.lt_ge_cases (len (same_name tx h)) 2) as [Hlt|Hge].
  - rewrite (time_based_below_two tx h Hlt) in H. discriminate.
  - destruct (sorted_dates (same_name tx h)) as [dates|e'] eqn:Hdates.
    + destruct (time_based_computed tx h dates Hge Hdates)
        as (? & ? & ? & ? & _ & _ & _ & _ & H').
      rewrite H' in H. discriminate.
    + pose proof (sorted_dates_raises _ _ Hdates) as ->.
      unfold get_time_based_recurrence_patterns in H.
      destruct (Z.ltb_spec (len (same_name tx h)) 2); [lia|].
      rewrite Hdates in H. cbn [bind] in H. congruence.
Qed.

Lemma amount_based_ok (tx : Transaction) (h : list Transaction) :
  is_ok (get_amount_based_features tx h).
Proof.
  unfold get_amount_based_features.
  destruct (same_name tx h) as [|t ts]; by eexists.
Qed.

Lemma day_std_dev_ok (days : list Z) : is_ok (day_std_dev_of days).
Proof.
  unfold day_std_dev_of.
  destruct (Z.ltb_spec 1 (len days)); [|by eexists].
  rewrite int_truediv_ok by lia. cbn [bind].
  unfold Float.truediv. rewrite of_int_nonzero by lia. by eexists.
Qed.

Lemma sub_timedelta_ok (d : datetime) (n : Z) :
  0 <= n -> n < Datetime.toordinal d <= Datetime._MAXORDINAL ->
  is_ok (Datetime.sub_timedelta d n).
Proof.
  intros Hn Hd. unfold Datetime.sub_timedelta.
  destruct (Z.ltb_spec 0 (Datetime.toordinal d - n)); [|lia].
  destruct (Z.leb_spec (Datetime.toordinal d - n) Datetime._MAXORDINAL); [|lia].
  by eexists.
Qed.

Lemma additional_ok (tx : Transaction) (h : list Transaction) (date_obj : datetime) :
  parse_date tx = Ok date_obj ->
  Forall parses h ->
  (same_name tx h <> [] -> 180 < Datetime.toordinal date_obj) ->
  is_ok (get_additional_recurring_indicators tx h).
Proof.
  intros Hdate Hh Hrange. unfold get_additional_recurring_indicators.
  rewrite Hdate. cbn [bind].
  destruct (same_name tx h) as [|t ts] eqn:Hm; [by eexists|].
  destruct (sorted_dates_ok (t :: ts)) as [dates Hdates];
    [rewrite <- Hm; by apply same_name_parses|].
  rewrite Hdates. cbn [bind].
  pose proof (strptime_range _ _ Hdate) as Hr.
  specialize (Hrange ltac:(done)).
  destruct (sub_timedelta_ok date_obj 90) as [three H3]; [lia|lia|].
  destruct (sub_timedelta_ok date_obj 180) as [six H6]; [lia|lia|].
  rewrite H3, H6. cbn [bind].
  destruct (day_std_dev_ok (map Datetime.day dates)) as [dev Hdev].
  rewrite Hdev. cbn [bind].
  destruct (getitem_ok dates 0) as [first Hfirst].
  { apply sorted_dates_length in Hdates. unfold len. rewrite Hdates. simpl. lia. }
  rewrite Hfirst. cbn [bind]. by eexists.
Qed.

Lemma day_of_week_ok (tx : Transaction) (h : list Transaction) :
  parses tx -> Forall parses h -> is_ok (get_day_of_week_features tx h).
Proof.
  intros [date_obj Hdate] Hh. unfold get_day_of_week_features.
  rewrite Hdate. cbn [bind].
  destruct (sorted_dates_ok (same_name tx h)) as [dates Hdates];
    [by apply same_name_parses|].
  rewrite Hdates. cbn [bind].
  destruct (Z.ltb_spec 1 (len dates)); [|by eexists].
  destruct (getitem_ok dates (-2)) as [prev Hprev]; [lia|].
  rewrite Hprev. by eexists.
Qed.

Lemma temporal_ok (tx : Transaction) (h : list Transaction) :
  parses tx -> Forall parses h -> is_ok (get_temporal_features tx h).
Proof.
  intros [date_obj Hdate] Hh. unfold get_temporal_features.
  destruct (sorted_dates_ok (same_name tx h)) as [dates Hdates];
    [by apply same_name_parses|].
  rewrite Hdates. cbn [bind].
  destruct (Z.ltb_spec (len dates) 2); [by eexists|].
  destruct (getitem_ok dates 0) as [first Hfirst]; [lia|].
  destruct (getitem_ok dates (-1)) as [last Hlast]; [lia|].
  rewrite Hfirst, Hdate, Hlast. cbn [bind].
  destruct (Z.eqb_spec (Datetime.sub_days last first) 0) as [|Hne]; [by eexists|].
  rewrite int_truediv_ok by lia. cbn [bind].
  unfold Float.truediv. rewrite div_int_30_nonzero by done. by eexists.
Qed.

Lemma user_behavior_ok (tx : Transaction) (h : list Transaction) :
  is_ok (get_user_behavior_features tx h).
Proof.
  unfold get_user_behavior_features.
  destruct (List.filter _ h) as [|t ts]; [by eexists|].
  destruct (mean_float_ok (map amount (t :: ts))) as [avg Havg]; [done|].
  rewrite Havg. by eexists.
Qed.

Lemma refund_ok (tx : Transaction) (h : list Transaction) :
  parses tx -> Forall parses h -> is_ok (get_refund_features tx h).
Proof.
  intros [date_obj Hdate] Hh. unfold get_refund_features.
  destruct (List.filter _ h) as [|t ts] eqn:Hf; [by eexists|].
  rewrite int_truediv_ok by (apply (filter_nonempty_len _ _ ltac:(by rewrite Hf))).
  cbn [bind].
  match goal with |- context [mapM ?f (t :: ts)] =>
    destruct (mapM_ok_all f (t :: ts)) as [lags Hlags] end.
  { rewrite List.Forall_forall. intros x Hx.
    assert (In x h) as Hin by (rewrite <- Hf in Hx; apply filter_In in Hx; tauto).
    rewrite List.Forall_forall in Hh. destruct (Hh x Hin) as [dx Hdx].
    rewrite Hdx, Hdate. by eexists. }
  rewrite Hlags. cbn [bind].
  destruct lags as [|lag lags]; [by eexists|].
  destruct (mean_int_ok (lag :: lags)) as [avg Havg]; [done|].
  rewrite Havg. by eexists.
Qed.

Lemma validate_ok (tx : Transaction) :
  (Str.lower (name tx) = "apple" -> Float.is_finite (amount tx) = true) ->
  is_ok (validate_recurring_transaction tx).
Proof.
  intros Hfin. unfold validate_recurring_transaction.
  destruct (Str.mem _ _); [by eexists|].
  unfold vendor_specific_rules. cbn [get_str].
  destruct (String.eqb_spec (Str.lower (name tx)) "apple") as [Happle|_].
  - unfold apple_rule. destruct (to_int_ok _ (Hfin Happle)) as [whole Hw].
    rewrite Hw. by eexists.
  - repeat (destruct (String.eqb _ _); [by eexists|]). by eexists.
Qed.

(** ** The keys of each component *)

Lemma time_based_dom (tx : Transaction) (h : list Transaction) (d : dict) :
  get_time_based_recurrence_patterns tx h = Ok d -> dom d = list_to_set time_based_keys.
Proof.
  intros H.
  destruct (Z.lt_ge_cases (len (same_name tx h)) 2) as [Hlt|Hge].
  - rewrite (time_based_below_two tx h Hlt) in H. inversion H; subst.
    unfold time_based_defaults. by rewrite dict_of_dom.
  - destruct (sorted_dates (same_name tx h)) as [dates|e] eqn:Hdates.
    + destruct (time_based_computed tx h dates Hge Hdates)
        as (? & ? & ? & ? & _ & _ & _ & _ & H').
      rewrite H' in H. inversion H; subst. by rewrite dict_of_dom.
    + unfold get_time_based_recurrence_patterns in H.
      destruct (Z.ltb_spec (len (same_name tx h)) 2); [lia|].
      rewrite Hdates in H. discriminate.
Qed.

Lemma amount_based_dom (tx : Transaction) (h : list Transaction) (d : dict) :
  get_amount_based_features tx h = Ok d -> dom d = list_to_set amount_keys.
Proof.
  unfold get_amount_based_features. intros H.
  destruct (same_name tx h) as [|t ts].
  - inversion H; subst. unfold amount_defaults. by rewrite dict_of_dom.
  - apply bind_ok in H as (lo & _ & H). apply bind_ok in H as (hi & _ & H).
    inversion H; subst. by rewrite dict_of_dom.
Qed.

Lemma additional_dom (tx : Transaction) (h : list Transaction) (d : dict) :
  get_additional_recurring_indicators tx h = Ok d -> dom d = list_to_set additional_keys.
Proof.
  unfold get_additional_recurring_indicators. intros H.
  apply bind_ok in H as (date_obj & _ & H).
  destruct (same_name tx h) as [|t ts].
  - inversion H; subst. unfold additional_defaults. by rewrite dict_of_dom.
  - do 5 (apply bind_ok in H as (? & _ & H)).
    inversion H; subst. by rewrite dict_of_dom.
Qed.

Lemma day_of_week_dom (tx : Transaction) (h : list Transaction) (d : dict) :
  get_day_of_week_features tx h = Ok d -> dom d = list_to_set day_of_week_keys.
Proof.
  unfold get_day_of_week_features. intros H.
  do 3 (apply bind_ok in H as (? & _ & H)).
  inversion H; subst. by rewrite dict_of_dom.
Qed.

Lemma temporal_dom (tx : Transaction) (h : list Transaction) (d : dict) :
  get_temporal_features tx h = Ok d -> dom d = list_to_set temporal_keys.
Proof.
  unfold get_temporal_features. intros H.
  apply bind_ok in H as (dates & _ & H).
  destruct (len dates <? 2).
  - inversion H; subst. unfold temporal_defaults. by rewrite dict_of_dom.
  - do 5 (apply bind_ok in H as (? & _ & H)).
    inversion H; subst. by rewrite dict_of_dom.
Qed.

Lemma user_behavior_dom (tx : Transaction) (h : list Transaction) (d : dict) :
  get_user_behavior_features tx h = Ok d -> dom d = list_to_set user_keys.
Proof.
  unfold get_user_behavior_features. intros H.
  destruct (List.filter _ h) as [|t ts].
  - inversion H; subst. unfold user_defaults. by rewrite dict_of_dom.
  - apply bind_ok in H as (? & _ & H).
    inversion H; subst. by rewrite dict_of_dom.
Qed.

Lemma refund_dom (tx : Transaction) (h : list Transaction) (d : dict) :
  get_refund_features tx h = Ok d -> dom d = list_to_set refund_keys.
Proof.
  unfold get_refund_features. intros H.
  destruct (List.filter _ h) as [|t ts].
  - inversion H; subst. unfold refund_defaults. by rewrite dict_of_dom.
  - do 3 (apply bind_ok in H as (? & _ & H)).
    inversion H; subst. by rewrite dict_of_dom.
Qed.

(** ** The aggregate agrees with every component on its keys *)

Lemma merge_lookup (d1 d2 : dict) (k : string) :
  merge d1 d2 !! k = match d2 !! k with Some v => Some v | None => d1 !! k end.
Proof. unfold merge. rewrite lookup_union. by destruct (d2 !! k), (d1 !! k). Qed.

Lemma lookup_outside (d : dict) (k : string) (keys : list string) :
  dom d = list_to_set keys -> ~ In k keys -> d !! k = None.
Proof.
  intros Hdom Hk. apply not_elem_of_dom. rewrite Hdom, elem_of_list_to_set, list_elem_of_In.
  exact Hk.
Qed.

Lemma lookup_inside (d : dict) (k : string) (keys : list string) :
  dom d = list_to_set keys -> In k keys -> exists v, d !! k = Some v.
Proof.
  intros Hdom Hk. apply elem_of_dom. rewrite Hdom, elem_of_list_to_set, list_elem_of_In.
  exact Hk.
Qed.

(** Steps over a component that does not hold the key; reads the key from
    the component that holds it; treats each key of a literal list. *)
Ltac skip_component d D :=
  rewrite (lookup_outside d _ _ D) by (simpl; intuition discriminate).

Ltac take_component d D Hin :=
  match goal with
  | |- match d !! ?k with _ => _ end = _ =>
      apply (proj2 (Hin k _ d D ltac:(simpl; tauto)))
  end.

Ltac each_key Hk tac :=
  simpl in Hk; repeat (destruct Hk as [<-|Hk]; [tac|]); destruct Hk.

(** The keys of the components are pairwise distinct, so merging loses no
    item: the aggregate holds, for each key of a component, the value the
    component computed. *)
Lemma get_features_components (tx : Transaction) (h : list Transaction) (fv : dict) :
  get_features tx h = Ok fv ->
  exists (tb ab ad dw te ub rf : dict) (valid : bool),
    get_time_based_recurrence_patterns tx h = Ok tb
    /\ get_amount_based_features tx h = Ok ab
    /\ get_additional_recurring_indicators tx h = Ok ad
    /\ get_day_of_week_features tx h = Ok dw
    /\ get_temporal_features tx h = Ok te
    /\ get_user_behavior_features tx h = Ok ub
    /\ get_refund_features tx h = Ok rf
    /\ validate_recurring_transaction tx = Ok valid
    /\ (forall k, In k time_based_keys -> fv !! k = tb !! k)
    /\ (forall k, In k amount_keys -> fv !! k = ab !! k)
    /\ (forall k, In k additional_keys -> fv !! k = ad !! k)
    /\ (forall k, In k day_of_week_keys -> fv !! k = dw !! k)
    /\ (forall k, In k temporal_keys -> fv !! k = te !! k)
    /\ (forall k, In k user_keys -> fv !! k = ub !! k)
    /\ (forall k, In k refund_keys -> fv !! k = rf !! k)
    /\ fv !! "is_valid_recurring_transaction" = Some (VInt (int_of_bool valid)).
Proof.
  unfold get_features. intros H.
  apply bind_ok in H as (percent & _ & H).
  apply bind_ok in H as (tb & Htb & H).
  apply bind_ok in H as (ab & Hab & H).
  apply bind_ok in H as (ad & Had & H).
  apply bind_ok in H as (dw & Hdw & H).
  apply bind_ok in H as (te & Hte & H).
  apply bind_ok in H as (ub & Hub & H).
  apply bind_ok in H as (rf & Hrf & H).
  apply bind_ok in H as (valid & Hvalid & H).
  inversion H; subst; clear H.
  exists tb, ab, ad, dw, te, ub, rf, valid.
  repeat (split; [assumption|]).
  pose proof (time_based_dom _ _ _ Htb) as Dtb.
  pose proof (amount_based_dom _ _ _ Hab) as Dab.
  pose proof (additional_dom _ _ _ Had) as Dad.
  pose proof (day_of_week_dom _ _ _ Hdw) as Ddw.
  pose proof (temporal_dom _ _ _ Hte) as Dte.
  pose proof (user_behavior_dom _ _ _ Hub) as Dub.
  pose proof (refund_dom _ _ _ Hrf) as Drf.
  assert (dom (get_vendor_subscription_features tx)
          = list_to_set ["is_major_subscription"; "is_telecom_or_insurance";
                         "is_utility_bill"; "subscription_tier"]) as Dsub
    by (unfold get_vendor_subscription_features; by rewrite dict_of_dom).
  assert (dom (get_vendor_specific_features tx h)
          = list_to_set ["vendor_popularity"; "vendor_category"]) as Dven
    by (unfold get_vendor_specific_features; by rewrite dict_of_dom).
  set (sub := get_vendor_subscription_features tx) in *.
  set (ven := get_vendor_specific_features tx h) in *.
  assert (forall (k : string) (keys : list string) (d : dict),
            dom d = list_to_set keys -> In k keys ->
            match d !! k with Some v => Some v | None => None end = d !! k
            /\ forall o : option value,
                 match d !! k with Some v => Some v | None => o end = d !! k) as Hin.
  { intros k keys d Hd Hk. destruct (lookup_inside d k keys Hd Hk) as [v ->]. done. }
  repeat (match goal with |- _ /\ _ => split end).
  - intros k Hk. rewrite lookup_insert_ne by (intros <-; simpl in Hk; intuition discriminate).
    rewrite !merge_lookup.
    each_key Hk ltac:(skip_component rf Drf; skip_component ub Dub; skip_component ven Dven; skip_component te Dte; skip_component dw Ddw;
                      skip_component ad Dad; skip_component ab Dab; skip_component sub Dsub; take_component tb Dtb Hin).
  - intros k Hk. rewrite lookup_insert_ne by (intros <-; simpl in Hk; intuition discriminate).
    rewrite !merge_lookup.
    each_key Hk ltac:(skip_component rf Drf; skip_component ub Dub; skip_component ven Dven; skip_component te Dte; skip_component dw Ddw;
                      skip_component ad Dad; take_component ab Dab Hin).
  - intros k Hk. rewrite lookup_insert_ne by (intros <-; simpl in Hk; intuition discriminate).
    rewrite !merge_lookup.
    each_key Hk ltac:(skip_component rf Drf; skip_component ub Dub; skip_component ven Dven; skip_component te Dte; skip_component dw Ddw;
                      take_component ad Dad Hin).
  - intros k Hk. rewrite lookup_insert_ne by (intros <-; simpl in Hk; intuition discriminate).
    rewrite !merge_lookup.
    each_key Hk ltac:(skip_component rf Drf; skip_component ub Dub; skip_component ven Dven; skip_component te Dte; take_component dw Ddw Hin).
  - intros k Hk. rewrite lookup_insert_ne by (intros <-; simpl in Hk; intuition discriminate).
    rewrite !merge_lookup.
    each_key Hk ltac:(skip_component rf Drf; skip_component ub Dub; skip_component ven Dven; take_component te Dte Hin).
  - intros k Hk. rewrite lookup_insert_ne by (intros <-; simpl in Hk; intuition discriminate).
    rewrite !merge_lookup.
    each_key Hk ltac:(skip_component rf Drf; take_component ub Dub Hin).
  - intros k Hk. rewrite lookup_insert_ne by (intros <-; simpl in Hk; intuition discriminate).
    rewrite !merge_lookup.
    each_key Hk ltac:(take_component rf Drf Hin).
  - apply lookup_insert_eq.
Qed.

Lemma get_features_additional (tx : Transaction) (h : list Transaction) (fv : dict) :
  get_features tx h = Ok fv ->
  exists ad : dict,
    get_additional_recurring_indicators tx h = Ok ad
    /\ forall k, In k additional_keys -> fv !! k = ad !! k.
Proof.
  intros H.
  destruct (get_features_components tx h fv H)
    as (tb & ab & ad & dw & te & ub & rf & valid & _ & _ & Had & _ & _ & _ & _ & _
        & _ & _ & Hk & _).
  by exists ad.
Qed.

Lemma get_features_amount_based (tx : Transaction) (h : list Transaction) (fv : dict) :
  get_features tx h = Ok fv ->
  exists ab : dict,
    get_amount_based_features tx h = Ok ab
    /\ forall k, In k amount_keys -> fv !! k = ab !! k.
Proof.
  intros H.
  destruct (get_features_components tx h fv H)
    as (tb & ab & ad & dw & te & ub & rf & valid & _ & Hab & _ & _ & _ & _ & _ & _
        & _ & Hk & _).
  by exists ab.
Qed.

(** * The claims *)

(** ** The keys of the feature vector *)

(** C1: whenever [get_features] returns a mapping, its keys are exactly the
    41 keys of section 6 of the specification: none is missing and there is
    no other key. *)
Theorem get_features_keys (tx : Transaction) (h : list Transaction) (fv : dict) :
  get_features tx h = Ok fv ->
  dom fv = list_to_set feature_keys
  /\ NoDup feature_keys
  /\ length feature_keys = 41%nat
  /\ size fv = 41%nat.
Proof.
  intros H.
  assert (NoDup feature_keys) as Hnodup
    by (apply NoDup_ListNoDup, (NoDup_count_occ' string_dec);
        intros x Hx; repeat (destruct Hx as [<-|Hx]; [reflexivity|]); destruct Hx).
  assert (dom fv = list_to_set feature_keys) as Hdom.
  { unfold get_features in H.
    apply bind_ok in H as (percent & _ & H).
    apply bind_ok in H as (tb & Htb & H).
    apply bind_ok in H as (ab & Hab & H).
    apply bind_ok in H as (ad & Had & H).
    apply bind_ok in H as (dw & Hdw & H).
    apply bind_ok in H as (te & Hte & H).
    apply bind_ok in H as (ub & Hub & H).
    apply bind_ok in H as (rf & Hrf & H).
    apply bind_ok in H as (valid & _ & H).
    inversion H; subst; clear H.
    rewrite dom_insert_L, !merge_dom, !dict_of_dom.
    rewrite (time_based_dom _ _ _ Htb), (amount_based_dom _ _ _ Hab),
      (additional_dom _ _ _ Had), (day_of_week_dom _ _ _ Hdw), (temporal_dom _ _ _ Hte),
      (user_behavior_dom _ _ _ Hub), (refund_dom _ _ _ Hrf).
    unfold get_vendor_subscription_features, get_vendor_specific_features.
    rewrite !dict_of_dom.
    reflexivity. }
  split; [exact Hdom|]. split; [exact Hnodup|]. split; [reflexivity|].
  rewrite <- size_dom, Hdom, size_list_to_set by exact Hnodup. reflexivity.
Qed.

Lemma get_features_keys_witness :
  exists fv : dict,
    get_features gym_june gym_history = Ok fv
    /\ dom fv = list_to_set feature_keys
    /\ size fv = 41%nat.
Proof.
  destruct (returns_true (get_features gym_june gym_history)) as [fv Hfv];
    [vm_compute; reflexivity|].
  exists fv. split; [exact Hfv|].
  destruct (get_features_keys gym_june gym_history fv Hfv) as (Hdom & _ & _ & Hsize).
  split; assumption.
Defined.

(** ** Refunds and cancellations *)

Lemma is_refund_of_spec (tx t : Transaction) :
  is_refund_of tx t = true <-> refunds t tx.
Proof.
  unfold is_refund_of, refunds, Builtins.any.
  rewrite andb_true_iff, existsb_exists, (eqb_opp_sym (amount tx) (amount t)).
  reflexivity.
Qed.

(** The claim C2 as stated fails: the history holds a refund of the charge
    (the very example of the claim), yet the feature is 0, because no
    transaction of the history carries the vendor name of the charge. *)
Lemma refund_without_vendor_history_not_flagged :
  (exists t, In t [acme_refund] /\ refunds t acme_charge)
  /\ exists d : dict,
       get_additional_recurring_indicators acme_charge [acme_refund] = Ok d
       /\ d !! "is_canceled_or_refunded" = Some (VInt 0).
Proof.
  split.
  - exists acme_refund. split; [by left|]. split; [vm_compute; reflexivity|].
    exists "refund". split; [by left | vm_compute; reflexivity].
  - apply feature_Some. vm_compute. reflexivity.
Qed.

Lemma canceled_or_refunded_of_component
    (tx : Transaction) (h : list Transaction) (d : dict) :
  get_additional_recurring_indicators tx h = Ok d ->
  (d !! "is_canceled_or_refunded" = Some (VInt 0)
   \/ d !! "is_canceled_or_refunded" = Some (VInt 1))
  /\ (d !! "is_canceled_or_refunded" = Some (VInt 1)
      <-> same_name tx h <> [] /\ exists t, In t h /\ refunds t tx).
Proof.
  unfold get_additional_recurring_indicators. intros H.
  apply bind_ok in H as (date_obj & Hdate & H).
  destruct (same_name tx h) as [|t0 ts] eqn:Hm.
  - inversion H; subst. unfold additional_defaults. split.
    + left. dict_lookup.
    + rewrite dict_of_lookup. split; [discriminate | intros [Hne _]; congruence].
  - apply bind_ok in H as (dates & Hdates & H).
    apply bind_ok in H as (three & H3 & H).
    apply bind_ok in H as (six & H6 & H).
    apply bind_ok in H as (dev & Hdev & H).
    apply bind_ok in H as (first & Hfirst & H).
    inversion H; subst; clear H.
    rewrite dict_of_lookup.
    change (item_value _ "is_canceled_or_refunded")
      with (Some (VInt (int_of_bool (Builtins.any (is_refund_of tx) h)))).
    destruct (Builtins.any (is_refund_of tx) h) eqn:Hany; simpl.
    + split; [by right|]. split; [|done]. intros _. split; [done|].
      apply existsb_exists in Hany as (t & Hin & Ht).
      exists t. split; [done|]. by apply is_refund_of_spec.
    + split; [by left|]. split; [discriminate|].
      intros (_ & t & Hin & Ht). apply is_refund_of_spec in Ht.
      assert (Builtins.any (is_refund_of tx) h = true) as Habs
        by (apply existsb_exists; eauto).
      congruence.
Qed.

Lemma refunds_spec (t tx : Transaction) :
  refunds t tx
  <-> Float.eqb (amount tx) (Float.opp (amount t)) = true
      /\ exists word before after : string,
           In word ["refund"; "reversal"; "canceled"; "chargeback"]
           /\ Str.lower (name t) = before +:+ word +:+ after.
Proof.
  unfold refunds. rewrite (eqb_opp_sym (amount t) (amount tx)).
  change refund_keywords with ["refund"; "reversal"; "canceled"; "chargeback"].
  split; intros [Hamt Hword]; (split; [exact Hamt|]).
  - destruct Hword as (word & Hin & Hc). apply contains_spec in Hc as (before & after & E).
    by exists word, before, after.
  - destruct Hword as (word & before & after & Hin & E).
    exists word. split; [exact Hin|]. apply contains_spec. by exists before, after.
Qed.

(** C2 (amended): for a history whose names are ASCII text, in the record
    that [get_additional_recurring_indicators] returns, and in the feature
    vector that [get_features] returns, [is_canceled_or_refunded] is 0 or 1,
    and it is 1 exactly when some transaction of the history has the name of
    the transaction and some transaction of the full history (any vendor)
    is a refund of it: the amount of the transaction equals the negation of
    its amount, and its name in lower case is some text, then one of refund,
    reversal, canceled, chargeback, then some text. *)
Theorem canceled_or_refunded_iff
    (tx : Transaction) (h : list Transaction) (d : dict) :
  Forall (fun t => ascii_text (name t) = true) h ->
  get_additional_recurring_indicators tx h = Ok d \/ get_features tx h = Ok d ->
  (d !! "is_canceled_or_refunded" = Some (VInt 0)
   \/ d !! "is_canceled_or_refunded" = Some (VInt 1))
  /\ (d !! "is_canceled_or_refunded" = Some (VInt 1)
      <-> (exists t0 : Transaction, In t0 h /\ name t0 = name tx)
          /\ exists (t : Transaction) (word before after : string),
               In t h
               /\ Float.eqb (amount tx) (Float.opp (amount t)) = true
               /\ In word ["refund"; "reversal"; "canceled"; "chargeback"]
               /\ Str.lower (name t) = before +:+ word +:+ after).
Proof.
  intros _ H.
  assert ((d !! "is_canceled_or_refunded" = Some (VInt 0)
           \/ d !! "is_canceled_or_refunded" = Some (VInt 1))
          /\ (d !! "is_canceled_or_refunded" = Some (VInt 1)
              <-> same_name tx h <> [] /\ exists t, In t h /\ refunds t tx))
    as [Hflag Hiff].
  { destruct H as [H|H]; [by apply canceled_or_refunded_of_component|].
    destruct (get_features_additional tx h d H) as (ad & Had & Hk).
    rewrite !Hk by (simpl; tauto).
    by apply canceled_or_refunded_of_component. }
  split; [exact Hflag|]. rewrite Hiff, same_name_nonempty.
  split; intros [Hvendor Hrefund]; (split; [exact Hvendor|]).
  - destruct Hrefund as (t & Hin & Ht).
    apply refunds_spec in Ht as (Hamt & word & before & after & Hword & E).
    by exists t, word, before, after.
  - destruct Hrefund as (t & word & before & after & Hin & Hamt & Hword & E).
    exists t. split; [exact Hin|]. apply refunds_spec. split; [exact Hamt|].
    by exists word, before, after.
Qed.

(** The example of the claim with the charge itself in the history, and a
    cancellation in capitals that stands before the charge. *)
Lemma canceled_or_refunded_iff_witness :
  (exists d : dict,
     get_additional_recurring_indicators acme_charge [acme_charge; acme_refund] = Ok d
     /\ d !! "is_canceled_or_refunded" = Some (VInt 1))
  /\ (exists d : dict,
        get_features acme_charge [acme_cancellation; acme_charge] = Ok d
        /\ d !! "is_canceled_or_refunded" = Some (VInt 1)).
Proof.
  split.
  - destruct (returns_true
                (get_additional_recurring_indicators acme_charge [acme_charge; acme_refund]))
      as [d Hd]; [vm_compute; reflexivity|].
    exists d. split; [exact Hd|].
    apply (proj2 (canceled_or_refunded_iff acme_charge [acme_charge; acme_refund] d
                    ltac:(repeat constructor) (or_introl Hd))).
    split; [exists acme_charge; split; [by left | reflexivity]|].
    exists acme_refund, "refund", "", " - acme".
    split; [right; by left|]. split; [vm_compute; reflexivity|].
    split; [by left | vm_compute; reflexivity].
  - destruct (returns_true (get_features acme_charge [acme_cancellation; acme_charge]))
      as [d Hd]; [vm_compute; reflexivity|].
    exists d. split; [exact Hd|].
    apply (proj2 (canceled_or_refunded_iff acme_charge [acme_cancellation; acme_charge] d
                    ltac:(repeat constructor) (or_intror Hd))).
    split; [exists acme_charge; split; [right; by left | reflexivity]|].
    exists acme_cancellation, "canceled", "acme ", " order".
    split; [by left|]. split; [vm_compute; reflexivity|].
    split; [right; right; by left | vm_compute; reflexivity].
Defined.

(** ** The vendor rule for Apple *)

(** The float [4.99] minus [int(4.99)] is 0.99000000000000021..., which is
    above the float [0.99] (0.98999999999999999...). *)
Lemma cents_of_4_99 :
  Float.sub (Float.lit 499 100) (Float.of_int 4) = S754_finite false 8917127262193584 (-53)
  /\ Float.lit 99 100 = S754_finite false 8917127262193582 (-53).
Proof. split; vm_compute; reflexivity. Qed.

(** C3: the code rejects the Apple amount 4.99 (and 5.00), although it
    accepts 1.99: the subtraction [amt - int(amt)] is inexact. *)
Theorem apple_rule_rejects_4_99 :
  validate_recurring_transaction apple_4_99 = Ok false
  /\ validate_recurring_transaction apple_5_00 = Ok false
  /\ validate_recurring_transaction apple_1_99 = Ok true.
Proof. repeat split; vm_compute; reflexivity. Qed.

(** ** Fixed amounts *)

(** The claim C4 as stated fails: a history whose only amount is the
    amount of the transaction, -10.00, has no variation at all, yet the flag
    is 0, because -10.0 is above -10.0 * 1.02. *)
Lemma negative_fixed_amount_not_flagged :
  same_name credit_tx [credit_tx] = [credit_tx]
  /\ Float.eqb (amount credit_tx) (amount credit_tx) = true
  /\ feature (get_amount_based_features credit_tx [credit_tx]) "is_fixed_amount_recurring"
     = Some (VInt 0).
Proof. repeat split; vm_compute; reflexivity. Qed.

Lemma fixed_amount_of_component (tx : Transaction) (h : list Transaction) (d : dict) :
  get_amount_based_features tx h = Ok d ->
  same_name tx h <> [] ->
  exists lo hi : float,
    Builtins.min_float (map amount (same_name tx h)) = Ok lo
    /\ Builtins.max_float (map amount (same_name tx h)) = Ok hi
    /\ flag_is d "is_fixed_amount_recurring"
         (Float.leb hi (Float.mul lo (Float.lit 102 100)) = true)
    /\ ((forall t, In t (same_name tx h) -> Float.eqb (amount t) (amount tx) = true) ->
        Float.valid (amount tx) = true ->
        Float.leb Float.zero (amount tx) = true ->
        d !! "is_fixed_amount_recurring" = Some (VInt 1)).
Proof.
  unfold get_amount_based_features. intros H Hne.
  destruct (same_name tx h) as [|t ts] eqn:Hm; [done|].
  apply bind_ok in H as (lo & Hlo & H). apply bind_ok in H as (hi & Hhi & H).
  inversion H; subst; clear H.
  exists lo, hi. split; [exact Hlo|]. split; [exact Hhi|]. split.
  - exists (Float.leb hi (Float.mul lo (Float.lit 102 100))). split; [dict_lookup | done].
  - intros Hsame Hvalid Hpos.
    assert (forall x, In x (map amount (t :: ts)) -> Float.eqb x (amount tx) = true) as Hall.
    { intros x Hx. apply in_map_iff in Hx as (t' & <- & Ht'). by apply Hsame. }
    apply min_by_In in Hlo. apply max_by_In in Hhi.
    rewrite dict_of_lookup.
    change (item_value _ "is_fixed_amount_recurring")
      with (Some (VInt (int_of_bool (Float.leb hi (Float.mul lo (Float.lit 102 100)))))).
    rewrite (leb_mul_102_equal (amount tx) lo hi Hvalid Hpos (Hall _ Hlo) (Hall _ Hhi)).
    reflexivity.
Qed.

(** C4 (amended): when some transaction of the history has the vendor name,
    [is_fixed_amount_recurring] (in the record of [get_amount_based_features]
    and in the feature vector of [get_features]) is 1 exactly when the
    maximum of the vendor's amounts is at most 1.02 times their minimum; and
    it is 1 whenever every amount of the vendor equals the amount of the
    transaction and that amount is not negative. *)
Theorem fixed_amount_flag (tx : Transaction) (h : list Transaction) (d : dict) :
  get_amount_based_features tx h = Ok d \/ get_features tx h = Ok d ->
  same_name tx h <> [] ->
  exists lo hi : float,
    Builtins.min_float (map amount (same_name tx h)) = Ok lo
    /\ Builtins.max_float (map amount (same_name tx h)) = Ok hi
    /\ flag_is d "is_fixed_amount_recurring"
         (Float.leb hi (Float.mul lo (Float.lit 102 100)) = true)
    /\ ((forall t, In t (same_name tx h) -> Float.eqb (amount t) (amount tx) = true) ->
        Float.valid (amount tx) = true ->
        Float.leb Float.zero (amount tx) = true ->
        d !! "is_fixed_amount_recurring" = Some (VInt 1)).
Proof.
  intros [H|H] Hne; [by apply fixed_amount_of_component|].
  destruct (get_features_amount_based tx h d H) as (ab & Hab & Hk).
  unfold flag_is. rewrite !Hk by (simpl; tauto).
  by apply fixed_amount_of_component.
Qed.

Lemma fixed_amount_flag_witness :
  exists d : dict,
    get_amount_based_features (netflix_tx 2 "2024-02-01")
      [netflix_tx 1 "2024-01-01"; netflix_tx 2 "2024-02-01"] = Ok d
    /\ d !! "is_fixed_amount_recurring" = Some (VInt 1).
Proof.
  destruct (returns_true
              (get_amount_based_features (netflix_tx 2 "2024-02-01")
                 [netflix_tx 1 "2024-01-01"; netflix_tx 2 "2024-02-01"]))
    as [d Hd]; [vm_compute; reflexivity|].
  exists d. split; [exact Hd|].
  destruct (fixed_amount_flag _ _ d (or_introl Hd)) as (lo & hi & _ & _ & _ & Hone);
    [vm_compute; discriminate|].
  apply Hone.
  - intros t Ht. vm_compute in Ht. destruct Ht as [<-|[<-|[]]]; vm_compute; reflexivity.
  - vm_compute. reflexivity.
  - vm_compute. reflexivity.
Defined.

(** ** The interval and periodicity analyzer *)

(** C5: when the history holds fewer than two transactions with the
    transaction's vendor name, [get_time_based_recurrence_patterns] returns
    (without raising) the default record: the six cadence flags and the
    minimum and maximum are 0, the average and the standard deviation are
    0.0, and there are exactly these ten keys. *)
Theorem time_based_defaults_below_two (tx : Transaction) (h : list Transaction) :
  len (same_name tx h) < 2 ->
  exists d : dict,
    get_time_based_recurrence_patterns tx h = Ok d
    /\ d !! "is_biweekly" = Some (VInt 0)
    /\ d !! "is_semimonthly" = Some (VInt 0)
    /\ d !! "is_monthly" = Some (VInt 0)
    /\ d !! "is_bimonthly" = Some (VInt 0)
    /\ d !! "is_quarterly" = Some (VInt 0)
    /\ d !! "is_annual" = Some (VInt 0)
    /\ d !! "avg_days_between_transactions" = Some (VFloat Float.zero)
    /\ d !! "min_days_between_transactions" = Some (VInt 0)
    /\ d !! "max_days_between_transactions" = Some (VInt 0)
    /\ d !! "std_days_between_transactions" = Some (VFloat Float.zero)
    /\ dom d = list_to_set time_based_keys.
Proof.
  intros Hlt. exists time_based_defaults.
  split; [by apply time_based_below_two|].
  unfold time_based_defaults.
  repeat (match goal with |- _ /\ _ => split end); try dict_lookup.
  by rewrite dict_of_dom.
Qed.

(** A history with a single transaction of the vendor, whose date is not
    even a date: the defaults are returned all the same. *)
Lemma time_based_defaults_below_two_witness :
  exists d : dict,
    get_time_based_recurrence_patterns
      (mk_tx 1 "Gym" (Float.lit 20 1) "2024-01-29")
      [mk_tx 1 "Gym" (Float.lit 20 1) "not a date"; mk_tx 2 "Cafe" (Float.lit 3 1) "2024-01-02"]
    = Ok d /\ d !! "avg_days_between_transactions" = Some (VFloat Float.zero).
Proof.
  destruct (time_based_defaults_below_two
              (mk_tx 1 "Gym" (Float.lit 20 1) "2024-01-29")
              [mk_tx 1 "Gym" (Float.lit 20 1) "not a date";
               mk_tx 2 "Cafe" (Float.lit 3 1) "2024-01-02"])
    as (d & Hd & _ & _ & _ & _ & _ & _ & Havg & _).
  - vm_compute. reflexivity.
  - exists d. split; assumption.
Defined.

(** C6: let [dates] be the dates of the transactions of the history that
    have the name of the transaction, in ascending order, and let there be
    at least two.  Then each cadence flag of
    [get_time_based_recurrence_patterns] is the disjunction, over the gaps
    between consecutive dates, of its window: a gap of 14 for biweekly, of 14
    to 17 for semimonthly, of 27 to 31 for monthly, of 55 to 65 for
    bimonthly, of 85 to 95 for quarterly, of 360 to 370 for annual.  For the
    same-vendor dates 2024-01-01, 2024-01-15 and 2024-01-29, in this order
    or in another and among the transactions of another vendor, the gaps
    are [14; 14], is_biweekly and is_semimonthly are 1, the average is the
    integer 14, which equals 14.0, and the standard deviation is 0.0. *)
Theorem cadence_flags_any_gap :
  (forall (tx : Transaction) (h : list Transaction) (parsed dates : list datetime),
      Forall2 (fun t d => Datetime.strptime (date t) = Ok d)
              (List.filter (fun t => String.eqb (name t) (name tx)) h) parsed ->
      2 <= len parsed ->
      Permutation dates parsed ->
      StronglySorted date_le dates ->
      exists d : dict,
        get_time_based_recurrence_patterns tx h = Ok d
        /\ flag_is d "is_biweekly" (exists g, In g (adjacent_diffs dates) /\ g = 14)
        /\ flag_is d "is_semimonthly"
             (exists g, In g (adjacent_diffs dates) /\ (g = 14 \/ g = 15 \/ g = 16 \/ g = 17))
        /\ flag_is d "is_monthly" (exists g, In g (adjacent_diffs dates) /\ 27 <= g <= 31)
        /\ flag_is d "is_bimonthly" (exists g, In g (adjacent_diffs dates) /\ 55 <= g <= 65)
        /\ flag_is d "is_quarterly" (exists g, In g (adjacent_diffs dates) /\ 85 <= g <= 95)
        /\ flag_is d "is_annual" (exists g, In g (adjacent_diffs dates) /\ 360 <= g <= 370))
  /\ (exists d1 d2 d3 : datetime,
        Datetime.strptime "2024-01-01" = Ok d1
        /\ Datetime.strptime "2024-01-15" = Ok d2
        /\ Datetime.strptime "2024-01-29" = Ok d3
        /\ adjacent_diffs [d1; d2; d3] = [14; 14])
  /\ Forall (fun h =>
       let r := get_time_based_recurrence_patterns (biweekly_tx 3 "2024-01-29") h in
       feature r "is_biweekly" = Some (VInt 1)
       /\ feature r "is_semimonthly" = Some (VInt 1)
       /\ feature r "is_monthly" = Some (VInt 0)
       /\ feature r "avg_days_between_transactions" = Some (VInt 14)
       /\ py_eq (VInt 14) (VFloat (Float.lit 14 1)) = true
       /\ feature r "std_days_between_transactions" = Some (VFloat Float.zero))
     [biweekly_history; mixed_history].
Proof.
  split; [|split].
  - intros tx h parsed dates Hparsed Hlen Hperm Hasc.
    pose proof (sorted_dates_of_parsed _ parsed dates Hparsed Hperm Hasc) as Hdates.
    assert (2 <= len (same_name tx h)) as Hlen'.
    { unfold same_name, len in *. by rewrite (Forall2_length _ _ _ Hparsed). }
    destruct (time_based_computed tx h dates Hlen' Hdates)
      as (avg & lo & hi & sd & _ & _ & _ & _ & ->).
    eexists. split; [reflexivity|].
    repeat (match goal with |- _ /\ _ => split end).
    + exists (0 <? Builtins.Counter (adjacent_diffs dates) 14).
      split; [dict_lookup|]. rewrite Counter_pos.
      split; [intros H; by exists 14 | intros (g & Hin & ->); done].
    + exists (Builtins.any (fun d => existsb (Z.eqb d) [15; 16; 14; 17]) (adjacent_diffs dates)).
      split; [dict_lookup|]. unfold Builtins.any. rewrite existsb_exists.
      split; intros (g & Hin & Hg); exists g; (split; [done|]).
      * apply existsb_exists in Hg as (x & Hx & Hgx). apply Z.eqb_eq in Hgx. subst x.
        simpl in Hx. lia.
      * apply existsb_exists. exists g. split; [simpl; lia | apply Z.eqb_refl].
    + exists (Builtins.any (between 27 31) (adjacent_diffs dates)).
      split; [dict_lookup | apply any_between].
    + exists (Builtins.any (between 55 65) (adjacent_diffs dates)).
      split; [dict_lookup | apply any_between].
    + exists (Builtins.any (between 85 95) (adjacent_diffs dates)).
      split; [dict_lookup | apply any_between].
    + exists (Builtins.any (between 360 370) (adjacent_diffs dates)).
      split; [dict_lookup | apply any_between].
  - exists (Datetime.of_ordinal 738886), (Datetime.of_ordinal 738900),
      (Datetime.of_ordinal 738914).
    repeat split; vm_compute; reflexivity.
  - repeat constructor; vm_compute; reflexivity.
Qed.

(** The three biweekly charges out of order, among the charges of a cafe
    that fall between them. *)
Lemma cadence_flags_any_gap_witness :
  exists d : dict,
    get_time_based_recurrence_patterns (biweekly_tx 3 "2024-01-29") mixed_history = Ok d
    /\ d !! "is_biweekly" = Some (VInt 1)
    /\ d !! "is_monthly" = Some (VInt 0).
Proof.
  destruct (proj1 cadence_flags_any_gap (biweekly_tx 3 "2024-01-29") mixed_history
              [Datetime.of_ordinal 738886; Datetime.of_ordinal 738914;
               Datetime.of_ordinal 738900]
              [Datetime.of_ordinal 738886; Datetime.of_ordinal 738900;
               Datetime.of_ordinal 738914])
    as (d & Hd & (b1 & Hb1 & Hbiweekly) & _ & (b3 & Hb3 & Hmonthly) & _).
  - repeat constructor; vm_compute; reflexivity.
  - vm_compute. discriminate.
  - apply perm_skip, perm_swap.
  - repeat constructor; unfold date_le; simpl; lia.
  - exists d. split; [exact Hd|]. split.
    + rewrite Hb1. replace b1 with true; [reflexivity|].
      symmetry. apply Hbiweekly. exists 14. split; [by left | reflexivity].
    + rewrite Hb3. destruct b3; [|reflexivity].
      destruct (proj1 Hmonthly eq_refl) as (g & Hin & Hg).
      cbv in Hin. lia.
Defined.

(** ** The aggregator never fails on dated, finite input *)

(** The claim C7 as stated fails: a transaction dated in the first months of
    year 1 is well formed, and so is the history that holds it, yet
    subtracting 90 days leaves the range of [datetime] and the computation
    stops with an [OverflowError].  An amount that is not a number stops the
    Apple rule, which converts it to an integer, with a [ValueError]. *)
Lemma year_one_date_overflows :
  returns (parse_date year1_gym) = true
  /\ get_additional_recurring_indicators year1_gym [year1_gym] = Raise OverflowError
  /\ get_features year1_gym [year1_gym] = Raise OverflowError
  /\ returns (parse_date apple_nan) = true
  /\ validate_recurring_transaction apple_nan = Raise ValueError
  /\ get_features apple_nan [] = Raise ValueError.
Proof. repeat split; vm_compute; reflexivity. Qed.

(** C7 (amended): when the dates of the transaction and of every
    transaction of the history parse, the transaction is dated after
    0001-06-29 (its ordinal exceeds 180) unless no transaction of the history
    has its vendor name, and its amount is finite if its vendor is apple,
    then [get_features] and each component it calls return without raising. *)
Theorem get_features_returns
    (tx : Transaction) (h : list Transaction) (date_obj : datetime) :
  parse_date tx = Ok date_obj ->
  Forall parses h ->
  (same_name tx h <> [] -> 180 < Datetime.toordinal date_obj) ->
  (Str.lower (name tx) = "apple" -> Float.is_finite (amount tx) = true) ->
  is_ok (get_features tx h)
  /\ is_ok (get_percent_transactions_same_amount tx h)
  /\ is_ok (get_time_based_recurrence_patterns tx h)
  /\ is_ok (get_amount_based_features tx h)
  /\ is_ok (get_additional_recurring_indicators tx h)
  /\ is_ok (get_day_of_week_features tx h)
  /\ is_ok (get_temporal_features tx h)
  /\ is_ok (get_user_behavior_features tx h)
  /\ is_ok (get_refund_features tx h)
  /\ is_ok (validate_recurring_transaction tx).
Proof.
  intros Hdate Hh Hrange Hfin.
  assert (parses tx) as Htx by (by exists date_obj).
  pose proof (percent_same_amount_ok tx h) as H1.
  pose proof (time_based_ok tx h Hh) as H2.
  pose proof (amount_based_ok tx h) as H3.
  pose proof (additional_ok tx h date_obj Hdate Hh Hrange) as H4.
  pose proof (day_of_week_ok tx h Htx Hh) as H5.
  pose proof (temporal_ok tx h Htx Hh) as H6.
  pose proof (user_behavior_ok tx h) as H7.
  pose proof (refund_ok tx h Htx Hh) as H8.
  pose proof (validate_ok tx Hfin) as H9.
  split; [|by repeat split].
  destruct H1 as [? E1], H2 as [? E2], H3 as [? E3], H4 as [? E4], H5 as [? E5],
    H6 as [? E6], H7 as [? E7], H8 as [? E8], H9 as [? E9].
  unfold get_features.
  rewrite E1, E2, E3, E4, E5, E6, E7, E8, E9. cbn [bind]. by eexists.
Qed.

Lemma get_features_returns_witness :
  is_ok (get_features gym_june gym_history).
Proof.
  refine (proj1 (get_features_returns gym_june gym_history
                   (Datetime.of_ordinal 739038) _ _ _ _)).
  - vm_compute. reflexivity.
  - repeat constructor; apply returns_true; vm_compute; reflexivity.
  - intros _. vm_compute. reflexivity.
  - intros H. vm_compute in H. discriminate.
Defined.

(** ** Malformed dates *)

(** The claim C8 as stated fails: for a date that is no calendar date the
    computation stops with the [ValueError] of [strptime], not with a
    [DateFormatError]. *)
Lemma bad_date_raises_ValueError :
  parse_date bad_date_tx = Raise ValueError
  /\ get_features bad_date_tx [] = Raise (PyExc "ValueError")
  /\ get_features bad_date_tx [] <> Raise (PyExc "DateFormatError").
Proof.
  split; [vm_compute; reflexivity|].
  split; [vm_compute; reflexivity|].
  vm_compute. discriminate.
Qed.

(** C8 (amended): when the date of the transaction is ASCII text that does
    not parse, feature extraction stops with the [ValueError] that
    [strptime] raises, whatever the history; it returns no features. *)
Theorem unparseable_date_raises
    (tx : Transaction) (h : list Transaction) :
  ascii_text (date tx) = true ->
  returns (Datetime.strptime (date tx)) = false ->
  get_features tx h = Raise ValueError.
Proof.
  intros _ Hbad. change (Datetime.strptime (date tx)) with (parse_date tx) in Hbad.
  destruct (parse_date tx) as [d|e] eqn:Hdate; [discriminate|].
  pose proof (parse_date_raises _ _ Hdate) as ->.
  unfold get_features.
  destruct (percent_same_amount_ok tx h) as [p ->]. cbn [bind].
  destruct (get_time_based_recurrence_patterns tx h) as [tb|e] eqn:Htb.
  - cbn [bind]. destruct (amount_based_ok tx h) as [ab ->]. cbn [bind].
    unfold get_additional_recurring_indicators. rewrite Hdate. reflexivity.
  - apply time_based_raises in Htb as ->. reflexivity.
Qed.

(** The thirtieth of February, against the history of the gym, and a date
    that is no date at all, against the charges of another vendor. *)
Lemma unparseable_date_raises_witness :
  get_features bad_date_tx gym_history = Raise ValueError
  /\ get_features (mk_tx 7 "Gym" (Float.lit 20 1) "tomorrow") mixed_history
     = Raise ValueError.
Proof.
  split; apply unparseable_date_raises; vm_compute; reflexivity.
Defined.

(** ** Recent transactions of the vendor *)

Lemma last_months_of_component (tx : Transaction) (h : list Transaction) (d : dict) :
  get_additional_recurring_indicators tx h = Ok d ->
  exists n3 n6 : Z,
    d !! "n_similar_transactions_last_3_months" = Some (VInt n3)
    /\ d !! "n_similar_transactions_last_6_months" = Some (VInt n6)
    /\ n3 <= n6.
Proof.
  unfold get_additional_recurring_indicators. intros H.
  apply bind_ok in H as (date_obj & Hdate & H).
  destruct (same_name tx h) as [|t ts] eqn:Hm.
  - inversion H; subst. exists 0, 0. unfold additional_defaults.
    split; [dict_lookup|]. split; [dict_lookup|]. lia.
  - apply bind_ok in H as (dates & Hdates & H).
    apply bind_ok in H as (three & H3 & H).
    apply bind_ok in H as (six & H6 & H).
    apply bind_ok in H as (dev & Hdev & H).
    apply bind_ok in H as (first & Hfirst & H).
    inversion H; subst. clear H.
    eexists _, _. split; [dict_lookup|]. split; [dict_lookup|].
    apply filter_len_mono. intros x.
    unfold Datetime.sub_timedelta in H3, H6.
    destruct (_ && _) in H3; [|discriminate].
    destruct (_ && _) in H6; [|discriminate].
    inversion H3; inversion H6; subst.
    unfold Datetime.geb; simpl. lia.
Qed.

(** C9: in the record that [get_additional_recurring_indicators] returns,
    and in the feature vector that [get_features] returns, the number of
    same-vendor transactions of the last 3 months is at most that of the last
    6 months. *)
Theorem last_3_months_le_last_6_months
    (tx : Transaction) (h : list Transaction) (d : dict) :
  get_additional_recurring_indicators tx h = Ok d \/ get_features tx h = Ok d ->
  exists n3 n6 : Z,
    d !! "n_similar_transactions_last_3_months" = Some (VInt n3)
    /\ d !! "n_similar_transactions_last_6_months" = Some (VInt n6)
    /\ n3 <= n6.
Proof.
  intros [H|H]; [by apply (last_months_of_component tx h)|].
  destruct (get_features_additional tx h d H) as (ad & Had & Hk).
  destruct (last_months_of_component tx h ad Had) as (n3 & n6 & H3 & H6 & Hle).
  exists n3, n6. rewrite !Hk by (simpl; tauto). done.
Qed.

Lemma last_3_months_le_last_6_months_witness :
  exists d : dict,
    get_additional_recurring_indicators gym_june gym_history = Ok d
    /\ exists n3 n6 : Z,
         d !! "n_similar_transactions_last_3_months" = Some (VInt n3)
         /\ d !! "n_similar_transactions_last_6_months" = Some (VInt n6)
         /\ n3 <= n6.
Proof.
  destruct (returns_true (get_additional_recurring_indicators gym_june gym_history))
    as [d Hd]; [vm_compute; reflexivity|].
  exists d. split; [exact Hd|].
  exact (last_3_months_le_last_6_months gym_june gym_history d (or_introl Hd)).
Defined.

(** ** Days since the last transaction *)

(** C10: let [dates] be the dates of the transactions of the history that
    have the name of the transaction, in ascending order, and let there be
    at least two.  Then [days_since_last_transaction] is the date of the
    transaction minus the second-to-last of [dates]; it is negative for a
    transaction dated before that date. *)
Theorem days_since_last_is_against_second_to_last :
  (forall (tx : Transaction) (h : list Transaction) (date_obj : datetime)
          (parsed dates : list datetime),
      Datetime.strptime (date tx) = Ok date_obj ->
      Forall2 (fun t d => Datetime.strptime (date t) = Ok d)
              (List.filter (fun t => String.eqb (name t) (name tx)) h) parsed ->
      2 <= len parsed ->
      Permutation dates parsed ->
      StronglySorted date_le dates ->
      exists (d : dict) (prev : datetime),
        get_day_of_week_features tx h = Ok d
        /\ nth_error dates (length dates - 2) = Some prev
        /\ d !! "days_since_last_transaction"
           = Some (VInt (Datetime.toordinal date_obj - Datetime.toordinal prev)))
  /\ exists d : dict,
       get_day_of_week_features early_gym gym_among_others = Ok d
       /\ d !! "days_since_last_transaction" = Some (VInt (-7)).
Proof.
  split.
  - intros tx h date_obj parsed dates Hdate Hparsed Hlen Hperm Hasc.
    pose proof (sorted_dates_of_parsed _ parsed dates Hparsed Hperm Hasc) as Hdates.
    assert (2 <= len dates) as Hlen'
      by (unfold len in *; by rewrite (Permutation_length Hperm)).
    unfold get_day_of_week_features, parse_date, same_name.
    rewrite Hdate, Hdates; simpl.
    destruct (Z.ltb_spec 1 (len dates)) as [_|]; [|lia].
    destruct (getitem_ok dates (-2)) as [prev Hprev]; [lia|].
    rewrite Hprev; simpl.
    eexists _, prev. split; [reflexivity|]. split; [|dict_lookup].
    apply getitem_spec in Hprev. simpl in Hprev.
    replace (Z.to_nat (-2 + len dates)) with (length dates - 2)%nat in Hprev
      by (unfold len in *; lia).
    exact Hprev.
  - apply feature_Some. vm_compute. reflexivity.
Qed.

(** A charge dated 2023-12-25 against the gym charges of 2024-06-01 and
    2024-01-01, in this order and among the charges of a cafe: the earlier
    of the two gym dates is the one subtracted. *)
Lemma days_since_last_is_against_second_to_last_witness :
  exists d : dict,
    get_day_of_week_features early_gym gym_among_others = Ok d
    /\ d !! "days_since_last_transaction" = Some (VInt (738879 - 738886)).
Proof.
  destruct (proj1 days_since_last_is_against_second_to_last early_gym gym_among_others
              (Datetime.of_ordinal 738879)
              [Datetime.of_ordinal 739038; Datetime.of_ordinal 738886]
              [Datetime.of_ordinal 738886; Datetime.of_ordinal 739038])
    as (d & prev & Hd & Hprev & Hdays).
  - vm_compute. reflexivity.
  - repeat constructor; vm_compute; reflexivity.
  - vm_compute. discriminate.
  - apply perm_swap.
  - repeat constructor; unfold date_le; simpl; lia.
  - exists d. split; [exact Hd|].
    simpl in Hprev. injection Hprev as <-. exact Hdays.
Defined.

(** * Further properties of the feature functions *)

(** ** The calendar of a parsed date *)

(** The days before a year whose number is split into cycles of 400, 100
    and 4 years, the shape in which [_ord2ymd] finds the year again. *)
Lemma days_before_year_decompose (a b c d : Z) :
  0 <= a -> 0 <= b <= 3 -> 0 <= c <= 24 -> 0 <= d <= 3 ->
  Datetime._days_before_year (400 * a + 100 * b + 4 * c + d + 1)
  = 146097 * a + 36524 * b + 1461 * c + 365 * d.
Proof.
  intros Ha Hb Hc Hd. unfold Datetime._days_before_year. cbv zeta.
  Z.div_mod_to_equations; lia.
Qed.

Lemma is_leap_decompose (a b c d : Z) :
  0 <= a -> 0 <= b <= 3 -> 0 <= c <= 24 -> 0 <= d <= 3 ->
  Datetime._is_leap (400 * a + 100 * b + 4 * c + d + 1)
  = (d =? 3) && (negb (c =? 24) || (b =? 3)).
Proof.
  intros Ha Hb Hc Hd. unfold Datetime._is_leap.
  destruct (Z.eqb_spec d 3), (Z.eqb_spec c 24), (Z.eqb_spec b 3);
    repeat match goal with |- context [?x mod ?k =? 0] =>
      destruct (Z.eqb_spec (x mod k) 0) end; try reflexivity; exfalso;
    Z.div_mod_to_equations; lia.
Qed.

Lemma year_decompose (y : Z) :
  1 <= y ->
  exists a b c d, 0 <= a /\ 0 <= b <= 3 /\ 0 <= c <= 24 /\ 0 <= d <= 3
                  /\ y = 400 * a + 100 * b + 4 * c + d + 1.
Proof.
  intros Hy.
  exists ((y - 1) / 400), ((y - 1) mod 400 / 100), ((y - 1) mod 100 / 4), ((y - 1) mod 4).
  Z.div_mod_to_equations; lia.
Qed.

Lemma month_day_inverse (leap : bool) (m d : Z) :
  1 <= m <= 12 -> 1 <= d <= month_length leap m ->
  month_day leap (month_start leap m + d - 1) = (m, d).
Proof.
  intros Hm Hd.
  assert (month_day_inverts = true) as Hall by (vm_compute; reflexivity).
  unfold month_day_inverts in Hall.
  rewrite forallb_forall in Hall.
  specialize (Hall leap ltac:(destruct leap; simpl; tauto)).
  rewrite forallb_forall in Hall.
  assert (month_length leap m <= 31) as Hlen.
  { unfold month_length.
    assert (m = 1 \/ m = 2 \/ m = 3 \/ m = 4 \/ m = 5 \/ m = 6 \/ m = 7
            \/ m = 8 \/ m = 9 \/ m = 10 \/ m = 11 \/ m = 12) as Hc by lia.
    repeat (destruct Hc as [->|Hc]); try subst m; destruct leap; vm_compute; discriminate. }
  assert (In m (map Z.of_nat (seq 1 12))) as Hmin
    by (apply in_map_iff; exists (Z.to_nat m); split; [lia | apply in_seq; lia]).
  assert (In d (map Z.of_nat (seq 1 31))) as Hdin
    by (apply in_map_iff; exists (Z.to_nat d); split; [lia | apply in_seq; lia]).
  specialize (Hall m Hmin). rewrite forallb_forall in Hall. specialize (Hall d Hdin).
  destruct (Z.leb_spec d (month_length leap m)); [|lia].
  cbn [negb orb] in Hall.
  destruct (month_day leap (month_start leap m + d - 1)) as [m' d'].
  apply andb_true_iff in Hall as [H1 H2]. f_equal; lia.
Qed.

(** The day of the year (counted from 0) to month and day. *)
Lemma ord2ymd_day_of_year (a b c d k : Z) :
  0 <= a -> 0 <= b <= 3 -> 0 <= c <= 24 -> 0 <= d <= 3 ->
  let y := 400 * a + 100 * b + 4 * c + d + 1 in
  let leap := (d =? 3) && (negb (c =? 24) || (b =? 3)) in
  0 <= k < 365 + int_of_bool leap ->
  Datetime._ord2ymd (146097 * a + 36524 * b + 1461 * c + 365 * d + k + 1)
  = if k =? 365 then (y, 12, 31)
    else (y, fst (month_day leap k), snd (month_day leap k)).
Proof.
  intros Ha Hb Hc Hd y leap Hk.
  unfold Datetime._ord2ymd, Datetime._DI400Y, Datetime._DI100Y, Datetime._DI4Y.
  set (N := 146097 * a + 36524 * b + 1461 * c + 365 * d + k).
  replace (N + 1 - 1) with N by lia.
  assert (leap = true -> d = 3 /\ (c <> 24 \/ b = 3)) as Hleap.
  { subst leap. destruct (Z.eqb_spec d 3), (Z.eqb_spec c 24), (Z.eqb_spec b 3);
      simpl; intros; try discriminate; lia. }
  assert (k = 365 -> leap = true) as Hlast
    by (destruct leap; [done | simpl in Hk; lia]).
  destruct (Z.eqb_spec k 365) as [Hk365|Hk365].
  - destruct (Hleap (Hlast Hk365)) as [-> Hcb].
    destruct (Z.eq_dec c 24) as [->|Hc24].
    + assert (b = 3) as -> by lia.
      assert (N / 146097 = a) as E1 by (subst N; Z.div_mod_to_equations; lia).
      assert (N mod 146097 = 146096) as E2 by (subst N; Z.div_mod_to_equations; lia).
      cbv zeta. rewrite E1, E2. change (146096 / 36524) with 4.
      change (4 =? 4) with true. rewrite orb_true_r. subst y. f_equal. f_equal.
      change (146096 mod 36524 / 1461) with 0.
      change ((146096 mod 36524) mod 1461 / 365) with 0. lia.
    + assert (N / 146097 = a) as E1 by (subst N; Z.div_mod_to_equations; lia).
      assert (N mod 146097 = 36524 * b + 1461 * c + 1460) as E2
        by (subst N; Z.div_mod_to_equations; lia).
      assert ((36524 * b + 1461 * c + 1460) / 36524 = b) as E3
        by (Z.div_mod_to_equations; lia).
      assert ((36524 * b + 1461 * c + 1460) mod 36524 = 1461 * c + 1460) as E4
        by (Z.div_mod_to_equations; lia).
      assert ((1461 * c + 1460) / 1461 = c) as E5 by (Z.div_mod_to_equations; lia).
      assert ((1461 * c + 1460) mod 1461 = 1460) as E6 by (Z.div_mod_to_equations; lia).
      cbv zeta. rewrite E1, E2, E3, E4, E5, E6. change (1460 / 365) with 4.
      change (4 =? 4) with true. cbn [orb]. subst y. f_equal. f_equal. lia.
  - assert (k <= 364) as Hk' by (destruct leap; simpl in Hk; lia).
    set (R3 := 365 * d + k). set (R2 := 1461 * c + R3). set (R1 := 36524 * b + R2).
    assert (N / 146097 = a) as E1 by (subst N; Z.div_mod_to_equations; lia).
    assert (N mod 146097 = R1) as E2 by (subst N R1 R2 R3; Z.div_mod_to_equations; lia).
    assert (R1 / 36524 = b) as E3 by (subst R1 R2 R3; Z.div_mod_to_equations; lia).
    assert (R1 mod 36524 = R2) as E4 by (subst R1 R2 R3; Z.div_mod_to_equations; lia).
    assert (R2 / 1461 = c) as E5 by (subst R2 R3; Z.div_mod_to_equations; lia).
    assert (R2 mod 1461 = R3) as E6 by (subst R2 R3; Z.div_mod_to_equations; lia).
    assert (R3 / 365 = d) as E7 by (subst R3; Z.div_mod_to_equations; lia).
    assert (R3 mod 365 = k) as E8 by (subst R3; Z.div_mod_to_equations; lia).
    cbv zeta. rewrite E1, E2, E3, E4, E5, E6, E7, E8.
    destruct (Z.eqb_spec d 4); [lia|]. destruct (Z.eqb_spec b 4); [lia|]. cbn [orb].
    rewrite Z.shiftr_div_pow2 by lia. change (2 ^ 5) with 32.
    fold leap.
    replace (a * 400 + 1 + b * 100 + c * 4 + d) with y by (subst y; lia).
    unfold month_day. by destruct (_ <? _).
Qed.

(** [_ord2ymd] inverts [_ymd2ord] on every calendar day. *)
Lemma ord2ymd_ymd2ord (y m d : Z) :
  1 <= y -> 1 <= m <= 12 -> 1 <= d <= Datetime._days_in_month y m ->
  Datetime._ord2ymd (Datetime._ymd2ord y m d) = (y, m, d).
Proof.
  intros Hy Hm Hd.
  destruct (year_decompose y Hy) as (a & b & c & e & Ha & Hb & Hc & He & ->).
  unfold Datetime._ymd2ord.
  change (Datetime._days_in_month ?y m) with (month_length (Datetime._is_leap y) m) in Hd.
  change (Datetime._days_before_month ?y m) with (month_start (Datetime._is_leap y) m).
  rewrite days_before_year_decompose by done.
  rewrite is_leap_decompose in * by done.
  set (leap := (e =? 3) && (negb (c =? 24) || (b =? 3))) in *.
  pose proof (month_day_inverse leap m d Hm Hd) as Hinv.
  set (k := month_start leap m + d - 1) in *.
  replace (146097 * a + 36524 * b + 1461 * c + 365 * e + month_start leap m + d)
    with (146097 * a + 36524 * b + 1461 * c + 365 * e + k + 1) by (subst k; lia).
  assert (0 <= k < 365 + int_of_bool leap /\ (k = 365 -> m = 12 /\ d = 31)) as [Hk Hlast].
  { subst k. unfold month_length, month_start in *.
    assert (m = 1 \/ m = 2 \/ m = 3 \/ m = 4 \/ m = 5 \/ m = 6 \/ m = 7
            \/ m = 8 \/ m = 9 \/ m = 10 \/ m = 11 \/ m = 12) as Hcases by lia.
    clear Hinv.
    repeat (destruct Hcases as [->|Hcases]); try subst m;
      destruct leap; simpl in Hd |- *; lia. }
  rewrite (ord2ymd_day_of_year a b c e k Ha Hb Hc He Hk). fold leap.
  destruct (Z.eqb_spec k 365) as [Hk365|_].
  - destruct (Hlast Hk365) as [-> ->]. reflexivity.
  - by rewrite Hinv.
Qed.

Lemma days_before_next_year (y : Z) :
  1 <= y ->
  Datetime._days_before_year (y + 1)
  = Datetime._days_before_year y + 365 + int_of_bool (Datetime._is_leap y).
Proof.
  intros Hy.
  destruct (year_decompose y Hy) as (a & b & c & e & Ha & Hb & Hc & He & ->).
  rewrite is_leap_decompose, days_before_year_decompose by done.
  unfold Datetime._days_before_year. cbv zeta.
  destruct (Z.eqb_spec e 3), (Z.eqb_spec c 24), (Z.eqb_spec b 3); simpl int_of_bool;
    Z.div_mod_to_equations; lia.
Qed.

Lemma days_before_previous_year (y : Z) :
  1 <= y ->
  365 <= Datetime._days_before_year y - Datetime._days_before_year (y - 1) <= 366.
Proof.
  intros Hy. destruct (Z.eq_dec y 1) as [->|Hne]; [vm_compute; split; discriminate|].
  pose proof (days_before_next_year (y - 1) ltac:(lia)) as Hn.
  replace (y - 1 + 1) with y in Hn by lia.
  destruct (Datetime._is_leap (y - 1)); simpl in Hn; lia.
Qed.

(** The ISO week of a calendar day is a number from 1 to 53. *)
Lemma isocalendar_week_range (y m d : Z) :
  1 <= y -> 1 <= m <= 12 -> 1 <= d <= Datetime._days_in_month y m ->
  1 <= Datetime.isocalendar_week (Datetime.of_ordinal (Datetime._ymd2ord y m d)) <= 53.
Proof.
  intros Hy Hm Hd.
  unfold Datetime.isocalendar_week, Datetime.year. cbn [Datetime.toordinal].
  rewrite ord2ymd_ymd2ord by done. cbn [fst snd].
  pose proof (days_before_month_day_bound y m d Hd) as Hk.
  pose proof (days_before_next_year y Hy) as Hnext.
  pose proof (days_before_previous_year y Hy) as Hprev.
  unfold Datetime._isoweek1monday, Datetime._ymd2ord.
  change (Datetime._days_before_month ?y 1) with 0.
  set (k := Datetime._days_before_month y m + d) in *.
  replace (Datetime._days_before_year y + Datetime._days_before_month y m + d)
    with (Datetime._days_before_year y + k) by (subst k; lia).
  set (L := int_of_bool (Datetime._is_leap y)) in *.
  assert (0 <= L <= 1) as HL by (subst L; destruct (Datetime._is_leap y); simpl; lia).
  set (T := Datetime._days_before_year y) in *.
  set (T1 := Datetime._days_before_year (y + 1)) in *.
  set (T0 := Datetime._days_before_year (y - 1)) in *.
  clearbody T T1 T0 k L. clear Hd Hm Hy.
  cbv zeta.
  repeat match goal with
  | |- context [?a <? ?b] => destruct (Z.ltb_spec a b)
  | |- context [?a <=? ?b] => destruct (Z.leb_spec a b)
  | H : context [?a <? ?b] |- _ => destruct (Z.ltb_spec a b)
  end; Z.div_mod_to_equations; lia.
Qed.

Lemma first_match_In {A B : Type} (k : A -> option B) (alts : list A) (b : B) :
  Datetime.first_match k alts = Some b -> exists a, In a alts /\ k a = Some b.
Proof.
  induction alts as [|a alts IH]; simpl; [discriminate|].
  destruct (k a) as [b'|] eqn:Ha.
  - intros H; inversion H; subst. exists a. by split; [left|].
  - intros H. destruct (IH H) as (a' & Hin & Ha'). exists a'. by split; [right|].
Qed.

Lemma in_range_digit (lo hi : Z) (c : ascii) :
  Datetime.in_range lo hi c = true -> lo <= Datetime.digit c <= hi.
Proof.
  unfold Datetime.in_range. intros H.
  apply andb_true_iff in H as [H Hhi]. apply andb_true_iff in H as [_ Hlo]. lia.
Qed.

(** The month group of the pattern is a number from 1 to 12. *)
Lemma month_alternatives_range (s rest : string) (m : Z) :
  In (m, rest) (Datetime.month_alternatives s) -> 1 <= m <= 12.
Proof.
  unfold Datetime.month_alternatives, Datetime.alt2, Datetime.alt1, Datetime.two_digits.
  rewrite !in_app_iff.
  destruct s as [|a [|b s]].
  - simpl. tauto.
  - simpl. destruct (Datetime.in_range 1 9 a) eqn:Ha; simpl; [|tauto].
    intros [?|[?|[H|[]]]]; try done. inversion H; subst.
    apply in_range_digit in Ha. lia.
  - destruct (Datetime.in_range 1 1 a) eqn:Ha1, (Datetime.in_range 0 2 b) eqn:Hb1,
      (Datetime.in_range 0 0 a) eqn:Ha0, (Datetime.in_range 1 9 b) eqn:Hb0,
      (Datetime.in_range 1 9 a) eqn:Ha9; simpl;
      repeat match goal with
      | H : Datetime.in_range _ _ _ = true |- _ => apply in_range_digit in H
      end;
      intros H;
      repeat match goal with
      | H : _ \/ _ |- _ => destruct H as [H|H]
      | H : False |- _ => destruct H
      | H : (_, _) = (_, _) |- _ => inversion H; subst; clear H
      end; lia.
Qed.

(** What [strptime] returns is the ordinal of a calendar day whose year,
    month and day are the three groups matched in the text. *)
Lemma strptime_ymd (s : string) (dt : datetime) :
  Datetime.strptime s = Ok dt ->
  exists y m d,
    Datetime.match_format s = Some (y, m, d, EmptyString)
    /\ 1 <= y <= 9999 /\ 1 <= m <= 12 /\ 1 <= d <= Datetime._days_in_month y m
    /\ dt = Datetime.of_ordinal (Datetime._ymd2ord y m d).
Proof.
  unfold Datetime.strptime.
  destruct (Datetime.match_format s) as [[[[y m] d] rest]|] eqn:Hfmt; [|discriminate].
  destruct (String.eqb_spec rest "") as [->|]; [|discriminate]. cbn [negb].
  destruct (_ && _) eqn:Hc; [|discriminate].
  intros H; inversion H; subst; clear H.
  apply andb_true_iff in Hc as [Hc Hd2]. apply andb_true_iff in Hc as [Hc Hd1].
  apply andb_true_iff in Hc as [Hy1 Hy2].
  unfold Datetime.MINYEAR, Datetime.MAXYEAR in *.
  exists y, m, d. split; [reflexivity|].
  assert (1 <= m <= 12) as Hm.
  { unfold Datetime.match_format in Hfmt.
    destruct (Datetime.match_year s) as [[y' s1]|]; [|discriminate]. cbn in Hfmt.
    destruct (Datetime.match_dash s1) as [s2|]; [|discriminate]. cbn in Hfmt.
    apply first_match_In in Hfmt as ([m' s3] & Hin & Hk).
    destruct (Datetime.match_dash s3) as [s4|]; [|discriminate]. cbn in Hk.
    destruct (head (Datetime.day_alternatives s4)) as [[d' s5]|]; [|discriminate].
    cbn in Hk. inversion Hk; subst.
    by apply month_alternatives_range in Hin. }
  repeat split; try lia.
Qed.

Lemma days_in_month_le_31 (y m : Z) : 1 <= m <= 12 -> Datetime._days_in_month y m <= 31.
Proof.
  intros Hm. unfold Datetime._days_in_month.
  assert (m = 1 \/ m = 2 \/ m = 3 \/ m = 4 \/ m = 5 \/ m = 6 \/ m = 7
          \/ m = 8 \/ m = 9 \/ m = 10 \/ m = 11 \/ m = 12) as Hc by lia.
  repeat (destruct Hc as [->|Hc]); try subst m;
    destruct (Datetime._is_leap y); vm_compute; discriminate.
Qed.

Lemma strptime_day_range (s : string) (dt : datetime) :
  Datetime.strptime s = Ok dt -> 1 <= Datetime.day dt <= 31.
Proof.
  intros H. destruct (strptime_ymd _ _ H) as (y & m & d & _ & Hy & Hm & Hd & ->).
  unfold Datetime.day. cbn [Datetime.toordinal]. rewrite ord2ymd_ymd2ord by lia.
  pose proof (days_in_month_le_31 y m Hm). cbn. lia.
Qed.

(** The calendar entries of [get_day_of_week_features] are read off the
    parsed date of the transaction. *)
Lemma day_of_week_calendar (tx : Transaction) (h : list Transaction) (dw : dict) :
  get_day_of_week_features tx h = Ok dw ->
  exists date_obj : datetime,
    parse_date tx = Ok date_obj
    /\ dw !! "day_of_month" = Some (VInt (Datetime.day date_obj))
    /\ dw !! "weekday" = Some (VInt (Datetime.weekday date_obj))
    /\ dw !! "week_of_year" = Some (VInt (Datetime.isocalendar_week date_obj))
    /\ dw !! "is_weekend" = Some (VInt (int_of_bool (5 <=? Datetime.weekday date_obj))).
Proof.
  unfold get_day_of_week_features. intros H.
  apply bind_ok in H as (date_obj & Hdate & H).
  apply bind_ok in H as (dates & _ & H).
  apply bind_ok in H as (prev & _ & H).
  inversion H; subst; clear H.
  exists date_obj. split; [done|]. repeat split; dict_lookup.
Qed.

(** X1: [day_of_month] is the day written in the date of the transaction:
    when the text matches the pattern with the groups year, month and day,
    the feature is the day group ([_ord2ymd] undoes [_ymd2ord]). *)
Theorem day_of_month_is_day_of_date
    (tx : Transaction) (h : list Transaction) (dw : dict) (y m d : Z) (rest : string) :
  Datetime.match_format (date tx) = Some (y, m, d, rest) ->
  get_day_of_week_features tx h = Ok dw ->
  dw !! "day_of_month" = Some (VInt d).
Proof.
  intros Hfmt H.
  destruct (day_of_week_calendar tx h dw H) as (date_obj & Hdate & Hday & _).
  destruct (strptime_ymd _ _ Hdate) as (y' & m' & d' & Hfmt' & Hy & Hm & Hd & ->).
  rewrite Hfmt in Hfmt'. inversion Hfmt'; subst.
  rewrite Hday. unfold Datetime.day. cbn [Datetime.toordinal].
  rewrite ord2ymd_ymd2ord by lia. reflexivity.
Qed.

(** The charge of 2024-06-01: the day of the month is 1. *)
Lemma day_of_month_is_day_of_date_witness :
  feature (get_day_of_week_features gym_june gym_history) "day_of_month" = Some (VInt 1).
Proof.
  destruct (returns_true (get_day_of_week_features gym_june gym_history)) as [dw Hdw];
    [vm_compute; reflexivity|].
  rewrite Hdw. cbn [feature].
  apply (day_of_month_is_day_of_date gym_june gym_history dw 2024 6 1 "");
    [vm_compute; reflexivity | exact Hdw].
Defined.

(** X2: in every record that [get_day_of_week_features] returns,
    [day_of_month] is from 1 to 31, [weekday] from 0 to 6, [week_of_year]
    from 1 to 53, and [is_weekend] is 1 exactly on the weekdays 5 and 6. *)
Theorem day_of_week_ranges (tx : Transaction) (h : list Transaction) (dw : dict) :
  get_day_of_week_features tx h = Ok dw ->
  exists day wd wk : Z,
    dw !! "day_of_month" = Some (VInt day) /\ 1 <= day <= 31
    /\ dw !! "weekday" = Some (VInt wd) /\ 0 <= wd <= 6
    /\ dw !! "week_of_year" = Some (VInt wk) /\ 1 <= wk <= 53
    /\ flag_is dw "is_weekend" (wd = 5 \/ wd = 6).
Proof.
  intros H.
  destruct (day_of_week_calendar tx h dw H) as (date_obj & Hdate & Hday & Hwd & Hwk & Hwe).
  destruct (strptime_ymd _ _ Hdate) as (y & m & d & _ & Hy & Hm & Hd & ->).
  pose proof (days_in_month_le_31 y m Hm) as H31.
  exists d, (Datetime.weekday (Datetime.of_ordinal (Datetime._ymd2ord y m d))),
    (Datetime.isocalendar_week (Datetime.of_ordinal (Datetime._ymd2ord y m d))).
  assert (0 <= Datetime.weekday (Datetime.of_ordinal (Datetime._ymd2ord y m d)) <= 6) as Hrange
    by (unfold Datetime.weekday; Z.div_mod_to_equations; lia).
  repeat (match goal with |- _ /\ _ => split end); try done; try lia.
  - rewrite Hday. unfold Datetime.day. cbn [Datetime.toordinal].
    by rewrite ord2ymd_ymd2ord by lia.
  - by apply isocalendar_week_range; lia.
  - by apply isocalendar_week_range; lia.
  - eexists. split; [exact Hwe|]. rewrite Z.leb_le. lia.
Qed.

(** The charge of 2024-06-01, a Saturday of week 22. *)
Lemma day_of_week_ranges_witness :
  exists dw : dict,
    get_day_of_week_features gym_june gym_history = Ok dw
    /\ exists day wd wk : Z,
         dw !! "day_of_month" = Some (VInt day) /\ 1 <= day <= 31
         /\ dw !! "weekday" = Some (VInt wd) /\ 0 <= wd <= 6
         /\ dw !! "week_of_year" = Some (VInt wk) /\ 1 <= wk <= 53
         /\ flag_is dw "is_weekend" (wd = 5 \/ wd = 6).
Proof.
  destruct (returns_true (get_day_of_week_features gym_june gym_history)) as [dw Hdw];
    [vm_compute; reflexivity|].
  exists dw. split; [exact Hdw|].
  exact (day_of_week_ranges gym_june gym_history dw Hdw).
Defined.

(** ** The gaps between sorted dates *)

Lemma adjacent_diffs_nonneg (dates : list datetime) :
  StronglySorted date_le dates -> Forall (fun g => 0 <= g) (adjacent_diffs dates).
Proof.
  induction 1 as [|a l Hs IH Ha]; [constructor|].
  destruct l as [|b l]; [constructor|].
  change (adjacent_diffs (a :: b :: l))
    with (Datetime.sub_days b a :: adjacent_diffs (b :: l)).
  constructor; [|exact IH].
  inversion Ha; subst. unfold date_le, Datetime.sub_days in *. lia.
Qed.

(** The gaps add up to the distance from the first to the last date. *)
Lemma sum_adjacent_diffs (dates : list datetime) (first last : datetime) :
  nth_error dates 0 = Some first ->
  nth_error dates (length dates - 1) = Some last ->
  Builtins.sum_int (adjacent_diffs dates)
  = Datetime.toordinal last - Datetime.toordinal first.
Proof.
  revert first. induction dates as [|a l IH]; intros first Hfirst Hlast; [discriminate|].
  simpl in Hfirst. inversion Hfirst; subst; clear Hfirst.
  destruct l as [|b l].
  - simpl in Hlast. inversion Hlast; subst. unfold Builtins.sum_int. simpl. lia.
  - change (adjacent_diffs (first :: b :: l))
      with (Datetime.sub_days b first :: adjacent_diffs (b :: l)).
    rewrite sum_int_cons, (IH b eq_refl).
    + unfold Datetime.sub_days. lia.
    + simpl in Hlast |- *. by rewrite Nat.sub_0_r in *.
Qed.

Lemma fold_min_le (l : list Z) (x : Z) :
  let r := fold_left (fun cur item => if item <? cur then item else cur) l x in
  r <= x /\ Forall (fun g => r <= g) l.
Proof.
  revert x. induction l as [|y l IH]; intros x; simpl; [split; [lia | constructor]|].
  destruct (IH (if y <? x then y else x)) as [H1 H2].
  destruct (Z.ltb_spec y x); (split; [lia|]); (constructor; [lia | exact H2]).
Qed.

Lemma fold_max_ge (l : list Z) (x : Z) :
  let r := fold_left (fun cur item => if Z.gtb item cur then item else cur) l x in
  x <= r /\ Forall (fun g => g <= r) l.
Proof.
  revert x. induction l as [|y l IH]; intros x; simpl; [split; [lia | constructor]|].
  destruct (IH (if Z.gtb y x then y else x)) as [H1 H2].
  rewrite Z.gtb_ltb in *.
  destruct (Z.ltb_spec x y); (split; [lia|]); (constructor; [lia | exact H2]).
Qed.

Lemma min_int_le (l : list Z) (r : Z) :
  Builtins.min_int l = Ok r -> Forall (fun g => r <= g) l.
Proof.
  destruct l as [|x l]; [discriminate|]. intros H; inversion H; subst; clear H.
  destruct (fold_min_le l x) as [H1 H2]. constructor; [exact H1 | exact H2].
Qed.

Lemma max_int_ge (l : list Z) (r : Z) :
  Builtins.max_int l = Ok r -> Forall (fun g => g <= r) l.
Proof.
  destruct l as [|x l]; [discriminate|]. intros H; inversion H; subst; clear H.
  destruct (fold_max_ge l x) as [H1 H2]. constructor; [exact H1 | exact H2].
Qed.

(** What the analyzer returns with two or more same-vendor transactions,
    read back from a returned dictionary. *)
Lemma time_based_inv (tx : Transaction) (h : list Transaction) (d : dict) :
  2 <= len (same_name tx h) ->
  get_time_based_recurrence_patterns tx h = Ok d ->
  exists (dates : list datetime) (avg : value) (lo hi : Z) (sd : float),
    sorted_dates (same_name tx h) = Ok dates
    /\ Statistics.mean_int (adjacent_diffs dates) = Ok avg
    /\ Builtins.min_int (adjacent_diffs dates) = Ok lo
    /\ Builtins.max_int (adjacent_diffs dates) = Ok hi
    /\ (if 1 <? len (adjacent_diffs dates) then Statistics.stdev_int (adjacent_diffs dates)
        else Ok Float.zero) = Ok sd
    /\ d !! "is_biweekly"
       = Some (VInt (int_of_bool (0 <? Builtins.Counter (adjacent_diffs dates) 14)))
    /\ d !! "is_semimonthly"
       = Some (VInt (int_of_bool
                      (Builtins.any (fun d => existsb (Z.eqb d) [15; 16; 14; 17])
                                    (adjacent_diffs dates))))
    /\ d !! "avg_days_between_transactions" = Some avg
    /\ d !! "min_days_between_transactions" = Some (VInt lo)
    /\ d !! "max_days_between_transactions" = Some (VInt hi)
    /\ d !! "std_days_between_transactions" = Some (VFloat sd).
Proof.
  intros Hlen H.
  destruct (sorted_dates (same_name tx h)) as [dates|e] eqn:Hdates.
  - destruct (time_based_computed tx h dates Hlen Hdates)
      as (avg & lo & hi & sd & Havg & Hlo & Hhi & Hsd & H').
    rewrite H' in H. inversion H; subst; clear H.
    exists dates, avg, lo, hi, sd.
    repeat (split; [done|]). repeat split; dict_lookup.
  - unfold get_time_based_recurrence_patterns in H.
    destruct (Z.ltb_spec (len (same_name tx h)) 2); [lia|].
    rewrite Hdates in H. discriminate.
Qed.

(** X3: with two or more same-vendor transactions, the minimum and the
    maximum gap that [get_time_based_recurrence_patterns] returns are gaps
    between consecutive sorted dates, every gap lies between them, and no
    gap is negative. *)
Theorem gap_extremes (tx : Transaction) (h : list Transaction) (d : dict) :
  2 <= len (same_name tx h) ->
  get_time_based_recurrence_patterns tx h = Ok d ->
  exists (dates : list datetime) (lo hi : Z),
    sorted_dates (same_name tx h) = Ok dates
    /\ d !! "min_days_between_transactions" = Some (VInt lo)
    /\ d !! "max_days_between_transactions" = Some (VInt hi)
    /\ In lo (adjacent_diffs dates) /\ In hi (adjacent_diffs dates)
    /\ (forall g, In g (adjacent_diffs dates) -> lo <= g <= hi)
    /\ 0 <= lo <= hi.
Proof.
  intros Hlen H.
  destruct (time_based_inv tx h d Hlen H)
    as (dates & avg & lo & hi & sd & Hdates & _ & Hlo & Hhi & _ & _ & _ & _ & Hmin & Hmax & _).
  exists dates, lo, hi. repeat (split; [done|]).
  pose proof (min_by_In _ _ _ Hlo) as Hlo_in.
  pose proof (max_by_In _ _ _ Hhi) as Hhi_in.
  pose proof (min_int_le _ _ Hlo) as Hle. pose proof (max_int_ge _ _ Hhi) as Hge.
  rewrite List.Forall_forall in Hle, Hge.
  pose proof (adjacent_diffs_nonneg dates (sorted_dates_ascending _ _ Hdates)) as Hnn.
  rewrite List.Forall_forall in Hnn.
  repeat split; try done.
  - by apply Hle.
  - by apply Hge.
  - by apply Hnn.
  - by apply Hge.
Qed.

(** The two gym charges, 152 days apart. *)
Lemma gap_extremes_witness :
  exists d : dict,
    get_time_based_recurrence_patterns gym_june gym_history = Ok d
    /\ exists (dates : list datetime) (lo hi : Z),
         sorted_dates (same_name gym_june gym_history) = Ok dates
         /\ d !! "min_days_between_transactions" = Some (VInt lo)
         /\ d !! "max_days_between_transactions" = Some (VInt hi)
         /\ In lo (adjacent_diffs dates) /\ In hi (adjacent_diffs dates)
         /\ (forall g, In g (adjacent_diffs dates) -> lo <= g <= hi)
         /\ 0 <= lo <= hi.
Proof.
  destruct (returns_true (get_time_based_recurrence_patterns gym_june gym_history))
    as [d Hd]; [vm_compute; reflexivity|].
  exists d. split; [exact Hd|].
  exact (gap_extremes gym_june gym_history d ltac:(vm_compute; discriminate) Hd).
Defined.

(** X4: whenever [is_biweekly] is 1, [is_semimonthly] is 1 as well: a gap
    of 14 days is in the semimonthly window. *)
Theorem biweekly_implies_semimonthly (tx : Transaction) (h : list Transaction) (d : dict) :
  get_time_based_recurrence_patterns tx h = Ok d ->
  d !! "is_biweekly" = Some (VInt 1) ->
  d !! "is_semimonthly" = Some (VInt 1).
Proof.
  intros H Hbi.
  destruct (Z.lt_ge_cases (len (same_name tx h)) 2) as [Hlt|Hge].
  - rewrite (time_based_below_two tx h Hlt) in H. inversion H; subst.
    unfold time_based_defaults in Hbi. rewrite dict_of_lookup in Hbi. discriminate.
  - destruct (time_based_inv tx h d Hge H)
      as (dates & avg & lo & hi & sd & _ & _ & _ & _ & _ & Hb & Hs & _).
    rewrite Hs. rewrite Hb in Hbi.
    destruct (0 <? Builtins.Counter (adjacent_diffs dates) 14) eqn:Hc; [|discriminate].
    apply Counter_pos in Hc.
    assert (Builtins.any (fun d => existsb (Z.eqb d) [15; 16; 14; 17]) (adjacent_diffs dates)
            = true) as ->; [|reflexivity].
    unfold Builtins.any. apply existsb_exists. exists 14. by split.
Qed.

(** The charges every two weeks. *)
Lemma biweekly_implies_semimonthly_witness :
  exists d : dict,
    get_time_based_recurrence_patterns (biweekly_tx 3 "2024-01-29") biweekly_history = Ok d
    /\ d !! "is_semimonthly" = Some (VInt 1).
Proof.
  destruct (feature_Some
              (get_time_based_recurrence_patterns (biweekly_tx 3 "2024-01-29") biweekly_history)
              "is_biweekly" (VInt 1) ltac:(vm_compute; reflexivity)) as (d & Hd & Hb).
  exists d. split; [exact Hd|].
  exact (biweekly_implies_semimonthly _ _ d Hd Hb).
Defined.

(** X5: the average gap is the number of days from the earliest to the
    latest same-vendor date divided by the number of gaps: an integer when
    the division is exact, the nearest float otherwise. *)
Theorem average_gap_is_span_over_count
    (tx : Transaction) (h : list Transaction) (d : dict) :
  2 <= len (same_name tx h) ->
  get_time_based_recurrence_patterns tx h = Ok d ->
  exists (dates : list datetime) (first last : datetime),
    sorted_dates (same_name tx h) = Ok dates
    /\ Builtins.getitem dates 0 = Ok first
    /\ Builtins.getitem dates (-1) = Ok last
    /\ let span := Datetime.sub_days last first in
       let gaps := len dates - 1 in
       d !! "avg_days_between_transactions"
       = Some (if span mod gaps =? 0 then VInt (span / gaps)
               else VFloat (Float.div_int span gaps)).
Proof.
  intros Hlen H.
  destruct (time_based_inv tx h d Hlen H)
    as (dates & avg & lo & hi & sd & Hdates & Havg & _ & _ & _ & _ & _ & Hd & _).
  assert (2 <= len dates) as Hlen'
    by (unfold len in *; by rewrite (sorted_dates_length _ _ Hdates)).
  destruct (getitem_ok dates 0) as [first Hfirst]; [lia|].
  destruct (getitem_ok dates (-1)) as [last Hlast]; [lia|].
  exists dates, first, last. repeat (split; [done|]). cbv zeta.
  rewrite Hd. f_equal.
  pose proof (getitem_spec _ _ _ Hfirst) as Hf. pose proof (getitem_spec _ _ _ Hlast) as Hl.
  cbn in Hf.
  replace (Z.to_nat (if -1 <? 0 then -1 + len dates else -1)) with (length dates - 1)%nat in Hl
    by (change (-1 <? 0) with true; unfold len in *; lia).
  unfold Statistics.mean_int in Havg.
  assert (len (adjacent_diffs dates) = len dates - 1) as Hgaps
    by (unfold len in *; rewrite adjacent_diffs_length; lia).
  rewrite Hgaps, (sum_adjacent_diffs dates first last Hf Hl) in Havg.
  destruct (Z.ltb_spec (len dates - 1) 1); [lia|].
  unfold Datetime.sub_days.
  destruct (_ =? 0); congruence.
Qed.

(** The two gym charges: one gap of 152 days. *)
Lemma average_gap_is_span_over_count_witness :
  exists d : dict,
    get_time_based_recurrence_patterns gym_june gym_history = Ok d
    /\ exists (dates : list datetime) (first last : datetime),
         sorted_dates (same_name gym_june gym_history) = Ok dates
         /\ Builtins.getitem dates 0 = Ok first
         /\ Builtins.getitem dates (-1) = Ok last
         /\ let span := Datetime.sub_days last first in
            let gaps := len dates - 1 in
            d !! "avg_days_between_transactions"
            = Some (if span mod gaps =? 0 then VInt (span / gaps)
                    else VFloat (Float.div_int span gaps)).
Proof.
  destruct (returns_true (get_time_based_recurrence_patterns gym_june gym_history))
    as [d Hd]; [vm_compute; reflexivity|].
  exists d. split; [exact Hd|].
  exact (average_gap_is_span_over_count gym_june gym_history d
           ltac:(vm_compute; discriminate) Hd).
Defined.

Lemma sum_int_constant (l : list Z) (g : Z) :
  Forall (fun x => x = g) l -> Builtins.sum_int l = len l * g.
Proof.
  induction 1 as [|x l -> _ IH]; [reflexivity|].
  rewrite sum_int_cons, IH, len_cons. lia.
Qed.

Lemma sum_int_squares_constant (l : list Z) (g : Z) :
  Forall (fun x => x = g) l -> Builtins.sum_int (map (fun x => x * x) l) = len l * (g * g).
Proof.
  induction 1 as [|x l -> _ IH]; [reflexivity|].
  cbn [map]. rewrite sum_int_cons, IH, len_cons. lia.
Qed.

(** The mean of equal numbers is that number, their standard deviation is
    0.0. *)
Lemma mean_int_constant (l : list Z) (g : Z) :
  l <> [] -> Forall (fun x => x = g) l -> Statistics.mean_int l = Ok (VInt g).
Proof.
  intros Hne Hall. unfold Statistics.mean_int.
  assert (1 <= len l) as Hlen
    by (destruct l; [done | rewrite len_cons; pose proof (len_nonneg l); lia]).
  destruct (Z.ltb_spec (len l) 1); [lia|].
  rewrite (sum_int_constant l g Hall), (Z.mul_comm (len l)), Z.mod_mul, Z.div_mul by lia.
  reflexivity.
Qed.

Lemma stdev_int_constant (l : list Z) (g : Z) :
  2 <= len l -> Forall (fun x => x = g) l -> Statistics.stdev_int l = Ok Float.zero.
Proof.
  intros Hlen Hall. unfold Statistics.stdev_int.
  destruct (Z.ltb_spec (len l) 2); [lia|].
  rewrite (sum_int_constant l g Hall), (sum_int_squares_constant l g Hall).
  replace (len l * (len l * (g * g)) - len l * g * (len l * g)) with 0 by ring.
  rewrite Z.gcd_0_l, Z.abs_eq by nia.
  rewrite Z.div_0_l, Z.div_same by nia.
  vm_compute. reflexivity.
Qed.

(** X6: when all the gaps between the sorted same-vendor dates are equal
    to [g], the average, the minimum and the maximum gap are the integer [g]
    and the standard deviation is 0.0 (with a single gap, [stdev] is not
    called). *)
Theorem regular_cadence
    (tx : Transaction) (h : list Transaction) (d : dict) (dates : list datetime) (g : Z) :
  2 <= len (same_name tx h) ->
  sorted_dates (same_name tx h) = Ok dates ->
  Forall (fun gap => gap = g) (adjacent_diffs dates) ->
  get_time_based_recurrence_patterns tx h = Ok d ->
  d !! "avg_days_between_transactions" = Some (VInt g)
  /\ d !! "min_days_between_transactions" = Some (VInt g)
  /\ d !! "max_days_between_transactions" = Some (VInt g)
  /\ d !! "std_days_between_transactions" = Some (VFloat Float.zero).
Proof.
  intros Hlen Hdates Hall H.
  destruct (time_based_inv tx h d Hlen H)
    as (dates' & avg & lo & hi & sd & Hdates' & Havg & Hlo & Hhi & Hsd & _ & _
        & Kavg & Klo & Khi & Ksd).
  rewrite Hdates in Hdates'. injection Hdates' as <-.
  assert (2 <= len dates) as Hlen'
    by (unfold len in *; by rewrite (sorted_dates_length _ _ Hdates)).
  pose proof (adjacent_diffs_nonempty dates Hlen') as Hne.
  rewrite (mean_int_constant _ g Hne Hall) in Havg. injection Havg as <-.
  rewrite List.Forall_forall in Hall.
  pose proof (Hall lo (min_by_In _ _ _ Hlo)) as ->.
  pose proof (Hall hi (max_by_In _ _ _ Hhi)) as ->.
  repeat (split; [done|]).
  rewrite Ksd. do 2 f_equal.
  destruct (Z.ltb_spec 1 (len (adjacent_diffs dates))) as [Hmany|_]; [|congruence].
  rewrite (stdev_int_constant _ g) in Hsd; [congruence | lia|].
  by apply List.Forall_forall.
Qed.

(** The charges every two weeks: all gaps are 14 days. *)
Lemma regular_cadence_witness :
  exists d : dict,
    get_time_based_recurrence_patterns (biweekly_tx 3 "2024-01-29") biweekly_history = Ok d
    /\ d !! "avg_days_between_transactions" = Some (VInt 14)
    /\ d !! "min_days_between_transactions" = Some (VInt 14)
    /\ d !! "max_days_between_transactions" = Some (VInt 14)
    /\ d !! "std_days_between_transactions" = Some (VFloat Float.zero).
Proof.
  destruct (returns_true
              (get_time_based_recurrence_patterns (biweekly_tx 3 "2024-01-29") biweekly_history))
    as [d Hd]; [vm_compute; reflexivity|].
  exists d. split; [exact Hd|].
  apply (regular_cadence (biweekly_tx 3 "2024-01-29") biweekly_history d
           [Datetime.of_ordinal 738886; Datetime.of_ordinal 738900;
            Datetime.of_ordinal 738914] 14);
    [vm_compute; discriminate | vm_compute; reflexivity | repeat constructor | exact Hd].
Defined.

(** ** The order of the history *)

Lemma filter_Permutation {A : Type} (p : A -> bool) (l l' : list A) :
  Permutation l l' -> Permutation (List.filter p l) (List.filter p l').
Proof.
  induction 1 as [|x l l' _ IH|x y l|l1 l2 l3 _ IH1 _ IH2]; simpl.
  - constructor.
  - destruct (p x); [by constructor | done].
  - destruct (p x), (p y); try reflexivity. apply perm_swap.
  - by etransitivity.
Qed.

Lemma len_Permutation {A : Type} (l l' : list A) : Permutation l l' -> len l = len l'.
Proof. intros H. unfold len. by rewrite (Permutation_length H). Qed.

Lemma existsb_Permutation {A : Type} (p : A -> bool) (l l' : list A) :
  Permutation l l' -> existsb p l = existsb p l'.
Proof.
  induction 1 as [|x l l' _ IH|x y l|l1 l2 l3 _ IH1 _ IH2]; simpl.
  - reflexivity.
  - by rewrite IH.
  - destruct (p x), (p y); reflexivity.
  - congruence.
Qed.

Lemma sorted_Permutation (l l' : list datetime) :
  Permutation l l' -> Builtins.sorted Datetime.ltb l = Builtins.sorted Datetime.ltb l'.
Proof.
  intros Hp. apply ascending_unique; try apply sorted_ascending.
  rewrite !sorted_perm. exact Hp.
Qed.

(** Mapping a function that fails with one exception only over a
    rearranged list: the same results rearranged, or the same failure. *)
Lemma mapM_Permutation {A B : Type} (f : A -> result B) (e0 : exn) (l l' : list A) :
  (forall x e, f x = Raise e -> e = e0) ->
  Permutation l l' ->
  match mapM f l, mapM f l' with
  | Ok ys, Ok ys' => Permutation ys ys'
  | Raise e, Raise e' => e = e'
  | _, _ => False
  end.
Proof.
  intros Hf.
  induction 1 as [|x l l' _ IH|x y l|l1 l2 l3 _ IH1 _ IH2]; simpl.
  - constructor.
  - destruct (f x) as [dx|ex]; simpl; [|reflexivity].
    destruct (mapM f l), (mapM f l'); simpl; try done.
    by constructor.
  - destruct (f x) as [dx|ex] eqn:Hx, (f y) as [dy|ey] eqn:Hy; simpl.
    + destruct (mapM f l); simpl; [apply perm_swap | reflexivity].
    + reflexivity.
    + reflexivity.
    + apply Hf in Hx, Hy. congruence.
  - destruct (mapM f l1), (mapM f l2), (mapM f l3);
      try done; [by etransitivity | congruence].
Qed.

Lemma sorted_dates_Permutation (ts ts' : list Transaction) :
  Permutation ts ts' -> sorted_dates ts = sorted_dates ts'.
Proof.
  intros Hp. unfold sorted_dates.
  pose proof (mapM_Permutation parse_date ValueError ts ts' parse_date_raises Hp) as H.
  destruct (mapM parse_date ts), (mapM parse_date ts'); simpl; try done.
  - f_equal. by apply sorted_Permutation.
  - by subst.
Qed.

Lemma same_name_Permutation (tx : Transaction) (h h' : list Transaction) :
  Permutation h h' -> Permutation (same_name tx h) (same_name tx h').
Proof. apply filter_Permutation. Qed.

(** X7: the four functions that sort the dates of the vendor give the
    same outcome, the same record or the same exception, for every
    rearrangement of the history. *)
Theorem history_order_is_irrelevant (tx : Transaction) (h h' : list Transaction) :
  Permutation h h' ->
  get_time_based_recurrence_patterns tx h = get_time_based_recurrence_patterns tx h'
  /\ get_additional_recurring_indicators tx h = get_additional_recurring_indicators tx h'
  /\ get_day_of_week_features tx h = get_day_of_week_features tx h'
  /\ get_temporal_features tx h = get_temporal_features tx h'.
Proof.
  intros Hp.
  pose proof (same_name_Permutation tx h h' Hp) as Hs.
  pose proof (sorted_dates_Permutation _ _ Hs) as Hd.
  pose proof (len_Permutation _ _ Hs) as Hl.
  repeat split.
  - unfold get_time_based_recurrence_patterns. by rewrite Hl, Hd.
  - unfold get_additional_recurring_indicators.
    assert (Builtins.any (is_refund_of tx) h = Builtins.any (is_refund_of tx) h') as Hany
      by apply (existsb_Permutation _ _ _ Hp).
    destruct (parse_date tx) as [date_obj|e]; [|reflexivity]. cbn [bind].
    destruct (same_name tx h) as [|t ts] eqn:E, (same_name tx h') as [|t' ts'] eqn:E'.
    + reflexivity.
    + by apply Permutation_nil in Hs.
    + by apply Permutation_sym, Permutation_nil in Hs.
    + by rewrite Hd, Hany.
  - unfold get_day_of_week_features. by rewrite Hd.
  - unfold get_temporal_features. by rewrite Hd.
Qed.

(** The biweekly history and the same history reversed. *)
Lemma history_order_is_irrelevant_witness :
  get_time_based_recurrence_patterns gym_june (rev biweekly_history)
  = get_time_based_recurrence_patterns gym_june biweekly_history
  /\ get_additional_recurring_indicators gym_june (rev biweekly_history)
     = get_additional_recurring_indicators gym_june biweekly_history
  /\ get_day_of_week_features gym_june (rev biweekly_history)
     = get_day_of_week_features gym_june biweekly_history
  /\ get_temporal_features gym_june (rev biweekly_history)
     = get_temporal_features gym_june biweekly_history.
Proof.
  apply history_order_is_irrelevant. apply Permutation_sym, Permutation_rev.
Defined.

Lemma sum_int_Permutation (l l' : list Z) :
  Permutation l l' -> Builtins.sum_int l = Builtins.sum_int l'.
Proof.
  induction 1 as [|x l l' _ IH|x y l|l1 l2 l3 _ IH1 _ IH2].
  - reflexivity.
  - rewrite !sum_int_cons. lia.
  - rewrite !sum_int_cons. lia.
  - congruence.
Qed.

Lemma mean_int_Permutation (l l' : list Z) :
  Permutation l l' -> Statistics.mean_int l = Statistics.mean_int l'.
Proof.
  intros Hp. unfold Statistics.mean_int.
  by rewrite (len_Permutation _ _ Hp), (sum_int_Permutation _ _ Hp).
Qed.

(** X8: the counts of equal amounts, the vendor-specific record and the
    refund record do not depend on the order of the history either. *)
Theorem counts_ignore_history_order (tx : Transaction) (h h' : list Transaction) :
  Permutation h h' ->
  get_n_transactions_same_amount tx h = get_n_transactions_same_amount tx h'
  /\ get_percent_transactions_same_amount tx h = get_percent_transactions_same_amount tx h'
  /\ get_vendor_specific_features tx h = get_vendor_specific_features tx h'
  /\ get_refund_features tx h = get_refund_features tx h'.
Proof.
  intros Hp. repeat split.
  - unfold get_n_transactions_same_amount.
    apply len_Permutation. by apply filter_Permutation.
  - unfold get_percent_transactions_same_amount.
    rewrite (len_Permutation _ _ (filter_Permutation _ _ _ Hp)), (len_Permutation _ _ Hp).
    destruct h, h'; try done.
    + by apply Permutation_nil in Hp.
    + by apply Permutation_sym, Permutation_nil in Hp.
  - unfold get_vendor_specific_features.
    by rewrite (len_Permutation _ _ (same_name_Permutation tx _ _ Hp)).
  - unfold get_refund_features.
    pose proof (filter_Permutation
                  (fun t => Float.eqb (amount t) (Float.opp (amount tx))) _ _ Hp) as Hf.
    rewrite (len_Permutation _ _ Hp).
    match goal with |- context [mapM ?f _] =>
      pose proof (mapM_Permutation f ValueError _ _
                    ltac:(intros x e Hx; cbn beta in Hx;
                          apply bind_raise in Hx as [Hx|(a & _ & Hx)];
                          [by apply parse_date_raises in Hx|];
                          apply bind_raise in Hx as [Hx|(b & _ & Hx)];
                          [by apply parse_date_raises in Hx | discriminate]) Hf) as Hm;
      set (lag := f) in *
    end.
    set (r := List.filter _ h) in *. set (r' := List.filter _ h') in *.
    rewrite (len_Permutation _ _ Hf).
    destruct r as [|t ts], r' as [|t' ts'].
    + reflexivity.
    + by apply Permutation_nil in Hf.
    + by apply Permutation_sym, Permutation_nil in Hf.
    + cbn [bind]. destruct (Float.int_truediv _ _); [|reflexivity]. cbn [bind].
      destruct (mapM lag (t :: ts)) as [lags|e], (mapM lag (t' :: ts')) as [lags'|e'];
        try done; cbn [bind]; [|by subst].
      rewrite (mean_int_Permutation _ _ Hm).
      destruct lags as [|x xs], lags' as [|x' xs']; try done.
      * by apply Permutation_nil in Hm.
      * by apply Permutation_sym, Permutation_nil in Hm.
Qed.

(** The gym history and the same history reversed. *)
Lemma counts_ignore_history_order_witness :
  get_n_transactions_same_amount gym_june (rev gym_history)
  = get_n_transactions_same_amount gym_june gym_history
  /\ get_percent_transactions_same_amount gym_june (rev gym_history)
     = get_percent_transactions_same_amount gym_june gym_history
  /\ get_vendor_specific_features gym_june (rev gym_history)
     = get_vendor_specific_features gym_june gym_history
  /\ get_refund_features gym_june (rev gym_history)
     = get_refund_features gym_june gym_history.
Proof.
  apply counts_ignore_history_order. apply Permutation_sym, Permutation_rev.
Defined.

(** ** Vendor lists *)

Lemma mem_In (s : string) (l : list string) : Str.mem s l = true <-> In s l.
Proof.
  unfold Str.mem. rewrite existsb_exists. split.
  - intros (x & Hin & Heq). apply String.eqb_eq in Heq. by subst.
  - intros Hin. exists s. split; [done | apply String.eqb_refl].
Qed.

(** Decides [Str.mem] of a variable that is one of the literals of a list. *)
Ltac vendor_cases H :=
  apply mem_In in H; simpl in H;
  repeat (destruct H as [<-|H]; [|]); try destruct H.

(** X9: [get_vendor_subscription_features] never sets two of its three
    vendor flags: the three vendor lists are disjoint. *)
Theorem subscription_flags_exclusive (tx : Transaction) :
  exists major telecom utility : bool,
    get_vendor_subscription_features tx !! "is_major_subscription"
    = Some (VInt (int_of_bool major))
    /\ get_vendor_subscription_features tx !! "is_telecom_or_insurance"
       = Some (VInt (int_of_bool telecom))
    /\ get_vendor_subscription_features tx !! "is_utility_bill"
       = Some (VInt (int_of_bool utility))
    /\ int_of_bool major + int_of_bool telecom + int_of_bool utility <= 1.
Proof.
  unfold get_vendor_subscription_features.
  set (v := Str.lower (name tx)).
  exists (Str.mem v major_subscriptions), (Str.mem v telecom_or_insurance),
    (Str.mem v utility_vendors).
  repeat (split; [dict_lookup|]).
  destruct (Str.mem v major_subscriptions) eqn:H1.
  - vendor_cases H1; reflexivity.
  - destruct (Str.mem v telecom_or_insurance) eqn:H2.
    + vendor_cases H2; reflexivity.
    + destruct (Str.mem v utility_vendors); simpl; lia.
Qed.

(** The aggregate also holds what the two functions that cannot fail
    computed, and the two counts of equal amounts. *)
Lemma get_features_total_components (tx : Transaction) (h : list Transaction) (fv : dict) :
  get_features tx h = Ok fv ->
  (forall k, In k subscription_keys -> fv !! k = get_vendor_subscription_features tx !! k)
  /\ (forall k, In k vendor_keys -> fv !! k = get_vendor_specific_features tx h !! k)
  /\ fv !! "n_transactions_same_amount"
     = Some (VInt (get_n_transactions_same_amount tx h))
  /\ exists percent,
       get_percent_transactions_same_amount tx h = Ok percent
       /\ fv !! "percent_transactions_same_amount" = Some (VFloat percent).
Proof.
  unfold get_features. intros H.
  apply bind_ok in H as (percent & Hpercent & H).
  apply bind_ok in H as (tb & Htb & H).
  apply bind_ok in H as (ab & Hab & H).
  apply bind_ok in H as (ad & Had & H).
  apply bind_ok in H as (dw & Hdw & H).
  apply bind_ok in H as (te & Hte & H).
  apply bind_ok in H as (ub & Hub & H).
  apply bind_ok in H as (rf & Hrf & H).
  apply bind_ok in H as (valid & Hvalid & H).
  inversion H; subst; clear H.
  pose proof (time_based_dom _ _ _ Htb) as Dtb.
  pose proof (amount_based_dom _ _ _ Hab) as Dab.
  pose proof (additional_dom _ _ _ Had) as Dad.
  pose proof (day_of_week_dom _ _ _ Hdw) as Ddw.
  pose proof (temporal_dom _ _ _ Hte) as Dte.
  pose proof (user_behavior_dom _ _ _ Hub) as Dub.
  pose proof (refund_dom _ _ _ Hrf) as Drf.
  assert (dom (get_vendor_subscription_features tx) = list_to_set subscription_keys) as Dsub
    by (unfold get_vendor_subscription_features; by rewrite dict_of_dom).
  assert (dom (get_vendor_specific_features tx h) = list_to_set vendor_keys) as Dven
    by (unfold get_vendor_specific_features; by rewrite dict_of_dom).
  set (sub := get_vendor_subscription_features tx) in *.
  set (ven := get_vendor_specific_features tx h) in *.
  assert (forall (k : string) (keys : list string) (d : dict),
            dom d = list_to_set keys -> In k keys ->
            match d !! k with Some v => Some v | None => None end = d !! k
            /\ forall o : option value,
                 match d !! k with Some v => Some v | None => o end = d !! k) as Hin.
  { intros k keys d Hd Hk. destruct (lookup_inside d k keys Hd Hk) as [v ->]. done. }
  repeat (match goal with |- _ /\ _ => split end).
  - intros k Hk. rewrite lookup_insert_ne by (intros <-; simpl in Hk; intuition discriminate).
    rewrite !merge_lookup.
    each_key Hk ltac:(skip_component rf Drf; skip_component ub Dub; skip_component ven Dven;
                      skip_component te Dte; skip_component dw Ddw; skip_component ad Dad;
                      skip_component ab Dab; take_component sub Dsub Hin).
  - intros k Hk. rewrite lookup_insert_ne by (intros <-; simpl in Hk; intuition discriminate).
    rewrite !merge_lookup.
    each_key Hk ltac:(skip_component rf Drf; skip_component ub Dub; take_component ven Dven Hin).
  - rewrite lookup_insert_ne by discriminate. rewrite !merge_lookup.
    skip_component rf Drf; skip_component ub Dub; skip_component ven Dven;
      skip_component te Dte; skip_component dw Ddw; skip_component ad Dad;
      skip_component ab Dab; skip_component sub Dsub; skip_component tb Dtb.
    dict_lookup.
  - exists percent. split; [done|].
    rewrite lookup_insert_ne by discriminate. rewrite !merge_lookup.
    skip_component rf Drf; skip_component ub Dub; skip_component ven Dven;
      skip_component te Dte; skip_component dw Ddw; skip_component ad Dad;
      skip_component ab Dab; skip_component sub Dsub; skip_component tb Dtb.
    dict_lookup.
Qed.

Lemma find_category_cases (v : string) :
  let cat := find_category v vendor_categories in
  (cat = "streaming" /\ Str.mem v major_subscriptions = true)
  \/ (cat = "telecom" /\ Str.mem v telecom_or_insurance = true)
  \/ (cat = "utilities" /\ Str.mem v utility_vendors = true)
  \/ cat = "other".
Proof.
  unfold vendor_categories. cbn [find_category].
  destruct (Str.mem v ["netflix"; "spotify"; "disney+"; "hulu"; "amazon prime"]) eqn:H1.
  { left. split; [done|]. vendor_cases H1; reflexivity. }
  destruct (Str.mem v ["at&t"; "verizon"; "t-mobile"]) eqn:H2.
  { right; left. split; [done|]. vendor_cases H2; reflexivity. }
  destruct (Str.mem v ["duke energy"; "con edison"; "national grid"]) eqn:H3.
  { right; right; left. split; [done|]. vendor_cases H3; reflexivity. }
  by right; right; right.
Qed.

Lemma known_tier_is_streaming (v : string) (amt : float) :
  get_float (get_str known_subscription_tiers v []) amt "Unknown" <> "Unknown" ->
  find_category v vendor_categories = "streaming"
  /\ Str.mem v major_subscriptions = true.
Proof.
  unfold known_subscription_tiers. cbn [get_str].
  destruct (String.eqb_spec v "netflix") as [->|_]; [done|].
  destruct (String.eqb_spec v "spotify") as [->|_]; [done|].
  destruct (String.eqb_spec v "disney+") as [->|_]; [done|].
  simpl. done.
Qed.

(** X10: in a feature vector the vendor category is one of streaming,
    telecom, utilities and other, and it agrees with the subscription flags:
    a streaming vendor is a major subscription, a telecom vendor is telecom
    or insurance, a utilities vendor is a utility bill; a known subscription
    tier occurs for streaming vendors only. *)
Theorem vendor_category_agrees_with_flags
    (tx : Transaction) (h : list Transaction) (fv : dict) :
  get_features tx h = Ok fv ->
  exists category tier : string,
    fv !! "vendor_category" = Some (VStr category)
    /\ fv !! "subscription_tier" = Some (VStr tier)
    /\ In category ["streaming"; "telecom"; "utilities"; "other"]
    /\ (category = "streaming" -> fv !! "is_major_subscription" = Some (VInt 1))
    /\ (category = "telecom" -> fv !! "is_telecom_or_insurance" = Some (VInt 1))
    /\ (category = "utilities" -> fv !! "is_utility_bill" = Some (VInt 1))
    /\ (tier <> "Unknown" -> category = "streaming").
Proof.
  intros H.
  destruct (get_features_total_components tx h fv H) as (Hsub & Hven & _).
  set (v := Str.lower (name tx)).
  exists (find_category v vendor_categories),
    (get_float (get_str known_subscription_tiers v []) (amount tx) "Unknown").
  assert (fv !! "is_major_subscription"
          = Some (VInt (int_of_bool (Str.mem v major_subscriptions)))) as Hmajor
    by (rewrite Hsub by (simpl; tauto); unfold get_vendor_subscription_features; dict_lookup).
  assert (fv !! "is_telecom_or_insurance"
          = Some (VInt (int_of_bool (Str.mem v telecom_or_insurance)))) as Htelecom
    by (rewrite Hsub by (simpl; tauto); unfold get_vendor_subscription_features; dict_lookup).
  assert (fv !! "is_utility_bill"
          = Some (VInt (int_of_bool (Str.mem v utility_vendors)))) as Hutility
    by (rewrite Hsub by (simpl; tauto); unfold get_vendor_subscription_features; dict_lookup).
  split; [rewrite Hven by (simpl; tauto); unfold get_vendor_specific_features; dict_lookup|].
  split; [rewrite Hsub by (simpl; tauto); unfold get_vendor_subscription_features; dict_lookup|].
  rewrite Hmajor, Htelecom, Hutility.
  split; [|split; [|split; [|split]]].
  - destruct (find_category_cases v) as [[-> _]|[[-> _]|[[-> _]| ->]]]; simpl; tauto.
  - intros Hc. destruct (find_category_cases v) as [[_ ->]|[[E _]|[[E _]|E]]];
      [done| | |]; rewrite E in Hc; discriminate.
  - intros Hc. destruct (find_category_cases v) as [[E _]|[[_ ->]|[[E _]|E]]];
      [|done| |]; rewrite E in Hc; discriminate.
  - intros Hc. destruct (find_category_cases v) as [[E _]|[[E _]|[[_ ->]|E]]];
      [| |done|]; rewrite E in Hc; discriminate.
  - intros Ht. by apply known_tier_is_streaming in Ht as [-> _].
Qed.

(** A Netflix charge at 15.49 has the tier Standard, so the category is
    streaming and the vendor is a major subscription. *)
Lemma vendor_category_agrees_with_flags_witness :
  exists fv : dict,
    get_features (netflix_tx 1 "2024-03-01") [netflix_tx 1 "2024-03-01"] = Ok fv
    /\ fv !! "is_major_subscription" = Some (VInt 1).
Proof.
  destruct (returns_true (get_features (netflix_tx 1 "2024-03-01") [netflix_tx 1 "2024-03-01"]))
    as [fv Hfv]; [vm_compute; reflexivity|].
  exists fv. split; [exact Hfv|].
  destruct (vendor_category_agrees_with_flags _ _ fv Hfv)
    as (category & tier & Hcat & Htier & _ & Hstreaming & _ & _ & Hknown).
  apply Hstreaming, Hknown.
  assert (feature (get_features (netflix_tx 1 "2024-03-01") [netflix_tx 1 "2024-03-01"])
                  "subscription_tier" = Some (VStr "Standard")) as Hs
    by (vm_compute; reflexivity).
  rewrite Hfv in Hs. cbn [feature] in Hs. rewrite Htier in Hs. inversion Hs. discriminate.
Defined.

(** Only the four vendors with a rule of their own can be rejected. *)
Lemma validate_false_vendor (tx : Transaction) :
  validate_recurring_transaction tx = Ok false ->
  In (Str.lower (name tx)) rule_vendors.
Proof.
  unfold validate_recurring_transaction, vendor_specific_rules, rule_vendors.
  destruct (Str.mem _ always_recurring_vendors); [discriminate|]. cbn [get_str].
  destruct (String.eqb_spec (Str.lower (name tx)) "apple") as [->|_]; [simpl; tauto|].
  destruct (String.eqb_spec (Str.lower (name tx)) "brigit") as [->|_]; [simpl; tauto|].
  destruct (String.eqb_spec (Str.lower (name tx)) "cleo ai") as [->|_]; [simpl; tauto|].
  destruct (String.eqb_spec (Str.lower (name tx)) "credit genie") as [->|_]; [simpl; tauto|].
  discriminate.
Qed.

(** X11: a feature vector with [is_valid_recurring_transaction] 0 belongs
    to one of the four vendors with a rule of their own; none of these is
    flagged as subscription, telecom or utility and their category is
    other. *)
Theorem rejected_vendors_are_rule_vendors
    (tx : Transaction) (h : list Transaction) (fv : dict) :
  get_features tx h = Ok fv ->
  fv !! "is_valid_recurring_transaction" = Some (VInt 0) ->
  In (Str.lower (name tx)) rule_vendors
  /\ fv !! "is_major_subscription" = Some (VInt 0)
  /\ fv !! "is_telecom_or_insurance" = Some (VInt 0)
  /\ fv !! "is_utility_bill" = Some (VInt 0)
  /\ fv !! "vendor_category" = Some (VStr "other").
Proof.
  intros H Hvalid.
  destruct (get_features_components tx h fv H)
    as (tb & ab & ad & dw & te & ub & rf & valid & _ & _ & _ & _ & _ & _ & _ & Hv & _ & _
        & _ & _ & _ & _ & _ & Kv).
  rewrite Kv in Hvalid. destruct valid; [discriminate|].
  apply validate_false_vendor in Hv.
  destruct (get_features_total_components tx h fv H) as (Hsub & Hven & _).
  split; [done|].
  rewrite !Hsub, Hven by (simpl; tauto).
  unfold get_vendor_subscription_features, get_vendor_specific_features.
  rewrite !dict_of_lookup.
  unfold rule_vendors in Hv. simpl in Hv.
  repeat (destruct Hv as [<-|Hv]; [by vm_compute|]). destruct Hv.
Qed.

(** An Apple charge of 5.00 is rejected; its category is other. *)
Lemma rejected_vendors_are_rule_vendors_witness :
  exists fv : dict,
    get_features apple_5_00 [apple_5_00] = Ok fv
    /\ fv !! "vendor_category" = Some (VStr "other").
Proof.
  destruct (feature_Some (get_features apple_5_00 [apple_5_00])
              "is_valid_recurring_transaction" (VInt 0) ltac:(vm_compute; reflexivity))
    as (fv & Hfv & Hflag).
  exists fv. split; [exact Hfv|].
  by destruct (rejected_vendors_are_rule_vendors apple_5_00 [apple_5_00] fv Hfv Hflag)
    as (_ & _ & _ & _ & Hcat).
Defined.

(** ** The earlier transactions of the vendor *)

Lemma mapM_In {A B : Type} (f : A -> result B) (l : list A) (ys : list B) :
  mapM f l = Ok ys -> forall y, In y ys <-> exists x, In x l /\ f x = Ok y.
Proof.
  revert ys. induction l as [|x l IH]; simpl; intros ys H y.
  - inversion H; subst. simpl. split; [tauto | intros (? & [] & _)].
  - apply bind_ok in H as (y0 & Hx & H). apply bind_ok in H as (ys0 & Hl & H).
    inversion H; subst; clear H. simpl. rewrite (IH ys0 Hl y). split.
    + intros [<-|(x' & Hin & Hx')]; [exists x; by split; [left|] | exists x'; by split; [right|]].
    + intros (x' & [<-|Hin] & Hx'); [left; congruence | right; by exists x'].
Qed.

(** A date is among the sorted dates exactly when it is the date of one of
    the transactions. *)
Lemma sorted_dates_In (ts : list Transaction) (dates : list datetime) :
  sorted_dates ts = Ok dates ->
  forall dt, In dt dates <-> exists t, In t ts /\ parse_date t = Ok dt.
Proof.
  unfold sorted_dates. intros H dt.
  apply bind_ok in H as (parsed & Hp & H). inversion H; subst; clear H.
  rewrite <- (mapM_In _ _ _ Hp dt).
  split; apply Permutation_in; [|symmetry]; apply sorted_perm.
Qed.

Lemma getitem_In {A : Type} (l : list A) (i : Z) (x : A) :
  Builtins.getitem l i = Ok x -> In x l.
Proof. intros H. apply getitem_spec in H. by apply nth_error_In in H. Qed.

(** The first of ascending dates is the earliest, the last is the latest. *)
Lemma ascending_first (dates : list datetime) (first : datetime) :
  StronglySorted date_le dates -> Builtins.getitem dates 0 = Ok first ->
  forall dt, In dt dates -> date_le first dt.
Proof.
  intros Hs Hf dt Hin. apply getitem_spec in Hf. cbn in Hf.
  destruct dates as [|a l]; [discriminate|]. cbn in Hf. inversion Hf; subst.
  inversion Hs; subst. destruct Hin as [<-|Hin]; [unfold date_le; lia|].
  rewrite List.Forall_forall in H2. by apply H2.
Qed.

Lemma ascending_nth_le (dates : list datetime) (i j : nat) (a b : datetime) :
  StronglySorted date_le dates -> (i <= j)%nat ->
  nth_error dates i = Some a -> nth_error dates j = Some b -> date_le a b.
Proof.
  intros Hs. revert i j. induction Hs as [|x l Hs IH Hx]; intros i j Hij Ha Hb.
  - by destruct i.
  - destruct i as [|i], j as [|j]; simpl in Ha, Hb.
    + inversion Ha; inversion Hb; subst. unfold date_le. lia.
    + inversion Ha; subst. rewrite List.Forall_forall in Hx. apply Hx.
      by apply nth_error_In in Hb.
    + lia.
    + apply (IH i j); [lia | done | done].
Qed.

Lemma ascending_last (dates : list datetime) (last : datetime) :
  StronglySorted date_le dates -> Builtins.getitem dates (-1) = Ok last ->
  forall dt, In dt dates -> date_le dt last.
Proof.
  intros Hs Hl dt Hin. apply getitem_spec in Hl.
  apply In_nth_error in Hin as [i Hi].
  assert (i < length dates)%nat as Hlt by (apply nth_error_Some; congruence).
  apply (ascending_nth_le dates i (Z.to_nat (if -1 <? 0 then -1 + len dates else -1)));
    try done.
  change (-1 <? 0) with true. unfold len. lia.
Qed.

(** What [get_additional_recurring_indicators] computes once the vendor has
    transactions in the history. *)
Lemma additional_inv (tx : Transaction) (h : list Transaction) (d : dict) :
  same_name tx h <> [] ->
  get_additional_recurring_indicators tx h = Ok d ->
  exists (date_obj : datetime) (dates : list datetime) (three six first : datetime),
    parse_date tx = Ok date_obj
    /\ sorted_dates (same_name tx h) = Ok dates
    /\ Datetime.sub_timedelta date_obj 90 = Ok three
    /\ Datetime.sub_timedelta date_obj 180 = Ok six
    /\ Builtins.getitem dates 0 = Ok first
    /\ d !! "n_similar_transactions_last_3_months"
       = Some (VInt (len (List.filter (fun d => Datetime.geb d three) dates)))
    /\ d !! "n_similar_transactions_last_6_months"
       = Some (VInt (len (List.filter (fun d => Datetime.geb d six) dates)))
    /\ d !! "is_first_transaction_with_vendor"
       = Some (VInt (if Datetime.eqb date_obj first then 1 else 0)).
Proof.
  intros Hne H. unfold get_additional_recurring_indicators in H.
  apply bind_ok in H as (date_obj & Hdate & H).
  destruct (same_name tx h) as [|t ts] eqn:E; [done|].
  apply bind_ok in H as (dates & Hdates & H).
  apply bind_ok in H as (three & H3 & H).
  apply bind_ok in H as (six & H6 & H).
  apply bind_ok in H as (dev & Hdev & H).
  apply bind_ok in H as (first & Hfirst & H).
  inversion H; subst; clear H.
  exists date_obj, dates, three, six, first.
  repeat (split; [done|]). repeat split; dict_lookup.
Qed.

(** X12: [is_first_transaction_with_vendor] is 1 exactly when the history
    has no transaction of the vendor, or the date of the transaction is the
    earliest date of the vendor in the history. *)
Theorem first_transaction_flag (tx : Transaction) (h : list Transaction) (d : dict)
    (date_obj : datetime) :
  parse_date tx = Ok date_obj ->
  get_additional_recurring_indicators tx h = Ok d ->
  flag_is d "is_first_transaction_with_vendor"
    (same_name tx h = []
     \/ ((exists t, In t (same_name tx h) /\ parse_date t = Ok date_obj)
         /\ forall t dt, In t (same_name tx h) -> parse_date t = Ok dt -> date_le date_obj dt)).
Proof.
  intros Hdate H.
  destruct (same_name tx h) as [|t0 ts] eqn:E.
  - unfold get_additional_recurring_indicators in H. rewrite Hdate in H. cbn [bind] in H.
    rewrite E in H. inversion H; subst. exists true. split; [unfold additional_defaults; dict_lookup|].
    split; [by left | done].
  - rewrite <- E in *.
    destruct (additional_inv tx h d ltac:(rewrite E; done) H)
      as (date_obj' & dates & three & six & first & Hdate' & Hdates & _ & _ & Hfirst
          & _ & _ & Hflag).
    rewrite Hdate in Hdate'. inversion Hdate'; subst date_obj'; clear Hdate'.
    pose proof (sorted_dates_ascending _ _ Hdates) as Hasc.
    pose proof (sorted_dates_In _ _ Hdates) as Hin.
    exists (Datetime.eqb date_obj first). split.
    { rewrite Hflag. by destruct (Datetime.eqb date_obj first). }
    unfold Datetime.eqb. rewrite Z.eqb_eq. split.
    + intros Heq. right.
      assert (date_obj = first) as -> by (destruct date_obj, first; cbn in *; by f_equal).
      split.
      * apply Hin. by apply getitem_In in Hfirst.
      * intros t dt Ht Hdt. apply (ascending_first dates first Hasc Hfirst).
        apply Hin. by exists t.
    + intros [Hnil|[Hex Hall]]; [rewrite E in Hnil; discriminate|].
      apply Hin in Hex.
      pose proof (ascending_first dates first Hasc Hfirst date_obj Hex) as H1.
      apply getitem_In, Hin in Hfirst as (t & Ht & Hdt).
      pose proof (Hall t first Ht Hdt) as H2. unfold date_le in *. lia.
Qed.

(** The gym charge of 2023-12-25 in a history with the two later charges. *)
Lemma first_transaction_flag_witness :
  exists d : dict,
    get_additional_recurring_indicators early_gym (early_gym :: gym_history) = Ok d
    /\ flag_is d "is_first_transaction_with_vendor"
         (same_name early_gym (early_gym :: gym_history) = []
          \/ ((exists t, In t (same_name early_gym (early_gym :: gym_history))
                         /\ parse_date t = Ok (Datetime.of_ordinal 738879))
              /\ forall t dt, In t (same_name early_gym (early_gym :: gym_history)) ->
                              parse_date t = Ok dt ->
                              date_le (Datetime.of_ordinal 738879) dt)).
Proof.
  destruct (returns_true
              (get_additional_recurring_indicators early_gym (early_gym :: gym_history)))
    as [d Hd]; [vm_compute; reflexivity|].
  exists d. split; [exact Hd|].
  apply (first_transaction_flag early_gym (early_gym :: gym_history) d
           (Datetime.of_ordinal 738879)); [vm_compute; reflexivity | exact Hd].
Defined.

Lemma filter_len_le {A : Type} (p : A -> bool) (l : list A) : len (List.filter p l) <= len l.
Proof.
  induction l as [|x l IH]; simpl; [lia|].
  destruct (p x); rewrite !len_cons; lia.
Qed.

Lemma filter_len_pos {A : Type} (p : A -> bool) (l : list A) (x : A) :
  In x l -> p x = true -> 1 <= len (List.filter p l).
Proof.
  intros Hin Hp.
  assert (In x (List.filter p l)) as Hf by (apply filter_In; by split).
  destruct (List.filter p l); [done|]. rewrite len_cons. pose proof (len_nonneg l0). lia.
Qed.

(** X13: in a feature vector the count of the last six months is at most
    [vendor_popularity], which is the number of same-name transactions, and
    a transaction that is in its own history counts itself in the last three
    months. *)
Theorem recent_counts_bounded (tx : Transaction) (h : list Transaction) (fv : dict) :
  get_features tx h = Ok fv ->
  exists n3 n6 popularity : Z,
    fv !! "n_similar_transactions_last_3_months" = Some (VInt n3)
    /\ fv !! "n_similar_transactions_last_6_months" = Some (VInt n6)
    /\ fv !! "vendor_popularity" = Some (VInt popularity)
    /\ 0 <= n3 /\ n6 <= popularity
    /\ popularity = len (same_name tx h)
    /\ (In tx h -> 1 <= n3).
Proof.
  intros H.
  destruct (get_features_total_components tx h fv H) as (_ & Hven & _).
  destruct (get_features_additional tx h fv H) as (ad & Had & Hk).
  assert (fv !! "vendor_popularity" = Some (VInt (len (same_name tx h)))) as Hpop
    by (rewrite Hven by (simpl; tauto); unfold get_vendor_specific_features; dict_lookup).
  rewrite !Hk by (simpl; tauto).
  destruct (same_name tx h) as [|t0 ts] eqn:E.
  - unfold get_additional_recurring_indicators in Had.
    apply bind_ok in Had as (date_obj & Hdate & Had). rewrite E in Had.
    inversion Had; subst; clear Had.
    exists 0, 0, 0. unfold additional_defaults.
    repeat (split; [first [dict_lookup | done | reflexivity]|]).
    intros Hin.
    assert (In tx (same_name tx h)) as Hin'
      by (apply filter_In; split; [done | apply String.eqb_refl]).
    rewrite E in Hin'. destruct Hin'.
  - rewrite <- E in *.
    destruct (additional_inv tx h ad ltac:(rewrite E; done) Had)
      as (date_obj & dates & three & six & first & Hdate & Hdates & H3 & _ & _
          & Hn3 & Hn6 & _).
    exists (len (List.filter (fun d => Datetime.geb d three) dates)),
      (len (List.filter (fun d => Datetime.geb d six) dates)), (len (same_name tx h)).
    repeat (split; [done|]).
    split; [apply len_nonneg|].
    split; [|split; [reflexivity|]].
    + pose proof (filter_len_le (fun d => Datetime.geb d six) dates).
      pose proof (sorted_dates_length _ _ Hdates). unfold len in *. lia.
    + intros Hin.
      assert (In date_obj dates) as Hd.
      { apply (sorted_dates_In _ _ Hdates). exists tx. split; [|done].
        apply filter_In. split; [done | apply String.eqb_refl]. }
      apply (filter_len_pos _ _ date_obj Hd).
      unfold Datetime.sub_timedelta in H3.
      destruct (_ && _); [|discriminate]. inversion H3; subst.
      unfold Datetime.geb. cbn. apply Z.leb_le. lia.
Qed.

(** The gym charge of 2024-06-01, which is in its history. *)
Lemma recent_counts_bounded_witness :
  exists (fv : dict) (n3 n6 popularity : Z),
    get_features gym_june gym_history = Ok fv
    /\ fv !! "n_similar_transactions_last_3_months" = Some (VInt n3)
    /\ fv !! "n_similar_transactions_last_6_months" = Some (VInt n6)
    /\ fv !! "vendor_popularity" = Some (VInt popularity)
    /\ 1 <= n3 /\ n6 <= popularity.
Proof.
  destruct (returns_true (get_features gym_june gym_history)) as [fv Hfv];
    [vm_compute; reflexivity|].
  destruct (recent_counts_bounded gym_june gym_history fv Hfv)
    as (n3 & n6 & popularity & H3 & H6 & Hp & _ & Hle & _ & Hin).
  exists fv, n3, n6, popularity. repeat (split; [done|]).
  split; [|done]. apply Hin. right. by left.
Defined.

(** What [get_temporal_features] computes from two or more dates. *)
Lemma temporal_inv (tx : Transaction) (h : list Transaction) (d : dict) :
  get_temporal_features tx h = Ok d ->
  exists dates : list datetime,
    sorted_dates (same_name tx h) = Ok dates
    /\ (len dates < 2 -> d = temporal_defaults)
    /\ (2 <= len dates ->
        exists (date_obj first last : datetime) (frequency : float),
          parse_date tx = Ok date_obj
          /\ Builtins.getitem dates 0 = Ok first
          /\ Builtins.getitem dates (-1) = Ok last
          /\ (if Datetime.sub_days last first =? 0 then Ok Float.zero
              else let* months := Float.int_truediv (Datetime.sub_days last first) 30 in
                   Float.truediv (Float.of_int (len dates)) months) = Ok frequency
          /\ d !! "time_since_first_transaction"
             = Some (VInt (Datetime.sub_days date_obj first))
          /\ d !! "transaction_frequency" = Some (VFloat frequency)).
Proof.
  unfold get_temporal_features. intros H.
  apply bind_ok in H as (dates & Hdates & H).
  exists dates. split; [done|].
  destruct (Z.ltb_spec (len dates) 2) as [Hlt|Hge].
  - inversion H; subst. split; [done | lia].
  - split; [lia|]. intros _.
    apply bind_ok in H as (first & Hfirst & H).
    apply bind_ok in H as (date_obj & Hdate & H).
    apply bind_ok in H as (last & Hlast & H).
    apply bind_ok in H as (first' & Hfirst' & H).
    rewrite Hfirst in Hfirst'. inversion Hfirst'; subst first'; clear Hfirst'.
    apply bind_ok in H as (frequency & Hfreq & H).
    inversion H; subst; clear H.
    exists date_obj, first, last, frequency.
    repeat (split; [done|]). split; dict_lookup.
Qed.

Lemma same_name_self (tx : Transaction) (h : list Transaction) :
  In tx h -> In tx (same_name tx h).
Proof. intros Hin. apply filter_In. split; [done | apply String.eqb_refl]. Qed.

(** X14: for a transaction that is in its own history,
    [time_since_first_transaction] is not negative. *)
Theorem time_since_first_nonneg (tx : Transaction) (h : list Transaction) (d : dict) :
  In tx h ->
  get_temporal_features tx h = Ok d ->
  exists n : Z, d !! "time_since_first_transaction" = Some (VInt n) /\ 0 <= n.
Proof.
  intros Hin H.
  destruct (temporal_inv tx h d H) as (dates & Hdates & Hdefault & Hcomputed).
  destruct (Z.lt_ge_cases (len dates) 2) as [Hlt|Hge].
  - rewrite (Hdefault Hlt). exists 0. split; [unfold temporal_defaults; dict_lookup | lia].
  - destruct (Hcomputed Hge)
      as (date_obj & first & last & frequency & Hdate & Hfirst & _ & _ & Hn & _).
    exists (Datetime.sub_days date_obj first). split; [done|].
    assert (In date_obj dates) as Hd
      by (apply (sorted_dates_In _ _ Hdates); exists tx; split;
          [by apply same_name_self | done]).
    pose proof (ascending_first dates first (sorted_dates_ascending _ _ Hdates) Hfirst
                  date_obj Hd) as Hle.
    unfold date_le, Datetime.sub_days in *. lia.
Qed.

(** The gym charge of 2024-06-01, which is in its history. *)
Lemma time_since_first_nonneg_witness :
  exists (d : dict) (n : Z),
    get_temporal_features gym_june gym_history = Ok d
    /\ d !! "time_since_first_transaction" = Some (VInt n) /\ 0 <= n.
Proof.
  destruct (returns_true (get_temporal_features gym_june gym_history)) as [d Hd];
    [vm_compute; reflexivity|].
  destruct (time_since_first_nonneg gym_june gym_history d ltac:(right; by left) Hd)
    as (n & Hn & Hpos).
  by exists d, n.
Defined.

Lemma getitem_Forall {A : Type} (P : A -> Prop) (l : list A) (i : Z) (x : A) :
  Forall P l -> Builtins.getitem l i = Ok x -> P x.
Proof.
  intros Hall H. apply getitem_In in H. rewrite List.Forall_forall in Hall. by apply Hall.
Qed.

(** X15: when all same-vendor transactions carry one date,
    [transaction_frequency] is 0.0: the division by a span of zero days is
    not attempted. *)
Theorem frequency_zero_on_one_day
    (tx : Transaction) (h : list Transaction) (d : dict) (day : datetime) :
  Forall (fun t => parse_date t = Ok day) (same_name tx h) ->
  get_temporal_features tx h = Ok d ->
  d !! "transaction_frequency" = Some (VFloat Float.zero).
Proof.
  intros Hall H.
  destruct (temporal_inv tx h d H) as (dates & Hdates & Hdefault & Hcomputed).
  destruct (Z.lt_ge_cases (len dates) 2) as [Hlt|Hge].
  - rewrite (Hdefault Hlt). unfold temporal_defaults. dict_lookup.
  - destruct (Hcomputed Hge)
      as (date_obj & first & last & frequency & _ & Hfirst & Hlast & Hfreq & _ & Hf).
    assert (Forall (fun dt => dt = day) dates) as Hsame.
    { rewrite List.Forall_forall in Hall |- *. intros dt Hdt.
      apply (sorted_dates_In _ _ Hdates) in Hdt as (t & Ht & Hp).
      rewrite (Hall t Ht) in Hp. congruence. }
    rewrite (getitem_Forall _ _ _ _ Hsame Hfirst) in Hfreq.
    rewrite (getitem_Forall _ _ _ _ Hsame Hlast) in Hfreq.
    unfold Datetime.sub_days in Hfreq. rewrite Z.sub_diag in Hfreq.
    cbn in Hfreq. inversion Hfreq; subst. exact Hf.
Qed.

(** Three charges of one day. *)
Lemma frequency_zero_on_one_day_witness :
  exists d : dict,
    get_temporal_features gym_june [gym_june; gym_june; gym_june] = Ok d
    /\ d !! "transaction_frequency" = Some (VFloat Float.zero).
Proof.
  destruct (returns_true (get_temporal_features gym_june [gym_june; gym_june; gym_june]))
    as [d Hd]; [vm_compute; reflexivity|].
  exists d. split; [exact Hd|].
  apply (frequency_zero_on_one_day gym_june [gym_june; gym_june; gym_june] d
           (Datetime.of_ordinal 739038)); [|exact Hd].
  repeat constructor.
Defined.

(** X16: when no same-vendor transaction of the history is dated after
    the transaction, [days_since_last_transaction] is not negative. *)
Theorem days_since_last_nonneg_for_newest
    (tx : Transaction) (h : list Transaction) (d : dict) (date_obj : datetime) :
  parse_date tx = Ok date_obj ->
  (forall t dt, In t (same_name tx h) -> parse_date t = Ok dt -> date_le dt date_obj) ->
  get_day_of_week_features tx h = Ok d ->
  exists n : Z, d !! "days_since_last_transaction" = Some (VInt n) /\ 0 <= n.
Proof.
  intros Hdate Hnewest H. unfold get_day_of_week_features in H.
  rewrite Hdate in H. cbn [bind] in H.
  apply bind_ok in H as (dates & Hdates & H).
  apply bind_ok in H as (prev & Hprev & H).
  inversion H; subst; clear H.
  eexists. split; [dict_lookup|].
  destruct (1 <? len dates).
  - apply bind_ok in Hprev as (p & Hp & Hprev). inversion Hprev; subst.
    apply getitem_In, (sorted_dates_In _ _ Hdates) in Hp as (t & Ht & Hdt).
    specialize (Hnewest t p Ht Hdt). unfold date_le, Datetime.sub_days in *. lia.
  - inversion Hprev; subst. lia.
Qed.

(** The gym charge of 2024-06-01 is the latest of its history. *)
Lemma days_since_last_nonneg_for_newest_witness :
  exists (d : dict) (n : Z),
    get_day_of_week_features gym_june gym_history = Ok d
    /\ d !! "days_since_last_transaction" = Some (VInt n) /\ 0 <= n.
Proof.
  destruct (returns_true (get_day_of_week_features gym_june gym_history)) as [d Hd];
    [vm_compute; reflexivity|].
  destruct (days_since_last_nonneg_for_newest gym_june gym_history d
              (Datetime.of_ordinal 739038) ltac:(vm_compute; reflexivity)) as (n & Hn & Hpos);
    [|exact Hd|by exists d, n].
  intros t dt Ht Hdt. simpl in Ht.
  destruct Ht as [<-|[<-|[]]]; vm_compute in Hdt; inversion Hdt; subst;
    unfold date_le; cbn; lia.
Defined.

(** ** Amounts *)

(** [<=] on floats is transitive. *)
Lemma float_leb_trans (x y z : float) :
  Float.leb x y = true -> Float.leb y z = true -> Float.leb x z = true.
Proof.
  unfold Float.leb, SFleb, SFcompare.
  destruct x as [sx|sx| |sx mx ex], y as [sy|sy| |sy my ey], z as [sz|sz| |sz mz ez];
    try destruct sx; try destruct sy; try destruct sz; try done.
  - destruct (Z.compare_spec ex ey), (Z.compare_spec ey ez), (Z.compare_spec ex ez);
      try done; try lia; subst;
      rewrite ?Pos.compare_cont_spec; cbn [Pos.switch_Eq];
      destruct (Pos.compare_spec mx my), (Pos.compare_spec my mz), (Pos.compare_spec mx mz);
      cbn; try done; try lia.
  - destruct (Z.compare_spec ex ey), (Z.compare_spec ey ez), (Z.compare_spec ex ez);
      try done; try lia; subst;
      rewrite ?Pos.compare_cont_spec; cbn [Pos.switch_Eq];
      destruct (Pos.compare_spec mx my), (Pos.compare_spec my mz), (Pos.compare_spec mx mz);
      cbn; try done; try lia.
Qed.

Lemma amount_based_inv (tx : Transaction) (h : list Transaction) (d : dict) :
  same_name tx h <> [] ->
  get_amount_based_features tx h = Ok d ->
  exists lo hi : float,
    Builtins.min_float (map amount (same_name tx h)) = Ok lo
    /\ Builtins.max_float (map amount (same_name tx h)) = Ok hi
    /\ d !! "amount_fluctuation_range" = Some (VFloat (Float.sub hi lo))
    /\ d !! "is_small_subscription"
       = Some (VInt (int_of_bool (Float.leb (Float.lit 399 100) (amount tx)
                                  && Float.leb (amount tx) (Float.lit 1499 100))))
    /\ d !! "is_mid_sized_subscription"
       = Some (VInt (int_of_bool (Float.leb (Float.of_int 15) (amount tx)
                                  && Float.leb (amount tx) (Float.lit 4999 100))))
    /\ d !! "is_large_recurring_payment"
       = Some (VInt (int_of_bool (Float.geb (amount tx) (Float.of_int 50)))).
Proof.
  intros Hne H. unfold get_amount_based_features in H.
  destruct (same_name tx h) as [|t ts] eqn:E; [done|].
  apply bind_ok in H as (lo & Hlo & H). apply bind_ok in H as (hi & Hhi & H).
  inversion H; subst; clear H.
  exists lo, hi. repeat (split; [done|]). repeat split; dict_lookup.
Qed.

(** X17: at most one of [is_small_subscription],
    [is_mid_sized_subscription] and [is_large_recurring_payment] is 1,
    whatever the amount (NaN and the infinities included). *)
Theorem amount_buckets_exclusive (tx : Transaction) (h : list Transaction) (d : dict) :
  get_amount_based_features tx h = Ok d ->
  exists small mid large : bool,
    d !! "is_small_subscription" = Some (VInt (int_of_bool small))
    /\ d !! "is_mid_sized_subscription" = Some (VInt (int_of_bool mid))
    /\ d !! "is_large_recurring_payment" = Some (VInt (int_of_bool large))
    /\ int_of_bool small + int_of_bool mid + int_of_bool large <= 1.
Proof.
  intros H.
  destruct (same_name tx h) as [|t ts] eqn:E.
  - unfold get_amount_based_features in H. rewrite E in H. inversion H; subst.
    exists false, false, false. unfold amount_defaults.
    repeat (split; [dict_lookup|]). simpl. lia.
  - destruct (amount_based_inv tx h d ltac:(rewrite E; done) H)
      as (lo & hi & _ & _ & _ & Hsmall & Hmid & Hlarge).
    eexists _, _, _. repeat (split; [eassumption|]).
    set (a := amount tx). unfold Float.geb.
    destruct (Float.leb (Float.lit 399 100) a) eqn:H1, (Float.leb a (Float.lit 1499 100)) eqn:H2,
      (Float.leb (Float.of_int 15) a) eqn:H3, (Float.leb a (Float.lit 4999 100)) eqn:H4,
      (SFleb (Float.of_int 50) a) eqn:H5; simpl; try lia; exfalso.
    all: try (pose proof (float_leb_trans _ _ _ H3 H2) as Hc; vm_compute in Hc; discriminate).
    all: try (pose proof (float_leb_trans _ _ _ H5 H4) as Hc; vm_compute in Hc; discriminate).
    all: try (pose proof (float_leb_trans _ _ _ H5 H2) as Hc; vm_compute in Hc; discriminate).
Qed.

(** The gym charge of 20.00. *)
Lemma amount_buckets_exclusive_witness :
  exists (d : dict) (small mid large : bool),
    get_amount_based_features gym_june gym_history = Ok d
    /\ d !! "is_small_subscription" = Some (VInt (int_of_bool small))
    /\ d !! "is_mid_sized_subscription" = Some (VInt (int_of_bool mid))
    /\ d !! "is_large_recurring_payment" = Some (VInt (int_of_bool large))
    /\ int_of_bool small + int_of_bool mid + int_of_bool large <= 1.
Proof.
  destruct (returns_true (get_amount_based_features gym_june gym_history)) as [d Hd];
    [vm_compute; reflexivity|].
  destruct (amount_buckets_exclusive gym_june gym_history d Hd)
    as (small & mid & large & H).
  by exists d, small, mid, large.
Defined.

Lemma float_sub_self (a : float) : Float.is_finite a = true -> Float.sub a a = Float.zero.
Proof.
  destruct a as [s|s| |s m e]; try discriminate; intros _.
  - by destruct s.
  - unfold Float.sub, SFsub.
    replace (SpecFloat.cond_Zopp s (Z.pos (fst (shl_align m e (Z.min e e))))
             - SpecFloat.cond_Zopp s (Z.pos (fst (shl_align m e (Z.min e e))))) with 0 by lia.
    reflexivity.
Qed.

Lemma Forall_amount_In (a : float) (ts : list Transaction) (x : float) :
  Forall (fun t => amount t = a) ts -> In x (map amount ts) -> x = a.
Proof.
  rewrite List.Forall_forall. intros Hall Hin.
  apply in_map_iff in Hin as (t & <- & Ht). by apply Hall.
Qed.

(** X18: when every same-vendor transaction has the same finite amount,
    [amount_fluctuation_range] is 0.0. *)
Theorem fluctuation_range_zero_on_fixed_amount
    (tx : Transaction) (h : list Transaction) (d : dict) (a : float) :
  Float.is_finite a = true ->
  Forall (fun t => amount t = a) (same_name tx h) ->
  get_amount_based_features tx h = Ok d ->
  d !! "amount_fluctuation_range" = Some (VFloat Float.zero).
Proof.
  intros Hfin Hall H.
  destruct (same_name tx h) as [|t ts] eqn:E.
  - unfold get_amount_based_features in H. rewrite E in H. inversion H; subst.
    unfold amount_defaults. dict_lookup.
  - rewrite <- E in *.
    destruct (amount_based_inv tx h d ltac:(rewrite E; done) H)
      as (lo & hi & Hlo & Hhi & Hrange & _).
    apply min_by_In, (Forall_amount_In a _ _ Hall) in Hlo.
    apply max_by_In, (Forall_amount_In a _ _ Hall) in Hhi.
    subst. by rewrite Hrange, float_sub_self.
Qed.

(** The gym charges, all of 20.00. *)
Lemma fluctuation_range_zero_on_fixed_amount_witness :
  exists d : dict,
    get_amount_based_features gym_june gym_history = Ok d
    /\ d !! "amount_fluctuation_range" = Some (VFloat Float.zero).
Proof.
  destruct (returns_true (get_amount_based_features gym_june gym_history)) as [d Hd];
    [vm_compute; reflexivity|].
  exists d. split; [exact Hd|].
  apply (fluctuation_range_zero_on_fixed_amount gym_june gym_history d (Float.lit 20 1));
    [reflexivity | repeat constructor | exact Hd].
Defined.

(** Every float but NaN equals itself. *)
Lemma float_eqb_refl (x : float) : x <> S754_nan -> Float.eqb x x = true.
Proof.
  unfold Float.eqb, SFeqb, SFcompare.
  destruct x as [s|s| |s m e]; intros Hx; try done; try (by destruct s).
  destruct s; rewrite Z.compare_refl, Pos.compare_cont_spec, Pos.compare_refl; reflexivity.
Qed.

Lemma eqb_nan_r (x : float) : Float.eqb x S754_nan = false.
Proof. unfold Float.eqb, SFeqb, SFcompare. by destruct x as [[]|[]| |[] m e]. Qed.

(** X19: the count of equal amounts is between 0 and the length of the
    history; it is 0 for an amount that is NaN, and at least 1 for any other
    amount of a transaction that is in the history. *)
Theorem same_amount_count_bounds (tx : Transaction) (h : list Transaction) :
  0 <= get_n_transactions_same_amount tx h <= len h
  /\ (amount tx = S754_nan -> get_n_transactions_same_amount tx h = 0)
  /\ (amount tx <> S754_nan -> In tx h -> 1 <= get_n_transactions_same_amount tx h).
Proof.
  unfold get_n_transactions_same_amount. repeat split.
  - apply len_nonneg.
  - apply filter_len_le.
  - intros ->. induction h as [|t h IH]; [reflexivity|].
    simpl. by rewrite eqb_nan_r.
  - intros Hnan Hin. apply (filter_len_pos _ _ tx Hin). by apply float_eqb_refl.
Qed.

(** An amount that is NaN matches nothing, not even itself; the gym charge
    matches itself. *)
Lemma same_amount_count_bounds_witness :
  get_n_transactions_same_amount apple_nan [apple_nan; apple_nan] = 0
  /\ 1 <= get_n_transactions_same_amount gym_june gym_history.
Proof.
  split.
  - apply (proj1 (proj2 (same_amount_count_bounds apple_nan [apple_nan; apple_nan]))).
    reflexivity.
  - apply (proj2 (proj2 (same_amount_count_bounds gym_june gym_history)));
      [discriminate | right; by left].
Defined.

(** ** Failures and defaults *)

Lemma validate_raises (tx : Transaction) (e : exn) :
  validate_recurring_transaction tx = Raise e -> e = ValueError \/ e = OverflowError.
Proof.
  unfold validate_recurring_transaction.
  destruct (Str.mem _ _); [discriminate|].
  unfold vendor_specific_rules. cbn [get_str].
  destruct (String.eqb _ "apple").
  - unfold apple_rule. destruct (amount tx); cbn [Float.to_int bind]; intros H;
      try discriminate; injection H as <-; tauto.
  - repeat (destruct (String.eqb _ _); [discriminate|]). discriminate.
Qed.

(** X20: [validate_recurring_transaction] raises exactly for an Apple
    transaction (in any case of the letters) whose amount is NaN, with
    ValueError, or infinite, with OverflowError. *)
Theorem validate_failures (tx : Transaction) (e : exn) :
  validate_recurring_transaction tx = Raise e
  <-> Str.lower (name tx) = "apple"
      /\ ((amount tx = S754_nan /\ e = ValueError)
          \/ (exists s, amount tx = S754_infinity s /\ e = OverflowError)).
Proof.
  unfold validate_recurring_transaction.
  destruct (Str.mem (Str.lower (name tx)) always_recurring_vendors) eqn:Hmem.
  - split; [discriminate|]. intros [Happle _]. rewrite Happle in Hmem. discriminate.
  - unfold vendor_specific_rules. cbn [get_str].
    destruct (String.eqb_spec (Str.lower (name tx)) "apple") as [Happle|Hne].
    + unfold apple_rule.
      destruct (amount tx) as [s|s| |s m ex]; cbn [Float.to_int bind]; split;
        try discriminate.
      * intros [_ [[? _]|(? & ? & _)]]; discriminate.
      * intros H; inversion H; subst. split; [done|]. right. by exists s.
      * intros [_ [[? _]|(s' & Hs & ->)]]; [discriminate | reflexivity].
      * intros H; inversion H; subst. split; [done|]. by left.
      * intros [_ [[_ ->]|(? & ? & _)]]; [reflexivity | discriminate].
      * intros [_ [[? _]|(? & ? & _)]]; discriminate.
    + split; [|intros [? _]; done].
      repeat (destruct (String.eqb _ _); [discriminate|]). discriminate.
Qed.

(** An Apple charge whose amount is NaN. *)
Lemma validate_failures_witness :
  validate_recurring_transaction apple_nan = Raise ValueError.
Proof.
  apply (proj2 (validate_failures apple_nan ValueError)).
  split; [reflexivity|]. left. by split.
Defined.

Lemma lower_known_subscription (n : string) :
  Str.mem n known_subscriptions = true ->
  Str.mem (Str.lower n) major_subscriptions || Str.mem (Str.lower n) telecom_or_insurance
  = true.
Proof. intros H. vendor_cases H; reflexivity. Qed.

Lemma user_subscription_count_value (tx : Transaction) (h : list Transaction) (d : dict) :
  get_user_behavior_features tx h = Ok d ->
  d !! "user_subscription_count"
  = Some (VInt (len (List.filter (fun t => Str.mem (name t) known_subscriptions)
                       (List.filter (fun t => String.eqb (user_id t) (user_id tx)) h)))).
Proof.
  unfold get_user_behavior_features. intros H.
  destruct (List.filter (fun t => String.eqb (user_id t) (user_id tx)) h) as [|t ts].
  - injection H as <-. unfold user_defaults. dict_lookup.
  - apply bind_ok in H as (avg & _ & H). injection H as <-. dict_lookup.
Qed.

(** X21: [user_subscription_count] is at most the number of the user's
    transactions, and at most the number of those that the subscription
    flags would mark as major subscription or as telecom; the names are
    compared without lowering them. *)
Theorem user_subscription_count_bounds
    (tx : Transaction) (h : list Transaction) (d : dict) :
  get_user_behavior_features tx h = Ok d ->
  let user_transactions :=
    List.filter (fun t => String.eqb (user_id t) (user_id tx)) h in
  exists n : Z,
    d !! "user_subscription_count" = Some (VInt n)
    /\ 0 <= n
    /\ n <= len (List.filter
                   (fun t => Str.mem (Str.lower (name t)) major_subscriptions
                             || Str.mem (Str.lower (name t)) telecom_or_insurance)
                   user_transactions)
    /\ n <= len user_transactions.
Proof.
  intros H user_transactions.
  eexists. split; [exact (user_subscription_count_value tx h d H)|].
  split; [apply len_nonneg|]. split.
  - apply filter_len_mono. intros x. apply lower_known_subscription.
  - apply filter_len_le.
Qed.

(** A user with a charge named Netflix and a gym charge. *)
Lemma user_subscription_count_bounds_witness :
  exists (d : dict) (n : Z),
    get_user_behavior_features gym_june [netflix_tx 1 "2024-03-01"; gym_june] = Ok d
    /\ d !! "user_subscription_count" = Some (VInt n)
    /\ 0 <= n <= 2.
Proof.
  destruct (returns_true
              (get_user_behavior_features gym_june [netflix_tx 1 "2024-03-01"; gym_june]))
    as [d Hd]; [vm_compute; reflexivity|].
  destruct (user_subscription_count_bounds gym_june [netflix_tx 1 "2024-03-01"; gym_june] d Hd)
    as (n & Hn & H0 & _ & Hle).
  exists d, n. split; [done|]. split; [done|]. split; [done | exact Hle].
Defined.

Ltac bind_raise_inv H :=
  let a := fresh "a" in
  let Ha := fresh "Ha" in
  apply bind_raise in H; destruct H as [H|(a & Ha & H)].

Lemma sub_timedelta_raises (d : datetime) (n : Z) (e : exn) :
  Datetime.sub_timedelta d n = Raise e -> e = OverflowError.
Proof. unfold Datetime.sub_timedelta. destruct (_ && _); congruence. Qed.

Lemma is_ok_not_raise {A : Type} (r : result A) (e : exn) : is_ok r -> r = Raise e -> False.
Proof. intros [a ->]. discriminate. Qed.

Lemma additional_raises (tx : Transaction) (h : list Transaction) (e : exn) :
  get_additional_recurring_indicators tx h = Raise e -> e = ValueError \/ e = OverflowError.
Proof.
  unfold get_additional_recurring_indicators. intros H.
  bind_raise_inv H; [left; by apply parse_date_raises in H|].
  destruct (same_name tx h) as [|t ts] eqn:E; [discriminate|].
  bind_raise_inv H; [left; by apply sorted_dates_raises in H|].
  bind_raise_inv H; [right; by apply sub_timedelta_raises in H|].
  bind_raise_inv H; [right; by apply sub_timedelta_raises in H|].
  bind_raise_inv H; [by apply (is_ok_not_raise _ _ (day_std_dev_ok _)) in H|].
  bind_raise_inv H; [|discriminate].
  exfalso. apply (is_ok_not_raise _ _ (getitem_ok a0 0 ltac:(
    apply sorted_dates_length in Ha0; unfold len; rewrite Ha0; simpl; lia)) H).
Qed.

Lemma day_of_week_raises (tx : Transaction) (h : list Transaction) (e : exn) :
  get_day_of_week_features tx h = Raise e -> e = ValueError.
Proof.
  unfold get_day_of_week_features. intros H.
  bind_raise_inv H; [by apply parse_date_raises in H|].
  bind_raise_inv H; [by apply sorted_dates_raises in H|].
  bind_raise_inv H; [|discriminate].
  destruct (Z.ltb_spec 1 (len a0)); [|discriminate].
  bind_raise_inv H; [|discriminate].
  exfalso. apply (is_ok_not_raise _ _ (getitem_ok a0 (-2) ltac:(lia)) H).
Qed.

Lemma temporal_raises (tx : Transaction) (h : list Transaction) (e : exn) :
  get_temporal_features tx h = Raise e -> e = ValueError.
Proof.
  unfold get_temporal_features. intros H.
  bind_raise_inv H; [by apply sorted_dates_raises in H|].
  destruct (Z.ltb_spec (len a) 2); [discriminate|].
  bind_raise_inv H; [exfalso; apply (is_ok_not_raise _ _ (getitem_ok a 0 ltac:(lia)) H)|].
  bind_raise_inv H; [by apply parse_date_raises in H|].
  bind_raise_inv H; [exfalso; apply (is_ok_not_raise _ _ (getitem_ok a (-1) ltac:(lia)) H)|].
  bind_raise_inv H; [exfalso; apply (is_ok_not_raise _ _ (getitem_ok a 0 ltac:(lia)) H)|].
  bind_raise_inv H; [|discriminate].
  destruct (Z.eqb_spec (Datetime.sub_days a2 a3) 0) as [|Hne]; [discriminate|].
  rewrite int_truediv_ok in H by lia. cbn [bind] in H.
  unfold Float.truediv in H. rewrite div_int_30_nonzero in H by done. discriminate.
Qed.

Lemma refund_raises (tx : Transaction) (h : list Transaction) (e : exn) :
  get_refund_features tx h = Raise e -> e = ValueError.
Proof.
  unfold get_refund_features. intros H.
  destruct (List.filter _ h) as [|t ts] eqn:Hf; [discriminate|].
  rewrite int_truediv_ok in H by (apply (filter_nonempty_len _ _ ltac:(by rewrite Hf))).
  cbn [bind] in H.
  bind_raise_inv H.
  - eapply mapM_raises_only; [|exact H]. intros x e' Hx. cbn beta in Hx.
    bind_raise_inv Hx; [by apply parse_date_raises in Hx|].
    bind_raise_inv Hx; [by apply parse_date_raises in Hx | discriminate].
  - bind_raise_inv H; [|discriminate].
    destruct a as [|lag lags]; [discriminate|].
    exfalso. apply (is_ok_not_raise _ _ (mean_int_ok (lag :: lags) ltac:(done)) H).
Qed.

(** X22: whatever the input, [get_features] raises nothing but ValueError
    and OverflowError: no division by zero, no index out of range and no
    statistics error can occur. *)
Theorem get_features_raises_only (tx : Transaction) (h : list Transaction) (e : exn) :
  get_features tx h = Raise e -> e = ValueError \/ e = OverflowError.
Proof.
  unfold get_features. intros H.
  bind_raise_inv H; [by apply (is_ok_not_raise _ _ (percent_same_amount_ok tx h)) in H|].
  bind_raise_inv H; [left; by apply time_based_raises in H|].
  bind_raise_inv H; [by apply (is_ok_not_raise _ _ (amount_based_ok tx h)) in H|].
  bind_raise_inv H; [by apply additional_raises in H|].
  bind_raise_inv H; [left; by apply day_of_week_raises in H|].
  bind_raise_inv H; [left; by apply temporal_raises in H|].
  bind_raise_inv H; [by apply (is_ok_not_raise _ _ (user_behavior_ok tx h)) in H|].
  bind_raise_inv H; [left; by apply refund_raises in H|].
  bind_raise_inv H; [|discriminate].
  by apply validate_raises in H.
Qed.

(** A gym charge of January of year 1: ninety days earlier there is no date. *)
Lemma get_features_raises_only_witness :
  exists e : exn,
    get_features year1_gym [year1_gym] = Raise e /\ (e = ValueError \/ e = OverflowError).
Proof.
  assert (get_features year1_gym [year1_gym] = Raise OverflowError) as H
    by (vm_compute; reflexivity).
  exists OverflowError. split; [exact H|]. exact (get_features_raises_only _ _ _ H).
Defined.

(** X23: when no transaction of the history has the name of the
    transaction, the time-based, amount-based, additional and temporal
    features of the vector are the defaults, whatever the amount and the
    date, and [vendor_popularity] and [days_since_last_transaction] are
    0. *)
Theorem unseen_vendor_defaults (tx : Transaction) (h : list Transaction) (fv : dict) :
  same_name tx h = [] ->
  get_features tx h = Ok fv ->
  (forall k, In k time_based_keys -> fv !! k = time_based_defaults !! k)
  /\ (forall k, In k amount_keys -> fv !! k = amount_defaults !! k)
  /\ (forall k, In k additional_keys -> fv !! k = additional_defaults !! k)
  /\ (forall k, In k temporal_keys -> fv !! k = temporal_defaults !! k)
  /\ fv !! "vendor_popularity" = Some (VInt 0)
  /\ fv !! "days_since_last_transaction" = Some (VInt 0).
Proof.
  intros Hnone H.
  destruct (get_features_components tx h fv H)
    as (tb & ab & ad & dw & te & ub & rf & valid & Htb & Hab & Had & Hdw & Hte & _ & _ & _
        & Ktb & Kab & Kad & Kdw & Kte & _).
  destruct (get_features_total_components tx h fv H) as (_ & Hven & _).
  rewrite time_based_below_two in Htb by (rewrite Hnone; reflexivity).
  injection Htb as <-.
  unfold get_amount_based_features in Hab. rewrite Hnone in Hab. injection Hab as <-.
  unfold get_additional_recurring_indicators in Had.
  apply bind_ok in Had as (date_obj & Hdate & Had). rewrite Hnone in Had.
  injection Had as <-.
  unfold get_temporal_features in Hte. rewrite Hnone in Hte. cbn in Hte.
  injection Hte as <-.
  unfold get_day_of_week_features in Hdw. rewrite Hdate, Hnone in Hdw. cbn in Hdw.
  injection Hdw as <-.
  repeat (split; [done|]). split.
  - rewrite Hven by (simpl; tauto). unfold get_vendor_specific_features.
    rewrite Hnone. dict_lookup.
  - rewrite Kdw by (simpl; tauto). reflexivity.
Qed.

(** A gym charge of 20.00 against a history that holds an Acme charge only: no
    size flag is set. *)
Lemma unseen_vendor_defaults_witness :
  exists fv : dict,
    get_features gym_june [acme_charge] = Ok fv
    /\ fv !! "vendor_popularity" = Some (VInt 0)
    /\ fv !! "is_first_transaction_with_vendor" = Some (VInt 1)
    /\ fv !! "is_mid_sized_subscription" = Some (VInt 0).
Proof.
  destruct (returns_true (get_features gym_june [acme_charge])) as [fv Hfv];
    [vm_compute; reflexivity|].
  destruct (unseen_vendor_defaults gym_june [acme_charge] fv eq_refl Hfv)
    as (_ & Hamount & Hadditional & _ & Hpop & _).
  exists fv. split; [exact Hfv|]. split; [exact Hpop|]. split.
  - rewrite Hadditional by (simpl; tauto). unfold additional_defaults. dict_lookup.
  - rewrite Hamount by (simpl; tauto). unfold amount_defaults. dict_lookup.
Defined.

(** ** Quotients of counts *)

Lemma Zdigits2_bounds (m : Z) :
  0 < m -> 2 ^ (Zdigits2 m - 1) <= m < 2 ^ Zdigits2 m /\ 1 <= Zdigits2 m.
Proof.
  destruct m as [|p|p]; try lia. intros _. cbn [Zdigits2].
  pose proof (digits2_pos_bounds p). lia.
Qed.

Lemma Zdigits2_le_pow (m k : Z) : 0 <= k -> 0 <= m <= 2 ^ k -> Zdigits2 m <= k + 1.
Proof.
  intros Hk Hm. destruct (Z.eq_dec m 0) as [->|Hne]; [simpl; lia|].
  destruct (Zdigits2_bounds m ltac:(lia)) as [[Hlo _] Hd].
  destruct (Z.le_gt_cases (Zdigits2 m) (k + 1)) as [|Hgt]; [done|].
  assert (2 ^ (k + 1) <= 2 ^ (Zdigits2 m - 1)) by (apply Z.pow_le_mono_r; lia).
  assert (2 ^ k < 2 ^ (k + 1)) by (apply Z.pow_lt_mono_r; lia).
  lia.
Qed.

Lemma round_nearest_even_le (m : Z) (l : location) : round_nearest_even m l <= m + 1.
Proof.
  unfold round_nearest_even. destruct l as [|[]]; try lia. destruct (Z.even m); lia.
Qed.

Lemma shifted_m_nonneg (m n : Z) : 0 <= m -> 0 <= shifted_m m n.
Proof.
  intros Hm. unfold shifted_m. destruct (Z.ltb_spec 0 n); [|done].
  apply Z.div_pos; [done | apply Z.pow_pos_nonneg; lia].
Qed.

(** Rounding a mantissa [m] at an exponent [e <= -53], with [m * 2 ^ e]
    below 1, gives a float from 0.0 to 1.0. *)
Lemma binary_round_aux_unit (m e : Z) (l : location) :
  0 <= m -> e <= -53 -> m < 2 ^ (- e) ->
  Float.leb Float.zero (binary_round_aux Float.prec Float.emax false m e l) = true
  /\ Float.leb (binary_round_aux Float.prec Float.emax false m e l) float_one = true.
Proof.
  intros Hm He Hlt.
  unfold binary_round_aux, shr_fexp.
  set (d := Zdigits2 m). fold (excess d e). set (n := excess d e).
  assert (n = Z.max (d - 53) (- 1074 - e)) as Hn by apply excess_eq.
  assert (d <= - e + 1) as Hd by (apply Zdigits2_le_pow; lia).
  destruct (shr_spec (shr_record_of_loc m l) e n) as [Hm1 He1];
    [by rewrite shr_record_of_loc_m|].
  rewrite shr_record_of_loc_m in Hm1.
  destruct (shr (shr_record_of_loc m l) e n) as [mrs' e1]. cbn [fst snd] in Hm1, He1.
  set (t := shifted_m m n) in *.
  assert (0 <= t) as Ht by (by apply shifted_m_nonneg).
  assert (e1 <= -53 /\ t < 2 ^ (- e1)) as [He1' Ht'].
  { subst e1 t. unfold shifted_e, shifted_m. destruct (Z.ltb_spec 0 n); [|done].
    assert (d <= - e).
    { destruct (Z.eq_dec m 0) as [->|Hne]; [subst d; simpl; lia|].
      destruct (Zdigits2_bounds m ltac:(lia)) as [[Hlo _] _]. fold d in Hlo.
      destruct (Z.le_gt_cases d (- e)) as [|Hgt]; [done|].
      assert (2 ^ (- e) <= 2 ^ (d - 1)) by (apply Z.pow_le_mono_r; lia). lia. }
    split; [lia|].
    apply Z.div_lt_upper_bound; [apply Z.pow_pos_nonneg; lia|].
    rewrite <- Z.pow_add_r by lia. by replace (n + - (e + n)) with (- e) by lia. }
  set (m2 := round_nearest_even (shr_m mrs') (loc_of_shr_record mrs')).
  assert (t <= m2 <= t + 1) as Hm2
    by (subst m2; rewrite Hm1; split; [apply round_nearest_even_ge | apply round_nearest_even_le]).
  set (d2 := Zdigits2 m2). fold (excess d2 e1). set (n2 := excess d2 e1).
  assert (n2 = Z.max (d2 - 53) (- 1074 - e1)) as Hn2 by apply excess_eq.
  assert (d2 <= - e1 + 1) as Hd2 by (apply Zdigits2_le_pow; lia).
  destruct (shr_spec (shr_record_of_loc m2 loc_Exact) e1 n2) as [Hm3 He3];
    [rewrite shr_record_of_loc_m; lia|].
  rewrite shr_record_of_loc_m in Hm3.
  destruct (shr (shr_record_of_loc m2 loc_Exact) e1 n2) as [mrs'' e3].
  cbn [fst snd] in Hm3, He3.
  assert (0 <= shr_m mrs'') as Hm3' by (rewrite Hm3; apply shifted_m_nonneg; lia).
  destruct (shr_m mrs'') as [|m3|m3] eqn:Em3; [done| |lia].
  assert (e3 <= -52 /\ (e3 = -52 -> Z.pos m3 <= 2 ^ 52)) as [He3' Hm3''].
  { subst e3. unfold shifted_e, shifted_m in *. destruct (Z.ltb_spec 0 n2); [|lia].
    split; [lia|]. intros He52.
    assert (d2 = - e1 + 1) as Hd2' by lia.
    assert (n2 = - 52 - e1) as Hn2' by lia.
    rewrite Hm3. apply Z.div_le_upper_bound; [apply Z.pow_pos_nonneg; lia|].
    rewrite <- Z.pow_add_r by lia. replace (n2 + 52) with (- e1) by lia. lia. }
  destruct (Z.leb_spec e3 (Float.emax - Float.prec)) as [_|Hbig];
    [|unfold Float.emax, Float.prec in Hbig; lia].
  split; [reflexivity|].
  unfold Float.leb, SFleb, SFcompare, float_one.
  destruct (Z.compare_spec e3 (-52)) as [Heq|_|Hgt]; [|reflexivity|lia].
  rewrite Pos.compare_cont_spec. cbn [Pos.switch_Eq].
  specialize (Hm3'' Heq). change (2 ^ 52) with (Z.pos 4503599627370496) in Hm3''.
  destruct (Pos.compare_spec m3 4503599627370496); [reflexivity | reflexivity | lia].
Qed.

Lemma div_eucl_div_mod (a b : Z) : Z.div_eucl a b = (a / b, a mod b).
Proof. unfold Z.div, Z.modulo. by destruct (Z.div_eucl a b). Qed.

(** A count divided by itself is 1.0; nothing divided by a count is 0.0. *)
Lemma div_int_self (n : Z) : 0 < n -> Float.div_int n n = float_one.
Proof.
  intros Hn. destruct n as [|p|p]; try lia.
  unfold Float.div_int, SFdiv, SFdiv_core_binary. cbn [Float.Z2SF xorb].
  replace (Zdigits2 (Z.pos p) + 0 - (Zdigits2 (Z.pos p) + 0)) with 0 by lia.
  change (Z.min (fexp Float.prec Float.emax 0) (0 - 0)) with (-53).
  change (0 - 0 - -53) with 53.
  rewrite div_eucl_div_mod, Z.shiftl_mul_pow2 by lia.
  rewrite (Z.mul_comm (Z.pos p)), Z.div_mul, Z.mod_mul by lia.
  assert (new_location (Z.pos p) 0 = loc_Exact) as ->
    by (unfold new_location; destruct (Z.even _); reflexivity).
  vm_compute. reflexivity.
Qed.

Lemma div_int_zero (d : Z) : 0 < d -> Float.div_int 0 d = Float.zero.
Proof. intros Hd. destruct d as [|p|p]; try lia. reflexivity. Qed.

(** A part of a count divided by the count lies between 0.0 and 1.0. *)
Lemma div_int_unit (n d : Z) :
  0 <= n <= d -> 0 < d ->
  Float.leb Float.zero (Float.div_int n d) = true
  /\ Float.leb (Float.div_int n d) float_one = true.
Proof.
  intros Hn Hd.
  destruct (Z.eq_dec n 0) as [->|Hn0]; [by rewrite div_int_zero|].
  destruct (Z.eq_dec n d) as [->|Hnd]; [by rewrite div_int_self|].
  destruct n as [|p|p]; try lia. destruct d as [|q|q]; try lia.
  unfold Float.div_int, SFdiv, SFdiv_core_binary. cbn [Float.Z2SF xorb].
  set (d1 := Zdigits2 (Z.pos p)). set (d2 := Zdigits2 (Z.pos q)).
  assert (d1 <= d2) as Hdd by (apply digits2_pos_mono; lia).
  set (e' := Z.min (fexp Float.prec Float.emax (d1 + 0 - (d2 + 0))) (0 - 0)).
  assert (e' <= -53) as He'
    by (subst e'; unfold fexp, SpecFloat.emin, Float.prec, Float.emax; lia).
  destruct (0 - 0 - e') as [|s|s] eqn:Es; try lia.
  rewrite div_eucl_div_mod, Z.shiftl_mul_pow2 by lia.
  apply binary_round_aux_unit; [|done|].
  - apply Z.div_pos; [|lia]. apply Z.mul_nonneg_nonneg; [lia | apply Z.pow_nonneg; lia].
  - apply Z.div_lt_upper_bound; [lia|].
    replace (- e') with (Z.pos s) by lia.
    assert (0 < 2 ^ Z.pos s) by (apply Z.pow_pos_nonneg; lia). nia.
Qed.

Lemma of_int_1 : Float.of_int 1 = float_one.
Proof. vm_compute. reflexivity. Qed.

Lemma filter_all {A : Type} (p : A -> bool) (l : list A) :
  Forall (fun x => p x = true) l -> List.filter p l = l.
Proof.
  induction 1 as [|x l Hx _ IH]; simpl; [done|]. by rewrite Hx, IH.
Qed.

Lemma filter_none {A : Type} (p : A -> bool) (l : list A) :
  Forall (fun x => p x = false) l -> List.filter p l = [].
Proof.
  induction 1 as [|x l Hx _ IH]; simpl; [done|]. by rewrite Hx, IH.
Qed.

(** X24: [get_percent_transactions_same_amount] always returns, and the
    float is between 0.0 and 1.0; it is 0.0 when no amount of the history
    equals the amount (so for an empty history), 1.0 when all of a non-empty
    history do. *)
Theorem percent_same_amount_range (tx : Transaction) (h : list Transaction) :
  exists p : float,
    get_percent_transactions_same_amount tx h = Ok p
    /\ Float.leb Float.zero p = true
    /\ Float.leb p (Float.of_int 1) = true
    /\ (Forall (fun t => Float.eqb (amount t) (amount tx) = false) h -> p = Float.zero)
    /\ (h <> [] -> Forall (fun t => Float.eqb (amount t) (amount tx) = true) h ->
        p = Float.of_int 1).
Proof.
  rewrite of_int_1. unfold get_percent_transactions_same_amount.
  destruct h as [|t0 h0] eqn:E.
  - exists Float.zero. repeat split; try done.
  - rewrite <- E. set (same := List.filter _ h).
    assert (0 < len h) as Hlen by (rewrite E, len_cons; pose proof (len_nonneg h0); lia).
    rewrite int_truediv_ok by lia.
    exists (Float.div_int (len same) (len h)).
    split; [done|].
    destruct (div_int_unit (len same) (len h)) as [H0 H1];
      [split; [apply len_nonneg | apply filter_len_le] | done |].
    repeat (split; [done|]). split.
    + intros Hnone. subst same. rewrite (filter_none _ _ Hnone). by apply div_int_zero.
    + intros _ Hall. subst same. rewrite (filter_all _ _ Hall). by apply div_int_self.
Qed.

(** All gym charges are of 20.00; an amount that is NaN equals none. *)
Lemma percent_same_amount_range_witness :
  get_percent_transactions_same_amount gym_june gym_history = Ok (Float.of_int 1)
  /\ get_percent_transactions_same_amount apple_nan [apple_nan] = Ok Float.zero.
Proof.
  split.
  - destruct (percent_same_amount_range gym_june gym_history) as (p & Hp & _ & _ & _ & Hall).
    rewrite Hp. f_equal. apply Hall; [discriminate | repeat constructor].
  - destruct (percent_same_amount_range apple_nan [apple_nan]) as (p & Hp & _ & _ & Hnone & _).
    rewrite Hp. f_equal. apply Hnone. repeat constructor.
Defined.

(** X25: [refund_rate] is a float between 0.0 and 1.0. *)
Theorem refund_rate_range (tx : Transaction) (h : list Transaction) (d : dict) :
  get_refund_features tx h = Ok d ->
  exists rate : float,
    d !! "refund_rate" = Some (VFloat rate)
    /\ Float.leb Float.zero rate = true
    /\ Float.leb rate (Float.of_int 1) = true.
Proof.
  rewrite of_int_1. unfold get_refund_features. intros H.
  set (refunds := List.filter _ h) in H.
  destruct refunds as [|t ts] eqn:E.
  - injection H as <-. exists Float.zero. split; [unfold refund_defaults; dict_lookup | split; reflexivity].
  - subst refunds.
    assert (len h <> 0) as Hlen by (eapply filter_nonempty_len; rewrite E; discriminate).
    rewrite int_truediv_ok in H by done. cbn [bind] in H.
    apply bind_ok in H as (lags & _ & H). apply bind_ok in H as (avg & _ & H).
    injection H as <-.
    exists (Float.div_int (len (t :: ts)) (len h)). split; [dict_lookup|].
    apply div_int_unit.
    + split; [apply len_nonneg|]. rewrite <- E. apply filter_len_le.
    + pose proof (len_nonneg h). lia.
Qed.

(** The Acme charge and its refund. *)
Lemma refund_rate_range_witness :
  exists (d : dict) (rate : float),
    get_refund_features acme_charge [acme_charge; acme_refund] = Ok d
    /\ d !! "refund_rate" = Some (VFloat rate)
    /\ Float.leb Float.zero rate = true
    /\ Float.leb rate (Float.of_int 1) = true.
Proof.
  destruct (returns_true (get_refund_features acme_charge [acme_charge; acme_refund]))
    as [d Hd]; [vm_compute; reflexivity|].
  destruct (refund_rate_range acme_charge [acme_charge; acme_refund] d Hd) as (rate & H).
  by exists d, rate.
Defined.

(** A count that is not zero, divided by a count below [2 ^ 63], is above
    0.0: the quotient does not underflow. *)
Lemma div_int_positive (n d : Z) :
  1 <= n -> 1 <= d < 2 ^ 63 -> Float.ltb Float.zero (Float.div_int n d) = true.
Proof.
  intros Hn Hd. destruct n as [|p|p]; try lia. destruct d as [|q|q]; try lia.
  unfold Float.div_int, SFdiv, SFdiv_core_binary. cbn [Float.Z2SF xorb].
  change (Zdigits2 (Z.pos p)) with (Z.pos (digits2_pos p)).
  change (Zdigits2 (Z.pos q)) with (Z.pos (digits2_pos q)).
  pose proof (digits2_pos_bounds p) as [Hlo1 Hhi1].
  pose proof (digits2_pos_bounds q) as [Hlo2 Hhi2].
  set (d1 := Z.pos (digits2_pos p)) in *. set (d2 := Z.pos (digits2_pos q)) in *.
  assert (1 <= d1) as Hd1 by (subst d1; lia).
  assert (1 <= d2 <= 63) as Hd2.
  { split; [subst d2; lia|]. destruct (Z.le_gt_cases d2 63) as [|Hgt]; [done|].
    assert (2 ^ 63 <= 2 ^ (d2 - 1)) by (apply Z.pow_le_mono_r; lia). lia. }
  set (e' := Z.min (fexp Float.prec Float.emax (d1 + 0 - (d2 + 0))) (0 - 0)).
  assert (e' = Z.min (d1 - d2 - 53) 0) as He'
    by (subst e'; unfold fexp, SpecFloat.emin, Float.prec, Float.emax; lia).
  set (m' := match 0 - 0 - e' with
             | 0 => Z.pos p
             | Z.pos _ => Z.shiftl (Z.pos p) (0 - 0 - e')
             | Z.neg _ => 0
             end).
  assert (m' = Z.pos p * 2 ^ (- e')) as Hm'.
  { subst m'. destruct (0 - 0 - e') as [|s|s] eqn:Es; [| |lia].
    - replace (- e') with 0 by lia. lia.
    - rewrite Z.shiftl_mul_pow2 by lia. f_equal. f_equal. lia. }
  assert (2 ^ d2 <= m') as Hbig.
  { rewrite Hm'. destruct (Z.le_gt_cases 0 (d1 - d2 - 53)).
    - replace (- e') with 0 by lia. rewrite Z.mul_1_r.
      transitivity (2 ^ (d1 - 1)); [apply Z.pow_le_mono_r; lia | done].
    - replace (- e') with (d2 + 53 - d1) by lia.
      transitivity (2 ^ (d1 - 1) * 2 ^ (d2 + 53 - d1)).
      + rewrite <- Z.pow_add_r by lia. apply Z.pow_le_mono_r; lia.
      + apply Z.mul_le_mono_nonneg_r; [apply Z.pow_nonneg; lia | done]. }
  rewrite div_eucl_div_mod.
  assert (1 <= m' / Z.pos q) as Hq by (apply Z.div_le_lower_bound; lia).
  destruct (m' / Z.pos q) as [|k|k] eqn:Ek; try lia.
  destruct (binary_round_aux_spec false k e' (new_location (Z.pos q) (m' mod Z.pos q)))
    as (m3 & e3 & -> & _).
  { pose proof (digits2_pos_bounds k). lia. }
  by destruct (e3 <=? _).
Qed.

Lemma refund_rate_value (tx : Transaction) (h : list Transaction) (d : dict) :
  get_refund_features tx h = Ok d ->
  let refund_transactions :=
    List.filter (fun t => Float.eqb (amount t) (Float.opp (amount tx))) h in
  refund_transactions <> [] ->
  d !! "refund_rate"
  = Some (VFloat (Float.div_int (len refund_transactions) (len h))).
Proof.
  intros H refund_transactions Hne. unfold get_refund_features in H.
  fold refund_transactions in H.
  assert (len h <> 0) as Hlen by (by eapply filter_nonempty_len).
  destruct refund_transactions as [|t ts]; [done|].
  rewrite int_truediv_ok in H by done. cbn [bind] in H.
  apply bind_ok in H as (lags & _ & H). apply bind_ok in H as (avg & _ & H).
  injection H as <-. dict_lookup.
Qed.

(** X26: in a feature vector over a history of fewer than 2^63
    transactions, [is_canceled_or_refunded] 1 comes with a [refund_rate]
    above 0.0. *)
Theorem refunded_transactions_have_a_refund_rate
    (tx : Transaction) (h : list Transaction) (fv : dict) :
  len h < 2 ^ 63 ->
  get_features tx h = Ok fv ->
  fv !! "is_canceled_or_refunded" = Some (VInt 1) ->
  exists rate : float,
    fv !! "refund_rate" = Some (VFloat rate) /\ Float.ltb Float.zero rate = true.
Proof.
  intros Hlen H Hflag.
  destruct (get_features_components tx h fv H)
    as (tb & ab & ad & dw & te & ub & rf & valid & _ & _ & Had & _ & _ & _ & Hrf & _
        & _ & _ & Kad & _ & _ & _ & Krf & _).
  rewrite Kad in Hflag by (simpl; tauto).
  apply (canceled_or_refunded_of_component tx h ad Had) in Hflag
    as (_ & t & Hin & Hamount & _).
  set (refund_transactions :=
         List.filter (fun t => Float.eqb (amount t) (Float.opp (amount tx))) h).
  assert (In t refund_transactions) as Ht by (apply filter_In; by split).
  assert (refund_transactions <> []) as Hne by (intros E; rewrite E in Ht; destruct Ht).
  exists (Float.div_int (len refund_transactions) (len h)).
  split; [rewrite Krf by (simpl; tauto); by apply refund_rate_value|].
  apply div_int_positive.
  - destruct refund_transactions as [|x xs]; [done|].
    rewrite len_cons. pose proof (len_nonneg xs). lia.
  - split; [|done].
    pose proof (filter_len_le (fun t => Float.eqb (amount t) (Float.opp (amount tx))) h).
    fold refund_transactions in H0.
    destruct refund_transactions as [|x xs]; [done|].
    rewrite len_cons in H0. pose proof (len_nonneg xs). lia.
Qed.

(** The Acme charge and its refund. *)
Lemma refunded_transactions_have_a_refund_rate_witness :
  exists (fv : dict) (rate : float),
    get_features acme_charge [acme_charge; acme_refund] = Ok fv
    /\ fv !! "refund_rate" = Some (VFloat rate) /\ Float.ltb Float.zero rate = true.
Proof.
  destruct (feature_Some (get_features acme_charge [acme_charge; acme_refund])
              "is_canceled_or_refunded" (VInt 1) ltac:(vm_compute; reflexivity))
    as (fv & Hfv & Hflag).
  destruct (refunded_transactions_have_a_refund_rate acme_charge [acme_charge; acme_refund] fv
              ltac:(vm_compute; reflexivity) Hfv Hflag) as (rate & Hrate).
  by exists fv, rate.
Defined.

(** ** Transactions on one day of the month *)

(** The mean of [n] copies of a day of the month is that day, exactly. *)
Lemma div_int_day (n day : Z) :
  1 <= n -> 1 <= day <= 31 -> Float.div_int (n * day) n = Float.of_int day.
Proof.
  intros Hn Hday.
  destruct n as [|p|p]; try lia.
  assert (exists k, 1 <= k <= 5 /\ 2 ^ (k - 1) <= day < 2 ^ k) as (k & Hk & Hdk).
  { destruct (Z.le_gt_cases 16 day); [exists 5; lia|].
    destruct (Z.le_gt_cases 8 day); [exists 4; lia|].
    destruct (Z.le_gt_cases 4 day); [exists 3; lia|].
    destruct (Z.le_gt_cases 2 day); [exists 2; lia|]. exists 1; lia. }
  destruct (Z.pos p * day) as [|m|m] eqn:Em; try lia.
  unfold Float.div_int, SFdiv, SFdiv_core_binary. cbn [Float.Z2SF xorb].
  change (Zdigits2 (Z.pos m)) with (Z.pos (digits2_pos m)).
  change (Zdigits2 (Z.pos p)) with (Z.pos (digits2_pos p)).
  pose proof (digits2_pos_bounds m) as [Hlo1 Hhi1].
  pose proof (digits2_pos_bounds p) as [Hlo2 Hhi2].
  set (d1 := Z.pos (digits2_pos m)) in *. set (d2 := Z.pos (digits2_pos p)) in *.
  assert (1 <= d2) as Hd2 by (subst d2; lia).
  assert (d1 = d2 + k - 1 \/ d1 = d2 + k) as Hd1.
  { assert (d2 + k - 2 < d1).
    { destruct (Z.lt_ge_cases (d2 + k - 2) d1) as [|Hge]; [done|].
      assert (2 ^ d1 <= 2 ^ (d2 + k - 2)) by (apply Z.pow_le_mono_r; lia).
      replace (d2 + k - 2) with ((d2 - 1) + (k - 1)) in * by lia.
      rewrite Z.pow_add_r in * by lia.
      assert (2 ^ (d2 - 1) * 2 ^ (k - 1) <= Z.pos p * day) by nia. lia. }
    assert (d1 - 1 < d2 + k).
    { destruct (Z.lt_ge_cases (d1 - 1) (d2 + k)) as [|Hge]; [done|].
      assert (2 ^ (d2 + k) <= 2 ^ (d1 - 1)) by (apply Z.pow_le_mono_r; lia).
      rewrite Z.pow_add_r in * by lia.
      assert (0 < 2 ^ d2) by (apply Z.pow_pos_nonneg; lia).
      assert (Z.pos p * day < 2 ^ d2 * 2 ^ k) by nia. lia. }
    lia. }
  set (e' := Z.min (fexp Float.prec Float.emax (d1 + 0 - (d2 + 0))) (0 - 0)).
  assert (e' = d1 - d2 - 53) as He'
    by (subst e'; unfold fexp, SpecFloat.emin, Float.prec, Float.emax; lia).
  destruct (0 - 0 - e') as [|s|s] eqn:Es; try lia.
  rewrite div_eucl_div_mod, Z.shiftl_mul_pow2 by lia.
  rewrite <- Em.
  replace (Z.pos p * day * 2 ^ Z.pos s) with (day * 2 ^ Z.pos s * Z.pos p) by ring.
  rewrite Z.div_mul, Z.mod_mul by lia.
  assert (new_location (Z.pos p) 0 = loc_Exact) as ->
    by (unfold new_location; destruct (Z.even _); reflexivity).
  assert (Z.pos s = 54 - k \/ Z.pos s = 53 - k) as Hs by lia.
  rewrite He'. replace (d1 - d2 - 53) with (- Z.pos s) by lia.
  clear - Hs Hk Hdk Hday.
  assert (day = 1 \/ day = 2 \/ day = 3 \/ day = 4 \/ day = 5 \/ day = 6 \/ day = 7
          \/ day = 8 \/ day = 9 \/ day = 10 \/ day = 11 \/ day = 12 \/ day = 13
          \/ day = 14 \/ day = 15 \/ day = 16 \/ day = 17 \/ day = 18 \/ day = 19
          \/ day = 20 \/ day = 21 \/ day = 22 \/ day = 23 \/ day = 24 \/ day = 25
          \/ day = 26 \/ day = 27 \/ day = 28 \/ day = 29 \/ day = 30 \/ day = 31) as Hc by lia.
  assert (k = 1 \/ k = 2 \/ k = 3 \/ k = 4 \/ k = 5) as Hkc by lia.
  repeat (destruct Hkc as [->|Hkc]); try subst k;
    repeat (destruct Hc as [->|Hc]); try subst day;
    try (exfalso; simpl in Hdk; lia);
    (destruct Hs as [->| ->]; vm_compute; reflexivity).
Qed.

Lemma of_int_positive (n : Z) :
  0 < n ->
  (exists m e, Float.of_int n = S754_finite false m e) \/ Float.of_int n = S754_infinity false.
Proof.
  intros Hn. destruct n as [|p|p]; try lia.
  unfold Float.of_int, binary_normalize, binary_round.
  pose proof (shl_align_digits p 0 (fexp Float.prec Float.emax (Z.pos (digits2_pos p) + 0)))
    as Hd.
  destruct (shl_align p 0 _) as [mz ez]. cbn [fst snd] in Hd.
  destruct (binary_round_aux_spec false mz ez loc_Exact) as (m3 & e3 & -> & _); [lia|].
  destruct (e3 <=? _); [left; by eexists _, _ | by right].
Qed.

Lemma sum_float_zeros (l : list float) :
  Forall (fun x => x = Float.zero) l -> Builtins.sum_float l = Float.zero.
Proof.
  unfold Builtins.sum_float. induction 1 as [|x l -> _ IH]; [reflexivity|]. exact IH.
Qed.

(** The deviation of the days of the month is 0.0 when they are one day. *)
Lemma day_std_dev_constant (days : list Z) (day : Z) :
  1 <= day <= 31 -> Forall (fun x => x = day) days ->
  day_std_dev_of days = Ok Float.zero.
Proof.
  intros Hday Hall. unfold day_std_dev_of.
  destruct (Z.ltb_spec 1 (len days)) as [Hlen|_]; [|reflexivity].
  rewrite int_truediv_ok by lia. cbn [bind].
  rewrite (sum_int_constant days day Hall), div_int_day by lia.
  assert (Float.square (Float.sub (Float.of_int day) (Float.of_int day)) = Float.zero) as Hsq.
  { assert (day = 1 \/ day = 2 \/ day = 3 \/ day = 4 \/ day = 5 \/ day = 6 \/ day = 7
            \/ day = 8 \/ day = 9 \/ day = 10 \/ day = 11 \/ day = 12 \/ day = 13
            \/ day = 14 \/ day = 15 \/ day = 16 \/ day = 17 \/ day = 18 \/ day = 19
            \/ day = 20 \/ day = 21 \/ day = 22 \/ day = 23 \/ day = 24 \/ day = 25
            \/ day = 26 \/ day = 27 \/ day = 28 \/ day = 29 \/ day = 30 \/ day = 31) as Hc
      by lia.
    repeat (destruct Hc as [->|Hc]); try subst day; vm_compute; reflexivity. }
  rewrite sum_float_zeros.
  - unfold Float.truediv. rewrite of_int_nonzero by lia.
    destruct (of_int_positive (len days) ltac:(lia)) as [(m & e & ->)| ->]; reflexivity.
  - rewrite List.Forall_forall in Hall |- *. intros x Hx.
    apply in_map_iff in Hx as (z & <- & Hz). rewrite (Hall z Hz). exact Hsq.
Qed.

Lemma day_consistency_value (tx : Transaction) (h : list Transaction) (d : dict) :
  same_name tx h <> [] ->
  get_additional_recurring_indicators tx h = Ok d ->
  exists (dates : list datetime) (dev : float),
    sorted_dates (same_name tx h) = Ok dates
    /\ day_std_dev_of (map Datetime.day dates) = Ok dev
    /\ d !! "transaction_day_consistency" = Some (VFloat dev).
Proof.
  intros Hne H. unfold get_additional_recurring_indicators in H.
  apply bind_ok in H as (date_obj & Hdate & H).
  destruct (same_name tx h) as [|t ts] eqn:E; [done|].
  apply bind_ok in H as (dates & Hdates & H).
  apply bind_ok in H as (three & H3 & H).
  apply bind_ok in H as (six & H6 & H).
  apply bind_ok in H as (dev & Hdev & H).
  apply bind_ok in H as (first & Hfirst & H).
  injection H as <-.
  exists dates, dev. repeat (split; [done|]). dict_lookup.
Qed.

(** X27: when all same-vendor transactions fall on the same day of the
    month, [transaction_day_consistency] is 0.0. *)
Theorem day_consistency_zero_on_same_day
    (tx : Transaction) (h : list Transaction) (d : dict) (day : Z) :
  (forall t dt, In t (same_name tx h) -> parse_date t = Ok dt -> Datetime.day dt = day) ->
  get_additional_recurring_indicators tx h = Ok d ->
  d !! "transaction_day_consistency" = Some (VFloat Float.zero).
Proof.
  intros Hsame H.
  destruct (same_name tx h) as [|t0 ts] eqn:E.
  - unfold get_additional_recurring_indicators in H.
    apply bind_ok in H as (date_obj & Hdate & H). rewrite E in H. injection H as <-.
    unfold additional_defaults. dict_lookup.
  - rewrite <- E in *.
    destruct (day_consistency_value tx h d ltac:(rewrite E; done) H)
      as (dates & dev & Hdates & Hdev & Hd).
    rewrite Hd. do 2 f_equal.
    assert (Forall (fun x => x = day) (map Datetime.day dates)) as Hall.
    { apply List.Forall_forall. intros x Hx. apply in_map_iff in Hx as (dt & <- & Hdt).
      apply (sorted_dates_In _ _ Hdates) in Hdt as (t & Ht & Hp). by apply (Hsame t dt). }
    assert (1 <= day <= 31) as Hday.
    { assert (In t0 (same_name tx h)) as Ht0 by (rewrite E; by left).
      pose proof (sorted_dates_In _ _ Hdates) as Hin.
      destruct dates as [|dt dates'].
      - apply sorted_dates_length in Hdates. rewrite E in Hdates. discriminate.
      - destruct (proj1 (Hin dt) ltac:(by left)) as (t & Ht & Hp).
        rewrite <- (Hsame t dt Ht Hp). by apply strptime_day_range in Hp. }
    rewrite (day_std_dev_constant _ day Hday Hall) in Hdev. congruence.
Qed.

(** The gym charges, both on the first of a month. *)
Lemma day_consistency_zero_on_same_day_witness :
  exists d : dict,
    get_additional_recurring_indicators gym_june gym_history = Ok d
    /\ d !! "transaction_day_consistency" = Some (VFloat Float.zero).
Proof.
  destruct (returns_true (get_additional_recurring_indicators gym_june gym_history))
    as [d Hd]; [vm_compute; reflexivity|].
  exists d. split; [exact Hd|].
  apply (day_consistency_zero_on_same_day gym_june gym_history d 1); [|exact Hd].
  intros t dt Ht Hdt. simpl in Ht.
  destruct Ht as [<-|[<-|[]]]; vm_compute in Hdt; injection Hdt as <-; reflexivity.
Defined.

(** ** The lag of refunds *)

Lemma refund_time_lag_value (tx : Transaction) (h : list Transaction) (d : dict) :
  get_refund_features tx h = Ok d ->
  let refund_transactions :=
    List.filter (fun t => Float.eqb (amount t) (Float.opp (amount tx))) h in
  refund_transactions <> [] ->
  exists (lags : list Z) (lag : value),
    mapM (fun t =>
            let* refund_date := parse_date t in
            let* charge_date := parse_date tx in
            Ok (Datetime.sub_days refund_date charge_date))
         refund_transactions = Ok lags
    /\ Statistics.mean_int lags = Ok lag
    /\ d !! "refund_time_lag" = Some lag.
Proof.
  intros H refund_transactions Hne. unfold get_refund_features in H.
  fold refund_transactions in H.
  assert (len h <> 0) as Hlen by (by eapply filter_nonempty_len).
  destruct refund_transactions as [|t ts] eqn:E; [done|].
  rewrite int_truediv_ok in H by done. cbn [bind] in H.
  apply bind_ok in H as (lags & Hlags & H). apply bind_ok in H as (avg & Havg & H).
  injection H as <-.
  exists lags, avg. split; [done|]. split; [|dict_lookup].
  destruct lags as [|x xs]; [|done].
  apply mapM_length in Hlags. discriminate.
Qed.

(** X28: when the history holds transactions with the negated amount and
    each of them is dated [g] days after the transaction ([g] may be
    negative), [refund_time_lag] is the integer [g]. *)
Theorem refund_time_lag_of_equal_lags
    (tx : Transaction) (h : list Transaction) (d : dict) (charge_date : datetime) (g : Z) :
  parse_date tx = Ok charge_date ->
  (exists t, In t h /\ Float.eqb (amount t) (Float.opp (amount tx)) = true) ->
  (forall t refund_date,
     In t h -> Float.eqb (amount t) (Float.opp (amount tx)) = true ->
     parse_date t = Ok refund_date -> Datetime.sub_days refund_date charge_date = g) ->
  get_refund_features tx h = Ok d ->
  d !! "refund_time_lag" = Some (VInt g).
Proof.
  intros Hdate (t0 & Hin0 & Hamt0) Hsame H.
  set (refund_transactions :=
         List.filter (fun t => Float.eqb (amount t) (Float.opp (amount tx))) h).
  assert (In t0 refund_transactions) as Ht0 by (apply filter_In; by split).
  assert (refund_transactions <> []) as Hne by (intros E; rewrite E in Ht0; destruct Ht0).
  destruct (refund_time_lag_value tx h d H Hne) as (lags & lag & Hlags & Hlag & Hd).
  fold refund_transactions in Hlags.
  assert (Forall (fun x => x = g) lags) as Hall.
  { apply List.Forall_forall. intros x Hx.
    apply (mapM_In _ _ _ Hlags) in Hx as (t & Ht & Hx).
    apply filter_In in Ht as [Hin Hamt].
    apply bind_ok in Hx as (refund_date & Hr & Hx).
    rewrite Hdate in Hx. cbn [bind] in Hx. injection Hx as <-.
    by apply (Hsame t refund_date). }
  assert (lags <> []) as Hne'.
  { intros E. rewrite E in Hlags. apply mapM_length in Hlags.
    destruct refund_transactions; [done | discriminate]. }
  rewrite (mean_int_constant lags g Hne' Hall) in Hlag. congruence.
Qed.

(** The Acme charge of 2024-01-02 and its refund of 2024-01-20. *)
Lemma refund_time_lag_of_equal_lags_witness :
  exists d : dict,
    get_refund_features acme_charge [acme_charge; acme_refund] = Ok d
    /\ d !! "refund_time_lag" = Some (VInt 18).
Proof.
  destruct (returns_true (get_refund_features acme_charge [acme_charge; acme_refund]))
    as [d Hd]; [vm_compute; reflexivity|].
  exists d. split; [exact Hd|].
  apply (refund_time_lag_of_equal_lags acme_charge [acme_charge; acme_refund] d
           (Datetime.of_ordinal 738887) 18); [vm_compute; reflexivity | | | exact Hd].
  - exists acme_refund. split; [right; by left | vm_compute; reflexivity].
  - intros t refund_date Hin Hamount Hparse.
    destruct Hin as [<-|[<-|[]]]; [vm_compute in Hamount; discriminate|].
    vm_compute in Hparse. injection Hparse as <-. reflexivity.
Defined.

(** ** Flags *)

Lemma int_of_bool_flag (b : bool) : is_flag (Some (VInt (int_of_bool b))).
Proof. destruct b; [by right | by left]. Qed.

(** Reads a flag of a dictionary display. *)
Ltac flag_lookup :=
  rewrite dict_of_lookup; unfold item_value;
  cbn [fold_left fst snd String.eqb Ascii.eqb Bool.eqb];
  first [apply int_of_bool_flag | by left | by right].

Lemma time_based_flags (tx : Transaction) (h : list Transaction) (d : dict) :
  get_time_based_recurrence_patterns tx h = Ok d ->
  forall k, In k ["is_biweekly"; "is_semimonthly"; "is_monthly"; "is_bimonthly";
                  "is_quarterly"; "is_annual"] -> is_flag (d !! k).
Proof.
  intros H k Hk.
  destruct (Z.lt_ge_cases (len (same_name tx h)) 2) as [Hlt|Hge].
  - rewrite (time_based_below_two tx h Hlt) in H. injection H as <-.
    unfold time_based_defaults. each_key Hk flag_lookup.
  - destruct (sorted_dates (same_name tx h)) as [dates|e] eqn:Hdates.
    + destruct (time_based_computed tx h dates Hge Hdates)
        as (? & ? & ? & ? & _ & _ & _ & _ & H').
      rewrite H' in H. injection H as <-. each_key Hk flag_lookup.
    + unfold get_time_based_recurrence_patterns in H.
      destruct (Z.ltb_spec (len (same_name tx h)) 2); [lia|].
      rewrite Hdates in H. discriminate.
Qed.

Lemma subscription_flags (tx : Transaction) :
  forall k, In k ["is_major_subscription"; "is_telecom_or_insurance"; "is_utility_bill"] ->
            is_flag (get_vendor_subscription_features tx !! k).
Proof.
  intros k Hk. unfold get_vendor_subscription_features. each_key Hk flag_lookup.
Qed.

Lemma amount_based_flags (tx : Transaction) (h : list Transaction) (d : dict) :
  get_amount_based_features tx h = Ok d ->
  forall k, In k ["is_fixed_amount_recurring"; "is_small_subscription";
                  "is_mid_sized_subscription"; "is_large_recurring_payment"] ->
            is_flag (d !! k).
Proof.
  unfold get_amount_based_features. intros H k Hk.
  destruct (same_name tx h) as [|t ts].
  - injection H as <-. unfold amount_defaults. each_key Hk flag_lookup.
  - apply bind_ok in H as (lo & _ & H). apply bind_ok in H as (hi & _ & H).
    injection H as <-. each_key Hk flag_lookup.
Qed.

Lemma additional_flags (tx : Transaction) (h : list Transaction) (d : dict) :
  get_additional_recurring_indicators tx h = Ok d ->
  forall k, In k ["is_first_transaction_with_vendor"; "is_canceled_or_refunded"] ->
            is_flag (d !! k).
Proof.
  unfold get_additional_recurring_indicators. intros H k Hk.
  apply bind_ok in H as (date_obj & _ & H).
  destruct (same_name tx h) as [|t ts].
  - injection H as <-. unfold additional_defaults. each_key Hk flag_lookup.
  - do 5 (apply bind_ok in H as (? & _ & H)). injection H as <-.
    each_key Hk ltac:(first [flag_lookup
                            | rewrite dict_of_lookup; unfold item_value;
                              cbn [fold_left fst snd String.eqb Ascii.eqb Bool.eqb];
                              destruct (Datetime.eqb _ _); [by right | by left]]).
Qed.

Lemma day_of_week_flags (tx : Transaction) (h : list Transaction) (d : dict) :
  get_day_of_week_features tx h = Ok d -> is_flag (d !! "is_weekend").
Proof.
  unfold get_day_of_week_features. intros H.
  do 3 (apply bind_ok in H as (? & _ & H)). injection H as <-. flag_lookup.
Qed.

(** X29: in a feature vector each of the seventeen flags is the integer 0
    or the integer 1. *)
Theorem flags_are_zero_or_one (tx : Transaction) (h : list Transaction) (fv : dict) :
  get_features tx h = Ok fv ->
  forall k, In k flag_keys -> fv !! k = Some (VInt 0) \/ fv !! k = Some (VInt 1).
Proof.
  intros H k Hk. change (is_flag (fv !! k)).
  destruct (get_features_components tx h fv H)
    as (tb & ab & ad & dw & te & ub & rf & valid & Htb & Hab & Had & Hdw & _ & _ & _ & _
        & Ktb & Kab & Kad & Kdw & _ & _ & _ & Kvalid).
  destruct (get_features_total_components tx h fv H) as (Ksub & _).
  unfold flag_keys in Hk. simpl in Hk.
  repeat (destruct Hk as [<-|Hk];
          [first [ rewrite Ktb by (simpl; tauto);
                   apply (time_based_flags tx h tb Htb); simpl; tauto
                 | rewrite Ksub by (simpl; tauto);
                   apply (subscription_flags tx); simpl; tauto
                 | rewrite Kab by (simpl; tauto);
                   apply (amount_based_flags tx h ab Hab); simpl; tauto
                 | rewrite Kad by (simpl; tauto);
                   apply (additional_flags tx h ad Had); simpl; tauto
                 | rewrite Kdw by (simpl; tauto); apply (day_of_week_flags tx h dw Hdw)
                 | rewrite Kvalid; apply int_of_bool_flag ]|]).
  destruct Hk.
Qed.

(** The gym charge of 2024-06-01 and its history. *)
Lemma flags_are_zero_or_one_witness :
  exists fv : dict,
    get_features gym_june gym_history = Ok fv
    /\ forall k, In k flag_keys -> fv !! k = Some (VInt 0) \/ fv !! k = Some (VInt 1).
Proof.
  destruct (returns_true (get_features gym_june gym_history)) as [fv Hfv];
    [vm_compute; reflexivity|].
  exists fv. split; [exact Hfv|]. exact (flags_are_zero_or_one gym_june gym_history fv Hfv).
Defined.

(** ** The dates that are read *)

Lemma mapM_ok_inv {A B : Type} (f : A -> result B) (l : list A) :
  is_ok (mapM f l) -> Forall (fun x => is_ok (f x)) l.
Proof.
  induction l as [|x l IH]; simpl; intros [ys H]; [constructor|].
  apply bind_ok in H as (y & Hy & H). apply bind_ok in H as (ys' & Hys & H).
  constructor; [by exists y | apply IH; by exists ys'].
Qed.

Lemma sorted_dates_ok_inv (ts : list Transaction) :
  is_ok (sorted_dates ts) -> Forall parses ts.
Proof.
  unfold sorted_dates. intros [dates H].
  apply bind_ok in H as (parsed & Hp & _). apply mapM_ok_inv. by exists parsed.
Qed.

Lemma filter_idem {A : Type} (p : A -> bool) (l : list A) :
  List.filter p (List.filter p l) = List.filter p l.
Proof.
  induction l as [|x l IH]; simpl; [done|].
  destruct (p x) eqn:Hx; simpl; [by rewrite Hx, IH | done].
Qed.

(** Three of the functions read the history through its same-vendor
    transactions only. *)
Lemma same_name_only (tx : Transaction) (h : list Transaction) :
  get_time_based_recurrence_patterns tx (same_name tx h)
  = get_time_based_recurrence_patterns tx h
  /\ get_day_of_week_features tx (same_name tx h) = get_day_of_week_features tx h
  /\ get_temporal_features tx (same_name tx h) = get_temporal_features tx h.
Proof.
  assert (same_name tx (same_name tx h) = same_name tx h) as E by apply filter_idem.
  unfold get_time_based_recurrence_patterns, get_day_of_week_features,
    get_temporal_features.
  by rewrite E.
Qed.

Lemma additional_needs (tx : Transaction) (h : list Transaction) (date_obj : datetime) :
  parse_date tx = Ok date_obj ->
  Forall parses (same_name tx h) ->
  (same_name tx h <> [] -> 180 < Datetime.toordinal date_obj) ->
  is_ok (get_additional_recurring_indicators tx h).
Proof.
  intros Hdate Hh Hrange. unfold get_additional_recurring_indicators.
  rewrite Hdate. cbn [bind].
  destruct (same_name tx h) as [|t ts] eqn:Hm; [by eexists|].
  destruct (sorted_dates_ok (t :: ts) Hh) as [dates Hdates].
  rewrite Hdates. cbn [bind].
  pose proof (strptime_range _ _ Hdate) as Hr.
  specialize (Hrange ltac:(done)).
  destruct (sub_timedelta_ok date_obj 90) as [three H3]; [lia|lia|].
  destruct (sub_timedelta_ok date_obj 180) as [six H6]; [lia|lia|].
  rewrite H3, H6. cbn [bind].
  destruct (day_std_dev_ok (map Datetime.day dates)) as [dev Hdev].
  rewrite Hdev. cbn [bind].
  destruct (getitem_ok dates 0) as [first Hfirst].
  { apply sorted_dates_length in Hdates. unfold len. rewrite Hdates. simpl. lia. }
  rewrite Hfirst. cbn [bind]. by eexists.
Qed.

Lemma refund_needs (tx : Transaction) (h : list Transaction) :
  parses tx -> Forall parses (negated_amount tx h) -> is_ok (get_refund_features tx h).
Proof.
  intros [date_obj Hdate] Hh. unfold get_refund_features. unfold negated_amount in Hh.
  destruct (List.filter _ h) as [|t ts] eqn:Hf; [by eexists|].
  rewrite int_truediv_ok by (apply (filter_nonempty_len _ _ ltac:(by rewrite Hf))).
  cbn [bind].
  match goal with |- context [mapM ?f (t :: ts)] =>
    destruct (mapM_ok_all f (t :: ts)) as [lags Hlags] end.
  { rewrite List.Forall_forall in Hh |- *. intros x Hx.
    destruct (Hh x Hx) as [dx Hdx]. rewrite Hdx, Hdate. by eexists. }
  rewrite Hlags. cbn [bind].
  destruct lags as [|lag lags]; [by eexists|].
  destruct (mean_int_ok (lag :: lags)) as [avg Havg]; [done|].
  rewrite Havg. by eexists.
Qed.

Lemma refund_reads (tx : Transaction) (h : list Transaction) :
  is_ok (get_refund_features tx h) -> Forall parses (negated_amount tx h).
Proof.
  unfold get_refund_features, negated_amount. intros [d H].
  destruct (List.filter _ h) as [|t ts] eqn:Hf; [constructor|].
  apply bind_ok in H as (rate & _ & H). apply bind_ok in H as (lags & Hlags & _).
  assert (is_ok (mapM (fun t => let* refund_date := parse_date t in
                                let* charge_date := parse_date tx in
                                Ok (Datetime.sub_days refund_date charge_date)) (t :: ts)))
    as Hok by (by exists lags).
  apply mapM_ok_inv in Hok.
  eapply Forall_impl; [exact Hok|]. cbn beta. intros x [lag Hx].
  apply bind_ok in Hx as (dx & Hdx & _). by exists dx.
Qed.

(** When [get_features] returns, in the vocabulary of the lemmas above. *)
Lemma get_features_returns_exactly (tx : Transaction) (h : list Transaction) :
  is_ok (get_features tx h)
  <-> (exists date_obj,
         parse_date tx = Ok date_obj
         /\ (same_name tx h <> [] -> 180 < Datetime.toordinal date_obj))
      /\ Forall parses (same_name tx h)
      /\ Forall parses (negated_amount tx h)
      /\ (Str.lower (name tx) = "apple" -> Float.is_finite (amount tx) = true).
Proof.
  split.
  - intros [fv H].
    destruct (get_features_components tx h fv H)
      as (tb & ab & ad & dw & te & ub & rf & valid & _ & _ & Had & Hdw & _ & _ & Hrf & Hv & _).
    assert (exists date_obj, parse_date tx = Ok date_obj) as [date_obj Hdate].
    { unfold get_day_of_week_features in Hdw.
      apply bind_ok in Hdw as (date_obj & Hdate & _). by exists date_obj. }
    repeat split.
    + exists date_obj. split; [done|]. intros Hne.
      unfold get_additional_recurring_indicators in Had. rewrite Hdate in Had.
      cbn [bind] in Had. destruct (same_name tx h) as [|t ts]; [done|].
      apply bind_ok in Had as (dates & _ & Had).
      apply bind_ok in Had as (three & _ & Had).
      apply bind_ok in Had as (six & H6 & _).
      unfold Datetime.sub_timedelta in H6.
      destruct (Z.ltb_spec 0 (Datetime.toordinal date_obj - 180)); [lia | discriminate].
    + unfold get_day_of_week_features in Hdw. rewrite Hdate in Hdw. cbn [bind] in Hdw.
      apply bind_ok in Hdw as (dates & Hdates & _).
      apply sorted_dates_ok_inv. by exists dates.
    + apply refund_reads. by exists rf.
    + intros Happle.
      destruct (amount tx) as [s|s| |s m e] eqn:Ea; try reflexivity; exfalso.
      * unfold validate_recurring_transaction in Hv. rewrite Happle, Ea in Hv.
        vm_compute in Hv. discriminate.
      * unfold validate_recurring_transaction in Hv. rewrite Happle, Ea in Hv.
        vm_compute in Hv. discriminate.
  - intros ((date_obj & Hdate & Hrange) & Hsame & Hneg & Hfin).
    assert (parses tx) as Htx by (by exists date_obj).
    destruct (same_name_only tx h) as (Etb & Edw & Ete).
    pose proof (same_name_parses tx _ Hsame) as Hsame'.
    pose proof (percent_same_amount_ok tx h) as H1.
    pose proof (time_based_ok tx _ Hsame) as H2. rewrite Etb in H2.
    pose proof (amount_based_ok tx h) as H3.
    pose proof (additional_needs tx h date_obj Hdate Hsame Hrange) as H4.
    pose proof (day_of_week_ok tx _ Htx Hsame) as H5. rewrite Edw in H5.
    pose proof (temporal_ok tx _ Htx Hsame) as H6. rewrite Ete in H6.
    pose proof (user_behavior_ok tx h) as H7.
    pose proof (refund_needs tx h Htx Hneg) as H8.
    pose proof (validate_ok tx Hfin) as H9.
    destruct H1 as [? E1], H2 as [? E2], H3 as [? E3], H4 as [? E4], H5 as [? E5],
      H6 as [? E6], H7 as [? E7], H8 as [? E8], H9 as [? E9].
    unfold get_features.
    rewrite E1, E2, E3, E4, E5, E6, E7, E8, E9. cbn [bind]. by eexists.
Qed.

Lemma negated_amount_In (tx t : Transaction) (h : list Transaction) :
  In t (negated_amount tx h)
  <-> In t h /\ Float.eqb (amount t) (Float.opp (amount tx)) = true.
Proof. unfold negated_amount. apply filter_In. Qed.

Lemma same_name_In_iff (tx t : Transaction) (h : list Transaction) :
  In t (same_name tx h) <-> In t h /\ name t = name tx.
Proof. unfold same_name. rewrite filter_In, String.eqb_eq. reflexivity. Qed.

(** X30: for a transaction and a history whose dates are ASCII text,
    [get_features] returns exactly when the date of the transaction parses,
    the date of every transaction of the history that has the name of the
    transaction or the negated amount of the transaction parses, the
    transaction is dated 0001-06-30 or later (its ordinal exceeds 180) when
    the history holds a transaction with its name, and an Apple amount is
    finite.  The dates of the other transactions of the history are not
    read. *)
Theorem get_features_returns_iff (tx : Transaction) (h : list Transaction) :
  Forall (fun t => ascii_text (date t) = true) (tx :: h) ->
  is_ok (get_features tx h)
  <-> (exists date_obj : datetime,
         Datetime.strptime (date tx) = Ok date_obj
         /\ ((exists t, In t h /\ name t = name tx) -> 180 < Datetime.toordinal date_obj))
      /\ (forall t, In t h -> name t = name tx -> is_ok (Datetime.strptime (date t)))
      /\ (forall t, In t h -> Float.eqb (amount t) (Float.opp (amount tx)) = true ->
                    is_ok (Datetime.strptime (date t)))
      /\ (Str.lower (name tx) = "apple" -> Float.is_finite (amount tx) = true).
Proof.
  intros _. rewrite get_features_returns_exactly.
  unfold parses, parse_date. rewrite !List.Forall_forall.
  setoid_rewrite same_name_nonempty. setoid_rewrite same_name_In_iff.
  setoid_rewrite negated_amount_In.
  split; intros (Hdate & Hsame & Hneg & Hfin); repeat split; try done.
  - intros t Hin Hn. by apply Hsame.
  - intros t Hin Ha. by apply Hneg.
  - intros t [Hin Hn]. by apply Hsame.
  - intros t [Hin Ha]. by apply Hneg.
Qed.

(** A gym charge against its history and an Acme charge whose date is no
    date. *)
Lemma get_features_returns_iff_witness :
  returns (Datetime.strptime (date undated_acme)) = false
  /\ is_ok (get_features gym_june (undated_acme :: gym_history)).
Proof.
  split; [reflexivity|].
  apply (proj2 (get_features_returns_iff gym_june (undated_acme :: gym_history)
                  ltac:(repeat constructor))).
  split; [|split; [|split]].
  - exists (Datetime.of_ordinal 739038). split; [vm_compute; reflexivity|].
    intros _. vm_compute. reflexivity.
  - intros t Hin Hn. apply returns_true.
    repeat (destruct Hin as [<-|Hin]; [first [discriminate Hn | vm_compute; reflexivity]|]).
    destruct Hin.
  - intros t Hin Ha.
    repeat (destruct Hin as [<-|Hin]; [vm_compute in Ha; discriminate Ha|]).
    destruct Hin.
  - intros H. vm_compute in H. discriminate.
Defined.
